(** * ai_ppt_framework: layout engine, content fitting and analysis parser

    A shallow embedding of the parts of the framework that decide how a
    slide is laid out:

    - [src/visual/layout_system.py]: the layout catalog of [LayoutEngine],
      [get_layout], [calculate_optimal_layout], [validate_text_length],
      [optimize_bullet_points], [calculate_font_size], and the cover
      fitting arithmetic of [BackgroundManager.prepare_background_image];
    - [src/presentation/factory.py]: the line scanner
      [PresentationFactory._parse_analysis_result].

    Conventions of the embedding.

    - A Python [str] is a [string]; a character is a code point below 256
      (Latin-1), which covers every marker the program looks for.
    - A Python [int] is a [Z].
    - A Python [float] is a binary64 number, represented by its exact
      rational value in [Q].  Every float operation returns the exact
      result rounded to the nearest number with 53 significant bits, ties
      to even ([round53]).  The exponent range is not modelled: the
      quantities of this program are pixel counts, character counts and
      point sizes, far from overflow and underflow.
    - A Python exception is a value [Raise name] of the result type.
    - [layouts], a Python [dict] keyed by the enumeration [LayoutType], is
      a [gmap]. *)

From Stdlib Require Import ZArith QArith Qpower Qfield Qround Qabs Lia Lqa.
From Stdlib Require Import List Ascii String Bool Permutation Sorted.
From Stdlib Require Import DecimalString.
From Stdlib Require Import PrimFloat FloatOps SpecFloat.
From stdpp Require Import countable gmap.
Import ListNotations.

Local Open Scope string_scope.
Local Open Scope Z_scope.

(* ===================================================================== *)
(** * Part I. Definitions                                                 *)
(* ===================================================================== *)

(** ** Exceptions *)

Module Py.

(** The outcome of a Python call: a value, or a raised exception known
    by the name of its class. *)
Inductive result (A : Type) : Type :=
| Ok (a : A)
| Raise (exc : string).
Arguments Ok {A} a.
Arguments Raise {A} exc.

Definition bind {A B : Type} (m : result A) (k : A -> result B) : result B :=
  match m with
  | Ok a => k a
  | Raise e => Raise e
  end.

Definition raises {A : Type} (m : result A) : bool :=
  match m with
  | Ok _ => false
  | Raise _ => true
  end.

End Py.

Notation "'let*' x ':=' m 'in' k" := (Py.bind m (fun x => k))
  (at level 10, x name, m at level 100, k at level 200).

(** ** Python strings *)

Module PyStr.

Definition code (c : ascii) : Z := Z.of_N (N_of_ascii c).

(** [len(s)] *)
Definition len (s : string) : Z := Z.of_nat (String.length s).

(** The first [n] characters of [s]. *)
Fixpoint take (n : nat) (s : string) : string :=
  match n, s with
  | O, _ => EmptyString
  | S _, EmptyString => EmptyString
  | S n', String c s' => String c (take n' s')
  end.

(** [s] without its first [n] characters. *)
Fixpoint drop (n : nat) (s : string) : string :=
  match n, s with
  | O, _ => s
  | S _, EmptyString => EmptyString
  | S n', String _ s' => drop n' s'
  end.

(** [s[:n]]: a negative [n] counts from the end of the string. *)
Definition slice_to (s : string) (n : Z) : string :=
  if 0 <=? n then take (Z.to_nat n) s
  else take (Z.to_nat (len s + n)) s.

(** [s.startswith(p)] *)
Fixpoint startswith (s p : string) : bool :=
  match p, s with
  | EmptyString, _ => true
  | String _ _, EmptyString => false
  | String a p', String b s' => Ascii.eqb a b && startswith s' p'
  end.

(** [sub in s] *)
Fixpoint contains (sub s : string) : bool :=
  startswith s sub ||
  match s with
  | EmptyString => false
  | String _ s' => contains sub s'
  end.

(** [s.rfind(c)] for a one-character needle: the highest index of [c] in
    [s], or -1. *)
Fixpoint rfind (s : string) (c : ascii) : Z :=
  match s with
  | EmptyString => -1
  | String a s' =>
      let r := rfind s' c in
      if 0 <=? r then r + 1
      else if Ascii.eqb a c then 0 else -1
  end.

(** [s.replace(old, new)] for a non-empty [old]: occurrences are taken
    from the left and do not overlap.  [skip] counts the characters of a
    matched occurrence still to be passed over. *)
Fixpoint replace_from (skip : nat) (old new s : string) : string :=
  match s with
  | EmptyString => EmptyString
  | String c s' =>
      match skip with
      | S k => replace_from k old new s'
      | O =>
          if startswith s old
          then new ++ replace_from (Nat.pred (String.length old)) old new s'
          else String c (replace_from O old new s')
      end
  end.

Definition replace (s old new : string) : string := replace_from O old new s.

(** [c.isspace()] on the code points below 256. *)
Definition isspace (c : ascii) : bool :=
  let n := code c in
  ((9 <=? n) && (n <=? 13)) || ((28 <=? n) && (n <=? 32))
  || (n =? 133) || (n =? 160).

Fixpoint lstrip (s : string) : string :=
  match s with
  | EmptyString => EmptyString
  | String c s' => if isspace c then lstrip s' else s
  end.

Fixpoint rstrip (s : string) : string :=
  match s with
  | EmptyString => EmptyString
  | String c s' =>
      match rstrip s' with
      | EmptyString => if isspace c then EmptyString else String c EmptyString
      | r => String c r
      end
  end.

(** [s.strip()] *)
Definition strip (s : string) : string := rstrip (lstrip s).

Definition newline : ascii := ascii_of_nat 10.

(** [s.split(sep)] for a one-character separator: never an empty list. *)
Fixpoint split (s : string) (sep : ascii) : list string :=
  match s with
  | EmptyString => [EmptyString]
  | String c s' =>
      if Ascii.eqb c sep then EmptyString :: split s' sep
      else match split s' sep with
           | [] => [String c EmptyString]
           | w :: ws => String c w :: ws
           end
  end.

(** [c.lower()] on the code points below 256: the letters A-Z and the
    accented capitals 192-222 other than the multiplication sign. *)
Definition lower_char (c : ascii) : ascii :=
  let n := code c in
  if ((65 <=? n) && (n <=? 90))
     || ((192 <=? n) && (n <=? 222) && negb (n =? 215))
  then ascii_of_N (Z.to_N (n + 32))
  else c.

(** [s.lower()] *)
Fixpoint lower (s : string) : string :=
  match s with
  | EmptyString => EmptyString
  | String c s' => String (lower_char c) (lower s')
  end.

(** Truth value of a string: [bool(s)]. *)
Definition truthy (s : string) : bool :=
  match s with
  | EmptyString => false
  | String _ _ => true
  end.

(** [s.split()]: the words of [s], the runs of characters that are not
    whitespace; none for a blank string. *)
Fixpoint split_ws (s : string) : list string :=
  match s with
  | EmptyString => []
  | String c s' =>
      if isspace c then split_ws s'
      else
        match s' with
        | EmptyString => [String c EmptyString]
        | String c' _ =>
            if isspace c' then String c EmptyString :: split_ws s'
            else
              match split_ws s' with
              | w :: ws => String c w :: ws
              | [] => [String c EmptyString]
              end
        end
  end.

(** [str(n)] for a natural number. *)
Definition str_of_nat (n : nat) : string :=
  NilEmpty.string_of_uint (Nat.to_uint n).

(** Lines joined by line feeds, to write multi-line inputs. *)
Fixpoint unlines (ls : list string) : string :=
  match ls with
  | [] => EmptyString
  | [l] => l
  | l :: ls' => l ++ String newline (unlines ls')
  end.

End PyStr.

(** ** Python floats *)

Module PyFloat.

Local Open Scope Q_scope.

(** The exact value of a binary64 number. *)
Definition float : Type := Q.

Definition pow2 (e : Z) : Q := Qpower 2 e.

(** The integer nearest to [x], ties to even. *)
Definition rne (x : Q) : Z :=
  let f := Qfloor x in
  match Qcompare (x - inject_Z f) (1 # 2) with
  | Lt => f
  | Gt => (f + 1)%Z
  | Eq => if Z.even f then f else (f + 1)%Z
  end.

(** For [x > 0], the exponent [e] of the last place of its 53-bit
    significand: [2^52 <= x / 2^e < 2^53]. *)
Definition ulp_exp (x : Q) : Z :=
  let e0 := (Z.log2 (Qnum x) - Z.log2 (Zpos (Qden x)) - 52)%Z in
  if Qle_bool (pow2 (e0 + 52)) x then e0 else (e0 - 1)%Z.

(** A positive [x] rounded to 53 significant bits. *)
Definition round_pos (x : Q) : Q :=
  let e := ulp_exp x in
  Qred (inject_Z (rne (x / pow2 e)) * pow2 e).

(** Rounding to nearest, ties to even, at 53 bits of precision. *)
Definition round53 (x : Q) : float :=
  match Qnum x with
  | Z0 => 0
  | Zpos _ => round_pos x
  | Zneg _ => - round_pos (- x)
  end.

(** [float(n)] *)
Definition of_int (n : Z) : float := round53 (inject_Z n).

(** A decimal literal such as [0.7], written [lit 7 10]. *)
Definition lit (n : Z) (d : positive) : float := round53 (n # d).

Definition add (x y : float) : float := round53 (x + y).
Definition sub (x y : float) : float := round53 (x - y).
Definition mul (x y : float) : float := round53 (x * y).

Definition is_zero (x : float) : bool := Qeq_bool x 0.

(** The rounded quotient by a divisor known not to be zero. *)
Definition quotient (x y : float) : float := round53 (x / y).

(** [x / y] on floats. *)
Definition div (x y : float) : Py.result float :=
  if is_zero y then Py.Raise "ZeroDivisionError"
  else Py.Ok (quotient x y).

(** [a / b] on ints: true division, correctly rounded. *)
Definition truediv (a b : Z) : Py.result float :=
  if (b =? 0)%Z then Py.Raise "ZeroDivisionError"
  else Py.Ok (quotient (inject_Z a) (inject_Z b)).

(** [x > y] and [x < y]; an int compared with a float is compared by
    value. *)
Definition gtb (x y : Q) : bool := negb (Qle_bool x y).
Definition ltb (x y : Q) : bool := negb (Qle_bool y x).

(** [int(x)]: truncation towards zero. *)
Definition to_int (x : float) : Z := Z.quot (Qnum x) (Zpos (Qden x)).

(** The value of a kernel binary64 number, to compare [round53] with the
    hardware arithmetic on samples. *)
Definition of_binary64 (f : PrimFloat.float) : option Q :=
  match Prim2SF f with
  | S754_zero _ => Some 0
  | S754_finite s m e =>
      Some (Qred ((if s then - (1) else 1) * inject_Z (Zpos m) * pow2 e))
  | _ => None
  end.

End PyFloat.

(** ** [src/visual/layout_system.py] *)

Module LayoutSystem.

Import PyFloat.

(** Standard slide dimensions (16:9), in inches and in pixels. *)
Definition SLIDE_WIDTH : float := lit 1333 100.
Definition SLIDE_HEIGHT : float := lit 75 10.
Definition SLIDE_WIDTH_PX : Z := 1920.
Definition SLIDE_HEIGHT_PX : Z := 1080.

(** Safe zones and margins, in inches. *)
Definition MARGIN_TOP : float := lit 5 10.
Definition MARGIN_BOTTOM : float := lit 5 10.
Definition MARGIN_LEFT : float := lit 5 10.
Definition MARGIN_RIGHT : float := lit 5 10.

(** [class LayoutType(Enum)] *)
Inductive LayoutType : Type :=
| TITLE_SLIDE
| TITLE_CONTENT
| TWO_COLUMN
| IMAGE_TEXT
| CONTENT_ONLY
| DIAGRAM_FOCUS
| FULL_IMAGE.

(** The [.value] of a member. *)
Definition layout_value (t : LayoutType) : string :=
  match t with
  | TITLE_SLIDE => "title_slide"
  | TITLE_CONTENT => "title_content"
  | TWO_COLUMN => "two_column"
  | IMAGE_TEXT => "image_text"
  | CONTENT_ONLY => "content_only"
  | DIAGRAM_FOCUS => "diagram_focus"
  | FULL_IMAGE => "full_image"
  end.

Definition layout_index (t : LayoutType) : nat :=
  match t with
  | TITLE_SLIDE => 0
  | TITLE_CONTENT => 1
  | TWO_COLUMN => 2
  | IMAGE_TEXT => 3
  | CONTENT_ONLY => 4
  | DIAGRAM_FOCUS => 5
  | FULL_IMAGE => 6
  end.

Definition layout_of_index (n : nat) : option LayoutType :=
  match n with
  | 0%nat => Some TITLE_SLIDE
  | 1%nat => Some TITLE_CONTENT
  | 2%nat => Some TWO_COLUMN
  | 3%nat => Some IMAGE_TEXT
  | 4%nat => Some CONTENT_ONLY
  | 5%nat => Some DIAGRAM_FOCUS
  | 6%nat => Some FULL_IMAGE
  | _ => None
  end.

#[global] Instance LayoutType_eq_dec : EqDecision LayoutType.
Proof. solve_decision. Defined.

#[global] Instance LayoutType_countable : Countable LayoutType.
Proof.
  refine (inj_countable layout_index layout_of_index _).
  intros t; destruct t; reflexivity.
Defined.

(** [class AlignmentType(Enum)] *)
Inductive AlignmentType : Type :=
| LEFT | CENTER | RIGHT | JUSTIFY | TOP | MIDDLE | BOTTOM.

(** [@dataclass Position]: inches from the left and from the top, size in
    inches, layering order. *)
Record Position : Type := mkPosition {
  x : float;
  y : float;
  width : float;
  height : float;
  z_index : Z
}.

(** [@dataclass LayoutRegion] *)
Record LayoutRegion : Type := mkRegion {
  name : string;
  position : Position;
  alignment : AlignmentType;
  max_text_length : option Z;
  font_size_range : Z * Z
}.

(** The defaults of the dataclass fields. *)
Definition no_max_text_length : option Z := None.
Definition default_font_size_range : Z * Z := (12, 24).

(** [SLIDE_WIDTH - MARGIN_LEFT - MARGIN_RIGHT] *)
Definition inner_width : float := sub (sub SLIDE_WIDTH MARGIN_LEFT) MARGIN_RIGHT.

(** [SLIDE_HEIGHT - MARGIN_TOP - MARGIN_BOTTOM - d] *)
Definition inner_height (d : float) : float :=
  sub (sub (sub SLIDE_HEIGHT MARGIN_TOP) MARGIN_BOTTOM) d.

Definition title_slide_regions : list LayoutRegion :=
  [ mkRegion "title"
      (mkPosition MARGIN_LEFT (lit 2 1) inner_width (lit 15 10) 10)
      CENTER no_max_text_length (36, 48);
    mkRegion "subtitle"
      (mkPosition MARGIN_LEFT (lit 4 1) inner_width (lit 1 1) 10)
      CENTER no_max_text_length (18, 24) ].

Definition title_content_regions : list LayoutRegion :=
  [ mkRegion "title"
      (mkPosition MARGIN_LEFT MARGIN_TOP inner_width (lit 1 1) 10)
      LEFT no_max_text_length (24, 32);
    mkRegion "content"
      (mkPosition MARGIN_LEFT (add MARGIN_TOP (lit 12 10))
                  inner_width (inner_height (lit 12 10)) 5)
      LEFT (Some 500) (14, 18) ].

Definition two_column_regions : list LayoutRegion :=
  [ mkRegion "title"
      (mkPosition MARGIN_LEFT MARGIN_TOP inner_width (lit 1 1) 10)
      LEFT no_max_text_length (24, 32);
    mkRegion "left_content"
      (mkPosition MARGIN_LEFT (add MARGIN_TOP (lit 12 10))
                  (quotient (sub inner_width (lit 2 10)) (of_int 2))
                  (inner_height (lit 12 10)) 5)
      LEFT (Some 250) (12, 16);
    mkRegion "right_content"
      (mkPosition (add (add MARGIN_LEFT (quotient inner_width (of_int 2)))
                       (lit 1 10))
                  (add MARGIN_TOP (lit 12 10))
                  (quotient (sub inner_width (lit 2 10)) (of_int 2))
                  (inner_height (lit 12 10)) 5)
      LEFT (Some 250) (12, 16) ].

Definition image_text_regions : list LayoutRegion :=
  [ mkRegion "title"
      (mkPosition MARGIN_LEFT MARGIN_TOP inner_width (lit 1 1) 10)
      LEFT no_max_text_length (24, 32);
    mkRegion "image"
      (mkPosition MARGIN_LEFT (add MARGIN_TOP (lit 12 10))
                  (mul inner_width (lit 6 10))
                  (inner_height (lit 12 10)) 3)
      CENTER no_max_text_length default_font_size_range;
    mkRegion "text_content"
      (mkPosition (add MARGIN_LEFT (mul inner_width (lit 65 100)))
                  (add MARGIN_TOP (lit 12 10))
                  (sub (mul inner_width (lit 35 100)) (lit 1 10))
                  (inner_height (lit 12 10)) 5)
      LEFT (Some 300) (12, 16) ].

Definition diagram_focus_regions : list LayoutRegion :=
  [ mkRegion "title"
      (mkPosition MARGIN_LEFT MARGIN_TOP inner_width (lit 8 10) 10)
      CENTER no_max_text_length (20, 28);
    mkRegion "diagram"
      (mkPosition (add MARGIN_LEFT (lit 1 1)) (add MARGIN_TOP (lit 1 1))
                  (sub inner_width (lit 2 1)) (inner_height (lit 2 1)) 3)
      CENTER no_max_text_length default_font_size_range;
    mkRegion "caption"
      (mkPosition MARGIN_LEFT
                  (sub (sub SLIDE_HEIGHT MARGIN_BOTTOM) (lit 6 10))
                  inner_width (lit 5 10) 5)
      CENTER (Some 100) (10, 14) ].

(** [LayoutEngine._initialize_layouts]: the dictionary [self.layouts],
    filled in the order of the source. *)
Definition layouts : gmap LayoutType (list LayoutRegion) :=
  <[DIAGRAM_FOCUS := diagram_focus_regions]>
  (<[IMAGE_TEXT := image_text_regions]>
  (<[TWO_COLUMN := two_column_regions]>
  (<[TITLE_CONTENT := title_content_regions]>
  (<[TITLE_SLIDE := title_slide_regions]> ∅)))).

(** [d[k]] on a dictionary. *)
Definition getitem {V : Type} (d : gmap LayoutType V) (k : LayoutType)
  : Py.result V :=
  match d !! k with
  | Some v => Py.Ok v
  | None => Py.Raise "KeyError"
  end.

(** [LayoutEngine.get_layout]:
    [self.layouts.get(layout_type, self.layouts[LayoutType.TITLE_CONTENT])];
    the fallback argument is evaluated before the lookup. *)
Definition get_layout (layout_type : LayoutType)
  : Py.result (list LayoutRegion) :=
  let* fallback := getitem layouts TITLE_CONTENT in
  Py.Ok (default fallback (layouts !! layout_type)).

(** [LayoutEngine.calculate_optimal_layout] *)
Definition calculate_optimal_layout
    (content_type : string) (has_image has_diagram : bool) : LayoutType :=
  if String.eqb content_type "title_slide" then TITLE_SLIDE
  else if has_diagram then DIAGRAM_FOCUS
  else if has_image then IMAGE_TEXT
  else if existsb (String.eqb content_type) ["features"; "comparison"]
  then TWO_COLUMN
  else TITLE_CONTENT.

(** [LayoutEngine.validate_text_length] *)
Definition validate_text_length (text : string) (region : LayoutRegion)
  : string * bool :=
  match max_text_length region with
  | None => (text, false)
  | Some limit =>
      if PyStr.len text <=? limit then (text, false)
      else
        let truncated := PyStr.slice_to text (limit - 3) in
        let last_period := PyStr.rfind truncated "."%char in
        if gtb (inject_Z last_period) (mul (of_int limit) (lit 7 10))
        then (PyStr.slice_to truncated (last_period + 1), true)
        else
          let last_space := PyStr.rfind truncated " "%char in
          if gtb (inject_Z last_space) (mul (of_int limit) (lit 8 10))
          then (PyStr.slice_to truncated last_space ++ "...", true)
          else (truncated ++ "...", true)
  end.

Definition important_keywords : list string :=
  ["key"; "important"; "critical"; "main"; "primary"].

(** The score of one point in [optimize_bullet_points]. *)
Definition total_score (point : string) : Z :=
  let length_score := Z.max 0 (100 - PyStr.len point) in
  let keyword_score :=
    fold_left
      (fun acc keyword =>
         if PyStr.contains keyword (PyStr.lower point) then acc + 10 else acc)
      important_keywords 0 in
  length_score + keyword_score.

(** [list.sort(key=lambda x: x[1], reverse=True)]: a stable sort by
    decreasing score.  The head goes in front of the first element whose
    score is not greater than its own, so that it stays ahead of the
    later elements of equal score. *)
Fixpoint insert_by_score (p : string * Z) (l : list (string * Z))
  : list (string * Z) :=
  match l with
  | [] => [p]
  | q :: l' =>
      if snd p <? snd q then q :: insert_by_score p l' else p :: l
  end.

Fixpoint sort_by_score (l : list (string * Z)) : list (string * Z) :=
  match l with
  | [] => []
  | p :: l' => insert_by_score p (sort_by_score l')
  end.

(** [l[:n]] on a list: a negative [n] counts from the end. *)
Definition list_slice_to {A : Type} (l : list A) (n : Z) : list A :=
  if 0 <=? n then firstn (Z.to_nat n) l
  else firstn (Z.to_nat (Z.of_nat (List.length l) + n)) l.

(** [LayoutEngine.optimize_bullet_points] *)
Definition optimize_bullet_points (points : list string) (max_points : Z)
  : list string :=
  if Z.of_nat (List.length points) <=? max_points then points
  else
    let scored_points := map (fun point => (point, total_score point)) points in
    map fst (list_slice_to (sort_by_score scored_points) max_points).

Definition default_max_points : Z := 4.

(** [LayoutEngine.calculate_font_size] *)
Definition calculate_font_size (text : string) (region : LayoutRegion) : Z :=
  let '(min_size, max_size) := font_size_range region in
  if PyStr.len text <? 50 then max_size
  else if PyStr.len text <? 150 then
    to_int (add (of_int min_size) (mul (of_int (max_size - min_size)) (lit 7 10)))
  else if PyStr.len text <? 300 then
    to_int (add (of_int min_size) (mul (of_int (max_size - min_size)) (lit 4 10)))
  else min_size.

(** *** [BackgroundManager.prepare_background_image] *)

(** What the function asks of PIL: the size [(new_width, new_height)] of
    the first resize, and the box [(left, upper, right, lower)] cropped
    out of the resized picture. *)
Record CoverGeometry : Type := mkCover {
  resized : Z * Z;
  crop_box : Z * Z * Z * Z
}.

(** The arithmetic of the function, from the aspect ratios to the crop
    box. *)
Definition cover_geometry (img_width img_height slide_width slide_height : Z)
  : Py.result CoverGeometry :=
  let* img_ratio := truediv img_width img_height in
  let* slide_ratio := truediv slide_width slide_height in
  if gtb img_ratio slide_ratio then
    (* Image is wider - scale by height and crop width *)
    let new_height := slide_height in
    let new_width := to_int (mul (of_int new_height) img_ratio) in
    let left := (new_width - slide_width) / 2 in
    Py.Ok (mkCover (new_width, new_height)
                   (left, 0, left + slide_width, slide_height))
  else
    (* Image is taller - scale by width and crop height *)
    let new_width := slide_width in
    let* scaled := div (of_int new_width) img_ratio in
    let new_height := to_int scaled in
    let top := (new_height - slide_height) / 2 in
    Py.Ok (mkCover (new_width, new_height)
                   (0, top, slide_width, top + slide_height)).

(** The crop box lies within the picture it is cut from. *)
Definition crop_within (g : CoverGeometry) : bool :=
  let '(w, h) := resized g in
  let '(x0, y0, x1, y1) := crop_box g in
  (0 <=? x0) && (x0 <=? x1) && (x1 <=? w)
  && (0 <=? y0) && (y0 <=? y1) && (y1 <=? h).

Section BackgroundManager.

(** PIL's [Image.open]: the size [(width, height)] of the picture at a
    path, or an exception. *)
Variable image_open : string -> Py.result (Z * Z).

(** The rest of PIL's work: both resizes, the crop and the save; the
    path of the file written, or an exception. *)
Variable image_write : string -> CoverGeometry -> Z -> Z -> Py.result string.



End BackgroundManager.

End LayoutSystem.

(** ** [src/design/themes.py] and [src/presentation/base_engine.py] *)

Module BaseEngine.

(** [class DesignTheme(Enum)] *)
Inductive DesignTheme : Type :=
| CORPORATE_MODERN
| CREATIVE_GRADIENT
| MINIMALIST_LUXURY
| TECH_INNOVATION
| ADOBE_INSPIRED
| BEHANCE_STYLE.

Definition theme_value (t : DesignTheme) : string :=
  match t with
  | CORPORATE_MODERN => "corporate_modern"
  | CREATIVE_GRADIENT => "creative_gradient"
  | MINIMALIST_LUXURY => "minimalist_luxury"
  | TECH_INNOVATION => "tech_innovation"
  | ADOBE_INSPIRED => "adobe_inspired"
  | BEHANCE_STYLE => "behance_style"
  end.

Definition all_themes : list DesignTheme :=
  [CORPORATE_MODERN; CREATIVE_GRADIENT; MINIMALIST_LUXURY;
   TECH_INNOVATION; ADOBE_INSPIRED; BEHANCE_STYLE].

(** [DesignTheme(value)]: the member with that value, or [ValueError]. *)
Definition DesignTheme_call (value : string) : Py.result DesignTheme :=
  match List.find (fun t => String.eqb (theme_value t) value) all_themes with
  | Some t => Py.Ok t
  | None => Py.Raise "ValueError"
  end.

(** [class SlideData]: the fields the parser sets; the colour fields keep
    their default [None]. *)
Record SlideData : Type := mkSlideData {
  title : string;
  points : list string;
  theme : DesignTheme;
  slide_type : string;
  background_image : option string;
  diagram_image : option string;
  feature_icons : list string
}.

(** *** [BasePresentationEngine.create_full_presentation] *)

(** The calls the method makes on the engine. *)
Inductive Call : Type :=
| create_presentation (title : string)
| add_title_slide (title subtitle : string) (theme : DesignTheme)
| add_slide (slide_data : SlideData)
| save_presentation (filepath : string)
| close_presentation.

Section FullPresentation.

(** An engine, by the outcome of each call after the calls made before
    it.  [save_presentation] returns a truth value; the value of the
    other calls is not used. *)
Variable outcome : list Call -> Call -> Py.result bool.

(** [isinstance(e, Exception)], by the name of the class of [e]: false
    for [SystemExit], [KeyboardInterrupt] and the other classes that
    derive from [BaseException] only. *)
Variable is_exception : string -> bool.

(** A computation on the engine: from the calls made so far to the
    calls made after it and its outcome. *)
Definition Run (A : Type) : Type := list Call -> list Call * Py.result A.

Definition ret {A : Type} (a : A) : Run A := fun history => (history, Py.Ok a).

Definition and_then {A B : Type} (m : Run A) (k : A -> Run B) : Run B :=
  fun history =>
    match m history with
    | (history', Py.Ok a) => k a history'
    | (history', Py.Raise exc) => (history', Py.Raise exc)
    end.

Definition perform (c : Call) : Run bool :=
  fun history => ((history ++ [c])%list, outcome history c).

(** The body of the loop: a title slide goes to [add_title_slide] with
    the first point, if any, as its subtitle; every other record goes to
    [add_slide]. *)
Definition slide_call (slide_data : SlideData) : Call :=
  if String.eqb (slide_type slide_data) "title_slide" then
    let subtitle :=
      match points slide_data with
      | first :: _ => first
      | [] => ""
      end in
    add_title_slide (title slide_data) subtitle (theme slide_data)
  else add_slide slide_data.

Fixpoint add_slides (slides_data : list SlideData) : Run bool :=
  match slides_data with
  | [] => ret true
  | slide_data :: rest =>
      and_then (perform (slide_call slide_data)) (fun _ => add_slides rest)
  end.

(** The [try] block. *)
Definition full_presentation_body (slides_data : list SlideData)
    (output_path presentation_title : string) : Run bool :=
  and_then (perform (create_presentation presentation_title)) (fun _ =>
  and_then (add_slides slides_data) (fun _ =>
  and_then (perform (save_presentation output_path)) (fun success =>
  and_then (perform close_presentation) (fun _ =>
  ret success)))).

(** The handler of [except Exception]: the presentation is closed and
    [PresentationError], the local name of
    [PresentationGenerationError], is raised; an exception of the
    closing call itself goes through. *)
Definition close_and_raise : Run bool :=
  fun history =>
    match perform close_presentation history with
    | (history', Py.Ok _) =>
        (history', Py.Raise "PresentationGenerationError")
    | (history', Py.Raise exc) => (history', Py.Raise exc)
    end.

(** [create_full_presentation]: [except Exception] catches what derives
    from [Exception]; any other exception leaves the method as it is,
    with no call of the handler. *)
Definition create_full_presentation (slides_data : list SlideData)
    (output_path presentation_title : string) : Run bool :=
  fun history =>
    match full_presentation_body slides_data output_path presentation_title
            history with
    | (history', Py.Ok success) => (history', Py.Ok success)
    | (history', Py.Raise exc) =>
        if is_exception exc then close_and_raise history'
        else (history', Py.Raise exc)
    end.

End FullPresentation.

End BaseEngine.

(** ** [src/presentation/factory.py] *)

Module Factory.

Import BaseEngine.

(** The dictionary [current_slide]: it is created with these four keys
    and no key is ever added or removed. *)
Record SlideDict : Type := mkSlideDict {
  key_title : string;
  key_points : list string;
  key_theme : string;
  key_slide_type : string
}.

Definition new_slide : SlideDict :=
  mkSlideDict "" [] "corporate_modern" "content_slide".

(** The scanner's variables: [slides_data] and [current_slide]. *)
Record ScanState : Type := mkScan {
  slides_data : list SlideDict;
  current_slide : option SlideDict
}.

Definition initial_state : ScanState := mkScan [] None.

(** [line.replace("**", "").replace("*", "")] *)
Definition clean (line : string) : string :=
  PyStr.replace (PyStr.replace line "**" "") "*" "".

(** The test of the first branch, on a stripped line: a slide marker. *)
Definition is_slide_marker (line : string) : bool :=
  let clean_line := clean line in
  (PyStr.startswith clean_line "SLIDE " && PyStr.contains " - " clean_line)
  || PyStr.startswith line "**SLIDE ".

(** [clean_line.startswith(tag) or line.startswith("**" + tag)] *)
Definition has_tag (line tag : string) : bool :=
  PyStr.startswith (clean line) tag || PyStr.startswith line ("**" ++ tag).

(** [clean_line.replace(tag, "").strip()] *)
Definition tag_value (line tag : string) : string :=
  PyStr.strip (PyStr.replace (clean line) tag "").

(** The body of the [for] loop, on one line of the input. *)
Definition scan_line (st : ScanState) (raw_line : string) : ScanState :=
  let line := PyStr.strip raw_line in
  if is_slide_marker line then
    (* Save previous slide if exists, start new slide *)
    mkScan
      (match current_slide st with
       | Some previous => slides_data st ++ [previous]
       | None => slides_data st
       end)
      (Some new_slide)
  else
    match current_slide st with
    | None => st
    | Some cur =>
        if has_tag line "TITLE:" then
          mkScan (slides_data st)
            (Some (mkSlideDict (tag_value line "TITLE:") (key_points cur)
                               (key_theme cur) (key_slide_type cur)))
        else if has_tag line "THEME_SUGGESTION:" then
          mkScan (slides_data st)
            (Some (mkSlideDict (key_title cur) (key_points cur)
                               (tag_value line "THEME_SUGGESTION:")
                               (key_slide_type cur)))
        else if has_tag line "SLIDE_TYPE:" then
          mkScan (slides_data st)
            (Some (mkSlideDict (key_title cur) (key_points cur)
                               (key_theme cur)
                               (tag_value line "SLIDE_TYPE:")))
        else if PyStr.startswith line "- " || PyStr.startswith line "**- " then
          let point :=
            PyStr.strip (PyStr.replace (PyStr.replace line "**" "") "- " "") in
          if PyStr.truthy point then
            mkScan (slides_data st)
              (Some (mkSlideDict (key_title cur) (key_points cur ++ [point])
                                 (key_theme cur) (key_slide_type cur)))
          else st
        else st
    end.

(** The loop over the lines, then "Save last slide". *)
Definition scan_lines (lines : list string) : list SlideDict :=
  let st := fold_left scan_line lines initial_state in
  match current_slide st with
  | Some last => slides_data st ++ [last]
  | None => slides_data st
  end.

(** [analysis_result.strip().split("\n")] *)
Definition lines_of (analysis_result : string) : list string :=
  PyStr.split (PyStr.strip analysis_result) PyStr.newline.

(** The visual engine, an external collaborator, with the extraction of
    its arguments from the title and the points folded into each call. *)
Record VisualEngine : Type := mkVisualEngine {
  create_architecture_visual : string -> list string -> DesignTheme -> option string;
  create_roadmap_visual : list string -> DesignTheme -> option string;
  create_metrics_visual : list string -> DesignTheme -> option string;
  create_feature_icons : list string -> DesignTheme -> list string
}.

(** "Convert to SlideData objects": one dictionary.  [visuals] is the
    engine when [self.config.enable_image_generation and
    self.visual_engine] holds. *)
Definition to_slide_data (visuals : option VisualEngine) (d : SlideDict)
  : SlideData :=
  let theme :=
    match DesignTheme_call (key_theme d) with
    | Py.Ok t => t
    | Py.Raise _ => CORPORATE_MODERN
    end in
  let '(diagram_image, feature_icons) :=
    match visuals with
    | None => (None, [])
    | Some engine =>
        let slide_type := key_slide_type d in
        if String.eqb slide_type "architecture_slide" then
          (create_architecture_visual engine (key_title d) (key_points d) theme, [])
        else if String.eqb slide_type "roadmap_slide" then
          (create_roadmap_visual engine (key_points d) theme, [])
        else if String.eqb slide_type "metrics_slide" then
          (create_metrics_visual engine (key_points d) theme, [])
        else if String.eqb slide_type "features_slide" then
          (None, create_feature_icons engine (key_points d) theme)
        else (None, [])
    end in
  mkSlideData (key_title d) (key_points d) theme (key_slide_type d)
              None diagram_image feature_icons.

(** [PresentationFactory._parse_analysis_result] *)
Definition _parse_analysis_result (visuals : option VisualEngine)
    (analysis_result : string) : list SlideData :=
  map (to_slide_data visuals) (scan_lines (lines_of analysis_result)).

(** *** The extraction helpers *)

(** [l[0]] *)
Definition first_item (l : list string) : Py.result string :=
  match l with
  | [] => Py.Raise "IndexError"
  | w :: _ => Py.Ok w
  end.

Definition tech_terms : list string :=
  ["Python"; "JavaScript"; "TypeScript"; "React"; "Vue"; "Angular";
   "Node.js"; "Django"; "Flask"; "FastAPI"; "Docker"; "AWS"; "Azure"].

(** [_extract_tech_stack] *)
Definition _extract_tech_stack (analysis_result : string) : list string :=
  let found_tech :=
    List.filter
      (fun tech =>
         PyStr.contains (PyStr.lower tech) (PyStr.lower analysis_result))
      tech_terms in
  firstn 5 found_tech.

Definition component_keywords : list string :=
  ["component"; "service"; "module"; "layer"].

(** The loop of [_extract_components]. *)
Fixpoint collect_components (points : list string)
  : Py.result (list string) :=
  match points with
  | [] => Py.Ok []
  | point :: rest =>
      if existsb (fun keyword => PyStr.contains keyword (PyStr.lower point))
                 component_keywords
      then
        let* word := first_item (PyStr.split_ws point) in
        let* components := collect_components rest in
        Py.Ok (word :: components)
      else collect_components rest
  end.

(** [_extract_components] *)
Definition _extract_components (points : list string)
  : Py.result (list string) :=
  let* components := collect_components points in
  Py.Ok (firstn 6 components).

(** The comprehension of [_extract_milestones]. *)
Fixpoint milestones_of (points : list string) : Py.result (list string) :=
  match points with
  | [] => Py.Ok []
  | point :: rest =>
      let* milestone :=
        if PyStr.contains "." point
        then first_item (PyStr.split point "."%char)
        else Py.Ok point in
      let* milestones := milestones_of rest in
      Py.Ok (milestone :: milestones)
  end.

(** [_extract_milestones] *)
Definition _extract_milestones (points : list string)
  : Py.result (list string) :=
  milestones_of (firstn 4 points).

(** The comprehension of [_extract_features], from the index [i] on. *)
Fixpoint features_from (i : nat) (points : list string)
  : Py.result (list string) :=
  match points with
  | [] => Py.Ok []
  | point :: rest =>
      let* feature :=
        if PyStr.truthy point
        then first_item (PyStr.split_ws point)
        else Py.Ok ("Feature_" ++ PyStr.str_of_nat i) in
      let* features := features_from (S i) rest in
      Py.Ok (feature :: features)
  end.

(** [_extract_features] *)
Definition _extract_features (points : list string)
  : Py.result (list string) :=
  features_from 0 (firstn 4 points).

(** *** The choice of an engine *)


Section EngineChoice.

(** [self._available_engines] and the two switches of the
    configuration. *)
Variable _available_engines : list string.
Variable enable_com_powerpoint : bool.
Variable enable_python_pptx_fallback : bool.

(** The outcome of importing and constructing each engine. *)
Variable com_engine : Py.result unit.
Variable pptx_engine : Py.result unit.






End EngineChoice.

End Factory.

(** ** [src/presentation/pptx_engine.py]: the call of the layout engine *)

Module PptxEngine.

Import BaseEngine LayoutSystem.

(** [bool(path)] for an optional path: [None] and the empty string are
    false. *)
Definition truthy (path : option string) : bool :=
  match path with
  | Some s => PyStr.truthy s
  | None => false
  end.

(** [PPTXPresentationEngine.add_slide], "Determine optimal layout based
    on content": [has_image] is
    [bool(slide_data.background_image or slide_data.diagram_image)] and
    [has_diagram] is [bool(slide_data.diagram_image)]. *)
Definition layout_of_slide (slide_data : SlideData) : LayoutType :=
  calculate_optimal_layout (slide_type slide_data)
    (truthy (background_image slide_data) || truthy (diagram_image slide_data))
    (truthy (diagram_image slide_data)).

(** What [_add_title_region] and [_add_content_region] ask of
    python-pptx: a text box over a region, the text of its paragraphs,
    their font size in points and whether they are bold. *)
Record TextBox : Type := mkTextBox {
  box_region : LayoutRegion;
  box_paragraphs : list string;
  box_font_size : Z;
  box_bold : bool
}.

Section SlideContent.

(** The bullet glyph U+2022 of the f-string: one character, outside the
    code points below 256 that the strings here are made of. *)
Variable bullet : ascii.

(** The f-string that puts the glyph and a space before an item. *)
Definition bullet_line (item : string) : string :=
  String bullet (String " "%char item).

(** [_add_title_region]: one bold paragraph, the title as it is. *)
Definition _add_title_region (title : string) (region : LayoutRegion)
  : TextBox :=
  let font_size := calculate_font_size title region in
  mkTextBox region [title] font_size true.

(** [_add_content_region]: each item is cut to the budget of the region;
    the font size is that of the lines joined by line feeds; one
    paragraph per item. *)
Definition _add_content_region (content : list string) (region : LayoutRegion)
  : TextBox :=
  let processed_content :=
    map (fun item => fst (validate_text_length item region)) content in
  let content_text := PyStr.unlines (map bullet_line processed_content) in
  let font_size := calculate_font_size content_text region in
  mkTextBox region (map bullet_line processed_content) font_size false.

(** [bool(l)] for a list. *)
Definition nonempty {A : Type} (l : list A) : bool :=
  match l with
  | [] => false
  | _ :: _ => true
  end.

(** The body of the loop of [_populate_slide_content], on one region. *)
Definition region_boxes (slide_data : SlideData) (region : LayoutRegion)
  : list TextBox :=
  if String.eqb (name region) "title" then
    [_add_title_region (title slide_data) region]
  else if String.eqb (name region) "content" then
    if nonempty (points slide_data) then
      let optimized_points := optimize_bullet_points (points slide_data) 4 in
      [_add_content_region optimized_points region]
    else []
  else if existsb (String.eqb (name region)) ["left_content"; "right_content"]
  then
    if nonempty (points slide_data) then
      let mid_point := Nat.div (List.length (points slide_data)) 2 in
      let content :=
        if String.eqb (name region) "left_content"
        then firstn mid_point (points slide_data)
        else skipn mid_point (points slide_data) in
      if nonempty content then [_add_content_region content region] else []
    else []
  else if String.eqb (name region) "text_content" then
    if nonempty (points slide_data) then
      let optimized_points := optimize_bullet_points (points slide_data) 3 in
      [_add_content_region optimized_points region]
    else []
  else [].

(** [_populate_slide_content]: the text boxes, in the order of the
    regions. *)
Definition _populate_slide_content (slide_data : SlideData)
    (layout_regions : list LayoutRegion) : list TextBox :=
  flat_map (region_boxes slide_data) layout_regions.

(** The text of [add_slide]: the layout is chosen, its regions are
    looked up and filled. *)
Definition add_slide_text (slide_data : SlideData)
  : Py.result (list TextBox) :=
  let layout_type := layout_of_slide slide_data in
  let* layout_regions := get_layout layout_type in
  Py.Ok (_populate_slide_content slide_data layout_regions).

End SlideContent.

(** [_int_to_rgb]: the red, green and blue components of a colour. *)
Definition _int_to_rgb (color_int : Z) : Z * Z * Z :=
  let red := Z.land (Z.shiftr color_int 16) 255 in
  let green := Z.land (Z.shiftr color_int 8) 255 in
  let blue := Z.land color_int 255 in
  (red, green, blue).

End PptxEngine.

(** ** The specification's wording, for comparison with the code *)

Module Spec.

(** The kinds of a slide record (section 3 of the specification), tagged
    by the slide types that [factory.py] tests for. *)
Inductive SlideKind : Type :=
| TitleSlide | Architecture | Features | Metrics | Roadmap | Content.

Definition kind_tag (k : SlideKind) : string :=
  match k with
  | TitleSlide => "title_slide"
  | Architecture => "architecture_slide"
  | Features => "features_slide"
  | Metrics => "metrics_slide"
  | Roadmap => "roadmap_slide"
  | Content => "content_slide"
  end.

Definition all_kinds : list SlideKind :=
  [TitleSlide; Architecture; Features; Metrics; Roadmap; Content].

(** The case-sensitive lookup of a tag among the kinds. *)
Definition kind_of_tag (tag : string) : option SlideKind :=
  List.find (fun k => String.eqb (kind_tag k) tag) all_kinds.

(** The decision table of the layout selector (section 4.3), as the
    specification words it. *)
Definition select (kind : SlideKind) (bullets : nat)
    (has_image has_diagram : bool) : string :=
  match kind with
  | TitleSlide => "title_slide"
  | _ =>
      if has_diagram then "diagram_focus"
      else if has_image then "image_text"
      else
        match kind with
        | Features | Metrics =>
            if (4 <=? bullets)%nat then "two_column" else "title_content"
        | _ => "title_content"
        end
  end.

(** The font size buckets (section 4.4), as the specification words
    them: an exact value, not yet a whole number of points. *)
Definition font_size (length min_pt max_pt : Z) : Q :=
  let lo := inject_Z min_pt in
  let hi := inject_Z max_pt in
  if length <? 50 then hi
  else if length <? 150 then (hi - (3 # 10) * (hi - lo))%Q
  else if length <? 300 then (hi - (6 # 10) * (hi - lo))%Q
  else lo.


End Spec.

(** ** Sample inputs *)

Module Samples.

Import LayoutSystem BaseEngine.

Definition origin : Position := mkPosition 0%Q 0%Q 0%Q 0%Q 0.

(** A text region with a budget of 50 characters. *)
Definition region_50 : LayoutRegion :=
  mkRegion "content" origin LEFT (Some 50) (12, 16).

Fixpoint repeat_string (s : string) (n : nat) : string :=
  match n with
  | O => EmptyString
  | S n' => s ++ repeat_string s n'
  end.

(** ["a very long point " * 20] *)
Definition long_bullet : string := repeat_string "a very long point " 20.

(** A text of 50 characters. *)
Definition text_50 : string := repeat_string "0123456789" 5.

(** Seven bullets, three of them of equal score. *)
Definition seven_bullets : list string :=
  ["aaa"; "bb key"; "cc"; "dd"; "e"; "ffff"; "gg"].

(** A metrics record with four bullets and no picture. *)
Definition metrics_record : SlideData :=
  mkSlideData "KPIs" ["uptime"; "latency"; "errors"; "cost"]
              CORPORATE_MODERN "metrics_slide" None None [].

(** A record whose slide type is the string the layout engine tests
    for, with no bullet and no picture. *)
Definition features_record : SlideData :=
  mkSlideData "Features" [] CORPORATE_MODERN "features" None None [].

(** A slide whose declared type is not a known tag. *)
Definition banana_text : string :=
  PyStr.unlines ["SLIDE 1 - Intro"; "SLIDE_TYPE: banana"].

(** Bullets with no slide marker before them. *)
Definition orphan_bullets_text : string :=
  PyStr.unlines ["- first"; "- second"; "SLIDE 1 - Intro"; "- third"].




(** The text boxes of the metrics record, with an asterisk standing for
    the bullet glyph, and the second of them, over the content region. *)
Definition metrics_boxes : list PptxEngine.TextBox :=
  match PptxEngine.add_slide_text "*"%char metrics_record with
  | Py.Ok boxes => boxes
  | Py.Raise _ => []
  end.

Definition metrics_content_box : PptxEngine.TextBox :=
  nth 1 metrics_boxes (PptxEngine.mkTextBox region_50 [] 0 false).

(** An engine every call of which succeeds. *)
Definition engine_ok : list Call -> Call -> Py.result bool :=
  fun _ _ => Py.Ok true.


(** The built-in exception classes that do not derive from
    [Exception]. *)
Definition derives_from_exception (exc : string) : bool :=
  negb (existsb (String.eqb exc)
          ["BaseException"; "SystemExit"; "KeyboardInterrupt";
           "GeneratorExit"]).



(** Two slides, the first with a [SLIDE_TYPE:] line and the second with
    none. *)
Definition two_slides_text : string :=
  PyStr.unlines ["SLIDE 1 - Intro"; "SLIDE_TYPE: banana";
                 "SLIDE 2 - Next"; "- a point"].

(** A title record with two bullets. *)
Definition title_record : SlideData :=
  mkSlideData "Welcome" ["a subtitle"; "left out"]
              CORPORATE_MODERN "title_slide" None None [].

(** A text region with a budget of 2 characters. *)
Definition region_2 : LayoutRegion :=
  mkRegion "content" origin LEFT (Some 2) (12, 16).

End Samples.

(** ** Notions used in the statements *)

Module Props.

Import PyFloat LayoutSystem.

(** The value [int(min_size + (max_size - min_size) * c)] of the two
    middle buckets of [calculate_font_size]. *)
Definition scaled_size (min_size max_size : Z) (c : float) : Z :=
  to_int (add (of_int min_size) (mul (of_int (max_size - min_size)) c)).

(** Every region of the catalog, over all the layouts. *)
Definition catalog_regions : list LayoutRegion :=
  title_slide_regions ++ title_content_regions ++ two_column_regions
  ++ image_text_regions ++ diagram_focus_regions.

(** On the font range of a region, the two middle buckets are the
    specification's values rounded down to a whole point. *)
Definition rounds_down (region : LayoutRegion) : bool :=
  let '(min_size, max_size) := font_size_range region in
  (scaled_size min_size max_size (lit 7 10)
     =? Qfloor (Spec.font_size 50 min_size max_size))
  && (scaled_size min_size max_size (lit 4 10)
     =? Qfloor (Spec.font_size 150 min_size max_size)).

(** The tests of [validate_text_length]: an index lies past a fraction
    of the limit, the product being a binary64 number. *)
Definition past (index limit : Z) (fraction : float) : bool :=
  gtb (inject_Z index) (mul (of_int limit) fraction).



(** [scored_points] in [optimize_bullet_points]. *)
Definition scored (points : list string) : list (string * Z) :=
  map (fun point => (point, total_score point)) points.

(** The points [optimize_bullet_points] leaves out when it cuts the
    list, in the order of the sort. *)
Definition dropped_points (points : list string) (max_points : Z)
  : list string :=
  map fst (skipn (Z.to_nat max_points) (sort_by_score (scored points))).

(** The points of a list that have a given score, in their order. *)
Definition with_score (s : Z) (points : list string) : list string :=
  List.filter (fun point => total_score point =? s) points.

(** Scores in decreasing order. *)
Definition score_ge (a b : string) : Prop := total_score b <= total_score a.

(** The same on the pairs of [scored_points]. *)
Definition pair_ge (a b : string * Z) : Prop := snd b <= snd a.
Definition has_score (s : Z) (q : string * Z) : bool := snd q =? s.
Definition is_scored (q : string * Z) : Prop := snd q = total_score (fst q).

(** The slides the scanner of [_parse_analysis_result] has in hand in a
    state: the ones saved and the one in progress ("Save last slide"). *)
Definition flush (st : Factory.ScanState) : list Factory.SlideDict :=
  match Factory.current_slide st with
  | Some last => Factory.slides_data st ++ [last]
  | None => Factory.slides_data st
  end.

(** The number of slide markers among the lines of an input. *)
Definition marker_count (lines : list string) : nat :=
  List.length
    (List.filter (fun raw => Factory.is_slide_marker (PyStr.strip raw)) lines).

(** A slide type the scanner can have stored from the given lines: the
    default, or the text of a [SLIDE_TYPE:] line. *)
Definition stored_slide_type (lines : list string) (slide_type : string) : Prop :=
  slide_type = "content_slide"
  \/ exists raw,
       In raw lines
       /\ Factory.has_tag (PyStr.strip raw) "SLIDE_TYPE:" = true
       /\ slide_type = Factory.tag_value (PyStr.strip raw) "SLIDE_TYPE:".

(** A string with no character other than whitespace (the empty string
    included). *)
Fixpoint blank (s : string) : bool :=
  match s with
  | EmptyString => true
  | String c s' => PyStr.isspace c && blank s'
  end.

(** A character occurs in a string. *)
Fixpoint has_char (c : ascii) (s : string) : bool :=
  match s with
  | EmptyString => false
  | String a s' => Ascii.eqb c a || has_char c s'
  end.

(** A bullet as the parser stores it: not empty, and with no whitespace
    at either end. *)
Definition stored_point (point : string) : Prop :=
  PyStr.truthy point = true /\ PyStr.strip point = point
  /\ blank point = false.

(** A point on which [point.split()[0]] fails behind the test
    [if point]: not empty, and blank. *)
Definition blank_point (point : string) : bool :=
  PyStr.truthy point && blank point.

(** The numbers rounding produces: a significand of at most 53 bits
    and an exponent. *)
Definition representable (x : Q) : Prop :=
  exists m e : Z, 0 <= m < 2 ^ 53 /\ Qeq x (inject_Z m * pow2 e).

(** The text boxes over regions other than the title. *)
Definition bullet_boxes (boxes : list PptxEngine.TextBox)
  : list PptxEngine.TextBox :=
  List.filter
    (fun box => negb (String.eqb (name (PptxEngine.box_region box)) "title"))
    boxes.

(** The bullet paragraphs of a slide, in the order they are drawn. *)
Definition bullet_paragraphs (boxes : list PptxEngine.TextBox) : list string :=
  flat_map PptxEngine.box_paragraphs (bullet_boxes boxes).

(** The paragraphs of a box of bullets: each point cut to the budget
    of the region, behind the glyph. *)
Definition cut_lines (bullet : ascii) (content : list string)
    (region : LayoutRegion) : list string :=
  map (fun point =>
         PptxEngine.bullet_line bullet
           (fst (validate_text_length point region)))
      content.

(** A region lies between the margins of the slide. *)
Definition within_margins (region : LayoutRegion) : bool :=
  let p := position region in
  Qle_bool MARGIN_LEFT (x p) && Qle_bool MARGIN_TOP (y p)
  && Qle_bool (x p + width p) (SLIDE_WIDTH - MARGIN_RIGHT)
  && Qle_bool (y p + height p) (SLIDE_HEIGHT - MARGIN_BOTTOM)
  && Qle_bool 0 (width p) && Qle_bool 0 (height p).

(** Two regions share no area: one ends where the other starts, or
    before. *)
Definition apart (a b : LayoutRegion) : bool :=
  let p := position a in
  let q := position b in
  Qle_bool (x p + width p) (x q) || Qle_bool (x q + width q) (x p)
  || Qle_bool (y p + height p) (y q) || Qle_bool (y q + height q) (y p).

Fixpoint pairwise_apart (regions : list LayoutRegion) : bool :=
  match regions with
  | [] => true
  | a :: rest => forallb (apart a) rest && pairwise_apart rest
  end.

(** A stripped line that reaches the [SLIDE_TYPE:] branch of the
    scanner: it is no marker, no title line and no theme line, and it
    has the tag. *)
Definition sets_slide_type (line : string) : bool :=
  negb (Factory.is_slide_marker line)
  && negb (Factory.has_tag line "TITLE:")
  && negb (Factory.has_tag line "THEME_SUGGESTION:")
  && Factory.has_tag line "SLIDE_TYPE:".

(** The lines of each slide of an input: the lines that follow its
    marker, up to the next marker.  [current] holds the lines of the
    slide in progress; the lines before the first marker belong to no
    slide. *)
Fixpoint blocks_from (current : option (list string)) (lines : list string)
  : list (list string) :=
  match lines with
  | [] =>
      match current with
      | Some block => [block]
      | None => []
      end
  | raw :: rest =>
      if Factory.is_slide_marker (PyStr.strip raw) then
        match current with
        | Some block => block :: blocks_from (Some []) rest
        | None => blocks_from (Some []) rest
        end
      else
        blocks_from (option_map (fun block => (block ++ [raw])%list) current)
                    rest
  end.

Definition blocks (lines : list string) : list (list string) :=
  blocks_from None lines.

(** What one line makes of the slide type in hand. *)
Definition next_slide_type (slide_type raw : string) : string :=
  if sets_slide_type (PyStr.strip raw)
  then Factory.tag_value (PyStr.strip raw) "SLIDE_TYPE:"
  else slide_type.

(** The slide type the lines of one slide give: the text of the last of
    its [SLIDE_TYPE:] lines, and "content_slide" when it has none. *)
Definition block_slide_type (block : list string) : string :=
  fold_left next_slide_type block "content_slide".

(** The slide types of the slides saved and in progress, over the lines
    still to be read. *)
Fixpoint slide_types_from (current : option string) (lines : list string)
  : list string :=
  match lines with
  | [] =>
      match current with
      | Some slide_type => [slide_type]
      | None => []
      end
  | raw :: rest =>
      if Factory.is_slide_marker (PyStr.strip raw) then
        match current with
        | Some slide_type =>
            slide_type :: slide_types_from (Some "content_slide") rest
        | None => slide_types_from (Some "content_slide") rest
        end
      else
        slide_types_from
          (option_map (fun slide_type => next_slide_type slide_type raw) current)
          rest
  end.

End Props.

(* ===================================================================== *)
(** * Part II. Theorems                                                   *)
(* ===================================================================== *)

Local Open Scope list_scope.

Section RoundingBasics.

Import PyFloat.
Local Open Scope Q_scope.

Lemma pow2_pos (e : Z) : 0 < pow2 e.
Proof. apply Qpower_0_lt. reflexivity. Qed.

Lemma pow2_add (a b : Z) : pow2 (a + b) == pow2 a * pow2 b.
Proof. apply Qpower_plus. discriminate. Qed.

Lemma pow2_le (a b : Z) : (a <= b)%Z -> pow2 a <= pow2 b.
Proof. intros H. apply Qpower_le_compat_l; [exact H | discriminate]. Qed.

Lemma pow2_lt (a b : Z) : (a < b)%Z -> pow2 a < pow2 b.
Proof. intros H. apply Qpower_lt_compat_l; [exact H | reflexivity]. Qed.

Lemma pow2_inject (n : Z) : (0 <= n)%Z -> pow2 n == inject_Z (2 ^ n).
Proof. intros H. symmetry. exact (Zpower_Qpower 2 n H). Qed.

Lemma pow2_inv (e : Z) : / pow2 e == pow2 (- e).
Proof. unfold pow2. rewrite Qpower_opp. reflexivity. Qed.

Lemma rne_bounds (x : Q) : (Qfloor x <= rne x <= Qfloor x + 1)%Z.
Proof.
  unfold rne.
  destruct (Qcompare _ _); [destruct (Z.even _) | | ]; lia.
Qed.

Lemma rne_mono (x y : Q) : x <= y -> (rne x <= rne y)%Z.
Proof.
  intros Hxy.
  pose proof (Qfloor_resp_le x y Hxy) as Hf.
  destruct (Z.eq_dec (Qfloor x) (Qfloor y)) as [E | N].
  - unfold rne. rewrite E.
    destruct (Qcompare_spec (x - inject_Z (Qfloor y)) (1 # 2)) as [Hx | Hx | Hx];
      destruct (Qcompare_spec (y - inject_Z (Qfloor y)) (1 # 2)) as [Hy | Hy | Hy];
      try (destruct (Z.even (Qfloor y))); try lia; exfalso; lra.
  - pose proof (rne_bounds x). pose proof (rne_bounds y). lia.
Qed.

Lemma rne_comp (x y : Q) : x == y -> rne x = rne y.
Proof.
  intros E. apply Z.le_antisymm; apply rne_mono; rewrite E; apply Qle_refl.
Qed.

Lemma rne_inject (z : Z) : rne (inject_Z z) = z.
Proof.
  unfold rne. rewrite Qfloor_Z.
  destruct (Qcompare_spec (inject_Z z - inject_Z z) (1 # 2)) as [H | H | H].
  - exfalso. lra.
  - reflexivity.
  - exfalso. lra.
Qed.

End RoundingBasics.

Section Rounding53.

Import PyFloat.
Local Open Scope Q_scope.

Lemma Qnum_pos (x : Q) : 0 < x -> (0 < Qnum x)%Z.
Proof. unfold Qlt. simpl. lia. Qed.

Lemma log2_bracket (n : Z) :
  (0 < n)%Z ->
  pow2 (Z.log2 n) <= inject_Z n /\ inject_Z n < pow2 (Z.log2 n + 1).
Proof.
  intros Hn.
  pose proof (Z.log2_nonneg n) as Hl.
  destruct (Z.log2_spec n Hn) as [H1 H2].
  rewrite !pow2_inject by lia.
  rewrite <- Zle_Qle, <- Zlt_Qlt.
  replace (Z.succ (Z.log2 n)) with (Z.log2 n + 1)%Z in H2 by lia.
  split; assumption.
Qed.

(** The quotient [n / d] lies strictly between the powers of two that
    the binary logarithms of [n] and [d] give. *)
Lemma ratio_bracket (x : Q) :
  0 < x ->
  let k := (Z.log2 (Qnum x) - Z.log2 (Zpos (Qden x)))%Z in
  pow2 (k - 1) < x /\ x < pow2 (k + 1).
Proof.
  intros Hx k.
  pose proof (Qnum_pos x Hx) as Hn.
  destruct (log2_bracket (Qnum x) Hn) as [Hn1 Hn2].
  destruct (log2_bracket (Zpos (Qden x)) eq_refl) as [Hd1 Hd2].
  set (ln := Z.log2 (Qnum x)) in *.
  set (ld := Z.log2 (Zpos (Qden x))) in *.
  assert (Hxd : x * inject_Z (Zpos (Qden x)) == inject_Z (Qnum x)).
  { destruct x as [n d]. simpl. rewrite (Qmake_Qdiv n d). field.
    discriminate. }
  assert (Hhi : pow2 (k + 1) * pow2 ld == pow2 (ln + 1)).
  { rewrite <- pow2_add. unfold k. replace (ln - ld + 1 + ld)%Z with (ln + 1)%Z by lia.
    reflexivity. }
  assert (Hlo : pow2 (k - 1) * pow2 (ld + 1) == pow2 ln).
  { rewrite <- pow2_add. unfold k. replace (ln - ld - 1 + (ld + 1))%Z with ln by lia.
    reflexivity. }
  pose proof (pow2_pos ld) as Pld.
  pose proof (pow2_pos (k + 1)) as Pk1.
  pose proof (pow2_pos (k - 1)) as Pk0.
  set (D := inject_Z (Zpos (Qden x))) in *.
  set (N := inject_Z (Qnum x)) in *.
  split.
  - destruct (Qlt_le_dec (pow2 (k - 1)) x) as [L | G]; [exact L | exfalso].
    assert (x * D <= pow2 (k - 1) * D).
    { apply Qmult_le_compat_r; [exact G | lra]. }
    assert (pow2 (k - 1) * D < pow2 (k - 1) * pow2 (ld + 1)).
    { apply Qmult_lt_l; assumption. }
    lra.
  - destruct (Qlt_le_dec x (pow2 (k + 1))) as [L | G]; [exact L | exfalso].
    assert (pow2 (k + 1) * pow2 ld <= x * pow2 ld).
    { apply Qmult_le_compat_r; [exact G | lra]. }
    assert (x * pow2 ld <= x * D).
    { apply Qmult_le_l; assumption. }
    lra.
Qed.

Lemma ulp_exp_spec (x : Q) :
  0 < x -> pow2 (ulp_exp x + 52) <= x /\ x < pow2 (ulp_exp x + 53).
Proof.
  intros Hx.
  destruct (ratio_bracket x Hx) as [Hlo Hhi].
  unfold ulp_exp.
  set (k := (Z.log2 (Qnum x) - Z.log2 (Zpos (Qden x)))%Z) in *.
  replace (k - 52 + 52)%Z with k by lia.
  destruct (Qle_bool (pow2 k) x) eqn:E.
  - apply Qle_bool_iff in E.
    replace (k - 52 + 52)%Z with k by lia.
    replace (k - 52 + 53)%Z with (k + 1)%Z by lia.
    split; assumption.
  - replace (k - 52 - 1 + 52)%Z with (k - 1)%Z by lia.
    replace (k - 52 - 1 + 53)%Z with k by lia.
    split; [apply Qlt_le_weak; exact Hlo | ].
    apply Qnot_le_lt. intros C. apply Qle_bool_iff in C. congruence.
Qed.

(** The significand of a positive number: an integer of 53 bits. *)
Lemma scaled_bounds (x : Q) :
  0 < x ->
  pow2 52 <= x / pow2 (ulp_exp x) /\ x / pow2 (ulp_exp x) < pow2 53.
Proof.
  intros Hx.
  destruct (ulp_exp_spec x Hx) as [H1 H2].
  pose proof (pow2_pos (ulp_exp x)) as P.
  rewrite (Z.add_comm (ulp_exp x) 52), pow2_add in H1.
  rewrite (Z.add_comm (ulp_exp x) 53), pow2_add in H2.
  split.
  - apply Qle_shift_div_l; assumption.
  - apply Qlt_shift_div_r; assumption.
Qed.

Lemma significand_bounds (x : Q) :
  0 < x ->
  (2 ^ 52 <= rne (x / pow2 (ulp_exp x)) <= 2 ^ 53)%Z.
Proof.
  intros Hx.
  destruct (scaled_bounds x Hx) as [H1 H2].
  rewrite (pow2_inject 52) in H1 by lia.
  rewrite (pow2_inject 53) in H2 by lia.
  split.
  - rewrite <- (rne_inject (2 ^ 52)). apply rne_mono. exact H1.
  - rewrite <- (rne_inject (2 ^ 53)). apply rne_mono. apply Qlt_le_weak. exact H2.
Qed.

Lemma round_pos_value (x : Q) :
  round_pos x == inject_Z (rne (x / pow2 (ulp_exp x))) * pow2 (ulp_exp x).
Proof. unfold round_pos. apply Qred_correct. Qed.

Lemma round53_zero (x : Q) : x == 0 -> round53 x = 0.
Proof.
  intros H. unfold round53.
  assert (Qnum x = 0%Z) as ->; [ | reflexivity].
  unfold Qeq in H. simpl in H. lia.
Qed.

Lemma round53_pos (x : Q) : 0 < x -> round53 x = round_pos x.
Proof.
  intros H. pose proof (Qnum_pos x H) as Hn. unfold round53.
  destruct (Qnum x); try lia. reflexivity.
Qed.

Lemma round_pos_mono (x y : Q) :
  0 < x -> x <= y -> round_pos x <= round_pos y.
Proof.
  intros Hx Hxy.
  assert (Hy : 0 < y) by lra.
  rewrite (round_pos_value x), (round_pos_value y).
  destruct (ulp_exp_spec x Hx) as [X1 X2].
  destruct (ulp_exp_spec y Hy) as [Y1 Y2].
  pose proof (significand_bounds x Hx) as [MX1 MX2].
  pose proof (significand_bounds y Hy) as [MY1 MY2].
  set (ex := ulp_exp x) in *. set (ey := ulp_exp y) in *.
  pose proof (pow2_pos ex) as Pex. pose proof (pow2_pos ey) as Pey.
  destruct (Z.lt_trichotomy ex ey) as [L | [E | G]].
  - (* a smaller exponent: the results are separated by a power of two *)
    apply Qle_trans with (pow2 (ey + 52)).
    + apply Qle_trans with (pow2 (ex + 53)).
      * rewrite (Z.add_comm ex 53), pow2_add, (pow2_inject 53) by lia.
        apply Qmult_le_compat_r; [ | lra].
        rewrite <- Zle_Qle. exact MX2.
      * apply pow2_le. lia.
    + rewrite (Z.add_comm ey 52), pow2_add, (pow2_inject 52) by lia.
      apply Qmult_le_compat_r; [ | lra].
      rewrite <- Zle_Qle. exact MY1.
  - (* the same exponent: rounding to an integer is monotone *)
    fold ex. fold ey. rewrite <- E.
    apply Qmult_le_compat_r; [ | lra].
    rewrite <- Zle_Qle. apply rne_mono.
    unfold Qdiv. apply Qmult_le_compat_r; [exact Hxy | ].
    apply Qlt_le_weak, Qinv_lt_0_compat. exact Pex.
  - exfalso.
    assert (pow2 (ey + 53) <= pow2 (ex + 52)) by (apply pow2_le; lia).
    lra.
Qed.

Lemma round_pos_nonneg (x : Q) : 0 < x -> 0 <= round_pos x.
Proof.
  intros Hx. rewrite round_pos_value.
  pose proof (significand_bounds x Hx) as [M1 _].
  apply Qmult_le_0_compat.
  - replace 0 with (inject_Z 0) by reflexivity. rewrite <- Zle_Qle. lia.
  - apply Qlt_le_weak, pow2_pos.
Qed.

(** Rounding is monotone on the non-negative numbers. *)
Lemma round53_mono (x y : Q) :
  0 <= x -> x <= y -> round53 x <= round53 y.
Proof.
  intros Hx Hxy.
  destruct (Qlt_le_dec 0 x) as [Px | Zx].
  - assert (Py : 0 < y) by lra.
    rewrite (round53_pos x Px), (round53_pos y Py).
    apply round_pos_mono; assumption.
  - rewrite (round53_zero x) by lra.
    destruct (Qlt_le_dec 0 y) as [Py | Zy].
    + rewrite (round53_pos y Py). apply round_pos_nonneg. exact Py.
    + rewrite (round53_zero y) by lra. apply Qle_refl.
Qed.

Lemma round53_nonneg (x : Q) : 0 <= x -> 0 <= round53 x.
Proof.
  intros Hx. change 0 with (round53 0) at 1. apply round53_mono; [apply Qle_refl | exact Hx].
Qed.

Lemma round53_comp (x y : Q) : 0 <= x -> x == y -> round53 x == round53 y.
Proof.
  intros Hx E. apply Qle_antisym; apply round53_mono; lra.
Qed.

(** The integers below [2^53] are binary64 numbers. *)
Lemma round53_inject (z : Z) :
  (0 <= z < 2 ^ 53)%Z -> round53 (inject_Z z) == inject_Z z.
Proof.
  intros [Hz0 Hz1].
  destruct (Z.eq_dec z 0%Z) as [-> | Nz]; [reflexivity | ].
  assert (Hx : 0 < inject_Z z).
  { replace 0 with (inject_Z 0) by reflexivity. rewrite <- Zlt_Qlt. lia. }
  rewrite (round53_pos _ Hx), round_pos_value.
  destruct (ulp_exp_spec _ Hx) as [E1 _].
  set (e := ulp_exp (inject_Z z)) in *.
  assert (He : (e <= 0)%Z).
  { destruct (Z_le_gt_dec e 0) as [L | G]; [exact L | exfalso].
    assert (pow2 53 <= pow2 (e + 52)) by (apply pow2_le; lia).
    assert (inject_Z z < pow2 53).
    { rewrite (pow2_inject 53) by lia. rewrite <- Zlt_Qlt. exact Hz1. }
    lra. }
  assert (Hscaled : inject_Z z / pow2 e == inject_Z (z * 2 ^ (- e))).
  { unfold Qdiv. rewrite pow2_inv, (pow2_inject (- e)) by lia.
    rewrite inject_Z_mult. reflexivity. }
  rewrite (rne_comp _ _ Hscaled), rne_inject, inject_Z_mult.
  rewrite <- (pow2_inject (- e)) by lia.
  rewrite <- Qmult_assoc, <- pow2_add.
  replace (- e + e)%Z with 0%Z by lia.
  change (pow2 0) with 1. ring.
Qed.

Lemma to_int_floor (x : Q) : 0 <= x -> to_int x = Qfloor x.
Proof.
  intros Hx. destruct x as [n d]. unfold to_int, Qfloor. simpl.
  apply Z.quot_div_nonneg; [ | lia].
  unfold Qle in Hx. simpl in Hx. lia.
Qed.

Lemma to_int_bounds (a b : Z) (x : Q) :
  (0 <= a)%Z -> inject_Z a <= x -> x <= inject_Z b ->
  (a <= to_int x <= b)%Z.
Proof.
  intros Ha H1 H2.
  assert (Hx : 0 <= x).
  { apply Qle_trans with (inject_Z a); [ | exact H1].
    replace 0 with (inject_Z 0) by reflexivity. rewrite <- Zle_Qle. exact Ha. }
  rewrite (to_int_floor x Hx).
  split.
  - rewrite <- (Qfloor_Z a). apply Qfloor_resp_le. exact H1.
  - rewrite <- (Qfloor_Z b). apply Qfloor_resp_le. exact H2.
Qed.

End Rounding53.

(** ** Font size selection ([calculate_font_size]) *)

Section FontSize.

Import PyFloat LayoutSystem Props.
Local Open Scope Q_scope.

Lemma scaled_size_bounds (min_size max_size : Z) (c : float) :
  (0 <= min_size <= max_size)%Z -> (max_size < 2 ^ 53)%Z ->
  0 <= c -> c <= 1 ->
  (min_size <= scaled_size min_size max_size c <= max_size)%Z.
Proof.
  intros [H0 H1] H2 Hc0 Hc1.
  unfold scaled_size, add, mul, of_int.
  set (d := (max_size - min_size)%Z).
  assert (Hd : round53 (inject_Z d) == inject_Z d).
  { apply round53_inject. unfold d. lia. }
  assert (Hmin : round53 (inject_Z min_size) == inject_Z min_size).
  { apply round53_inject. lia. }
  assert (Hmax : round53 (inject_Z max_size) == inject_Z max_size).
  { apply round53_inject. lia. }
  assert (Dpos : 0 <= inject_Z d).
  { replace 0 with (inject_Z 0) by reflexivity. rewrite <- Zle_Qle. unfold d. lia. }
  assert (Mpos : 0 <= inject_Z min_size).
  { replace 0 with (inject_Z 0) by reflexivity. rewrite <- Zle_Qle. exact H0. }
  set (y := round53 (round53 (inject_Z d) * c)).
  assert (Hy0 : 0 <= y).
  { apply round53_nonneg. rewrite Hd. apply Qmult_le_0_compat; assumption. }
  assert (Hy1 : y <= inject_Z d).
  { apply Qle_trans with (round53 (inject_Z d)); [ | rewrite Hd; apply Qle_refl].
    apply round53_mono.
    - rewrite Hd. apply Qmult_le_0_compat; assumption.
    - rewrite Hd. apply Qle_trans with (inject_Z d * 1); [ | rewrite Qmult_1_r; apply Qle_refl].
      apply Qmult_le_compat_nonneg; split; try assumption; apply Qle_refl. }
  assert (Hsum : inject_Z min_size + inject_Z d == inject_Z max_size).
  { rewrite <- inject_Z_plus. unfold d.
    replace (min_size + (max_size - min_size))%Z with max_size by lia.
    reflexivity. }
  apply to_int_bounds; [exact H0 | | ].
  - apply Qle_trans with (round53 (inject_Z min_size));
      [rewrite Hmin; apply Qle_refl | ].
    apply round53_mono; [exact Mpos | ].
    rewrite Hmin. lra.
  - apply Qle_trans with (round53 (inject_Z max_size));
      [ | rewrite Hmax; apply Qle_refl].
    apply round53_mono.
    + rewrite Hmin. lra.
    + rewrite Hmin. lra.
Qed.

Lemma lit_7_10_unit : 0 <= lit 7 10 /\ lit 7 10 <= 1.
Proof. split; apply Qle_bool_iff; vm_compute; reflexivity. Qed.

Lemma lit_4_10_unit : 0 <= lit 4 10 /\ lit 4 10 <= 1.
Proof. split; apply Qle_bool_iff; vm_compute; reflexivity. Qed.

Lemma catalog_rounds_down : forallb rounds_down catalog_regions = true.
Proof. vm_compute. reflexivity. Qed.

Lemma spec_font_size_bucket (length lo hi : Z) :
  (50 <= length < 300)%Z ->
  Spec.font_size length lo hi
  = if (length <? 150)%Z then Spec.font_size 50 lo hi
    else Spec.font_size 150 lo hi.
Proof.
  intros H. unfold Spec.font_size.
  destruct (Z.ltb_spec length 50); [lia | ].
  destruct (Z.ltb_spec length 300); [ | lia].
  destruct (Z.ltb_spec length 150); reflexivity.
Qed.

End FontSize.

(** C4 (as amended). For every text and every region whose font range
    satisfies [0 <= min <= max < 2^53], [calculate_font_size] returns
    [max] for a text shorter than 50 characters, the binary64 value of
    [min + (max - min) * 0.7] truncated to a whole number for a text
    shorter than 150, that of [min + (max - min) * 0.4] for a text shorter
    than 300, and [min] otherwise; the result always lies within
    [[min, max]]; and on every region of the catalog the two middle
    values are the specification's [max - 0.3 * (max - min)] and
    [max - 0.6 * (max - min)] rounded down to a whole point. *)
Theorem calculate_font_size_truncated_buckets
    (text : string) (region : LayoutSystem.LayoutRegion) (min_size max_size : Z) :
  LayoutSystem.font_size_range region = (min_size, max_size) ->
  0 <= min_size <= max_size ->
  max_size < 2 ^ 53 ->
  let size := LayoutSystem.calculate_font_size text region in
  let length := PyStr.len text in
  (length < 50 -> size = max_size)
  /\ (50 <= length < 150 ->
      size = Props.scaled_size min_size max_size (PyFloat.lit 7 10))
  /\ (150 <= length < 300 ->
      size = Props.scaled_size min_size max_size (PyFloat.lit 4 10))
  /\ (300 <= length -> size = min_size)
  /\ min_size <= size <= max_size
  /\ (In region Props.catalog_regions -> 50 <= length < 300 ->
      size = Qfloor (Spec.font_size length min_size max_size)).
Proof.
  intros Hrange Hord Hmax size length.
  pose proof (scaled_size_bounds min_size max_size _ Hord Hmax
                (proj1 lit_7_10_unit) (proj2 lit_7_10_unit)) as B7.
  pose proof (scaled_size_bounds min_size max_size _ Hord Hmax
                (proj1 lit_4_10_unit) (proj2 lit_4_10_unit)) as B4.
  assert (Hsize :
    size = if length <? 50 then max_size
           else if length <? 150
                then Props.scaled_size min_size max_size (PyFloat.lit 7 10)
           else if length <? 300
                then Props.scaled_size min_size max_size (PyFloat.lit 4 10)
           else min_size).
  { unfold size, LayoutSystem.calculate_font_size. rewrite Hrange. reflexivity. }
  clearbody size length.
  split; [intros H; rewrite Hsize; destruct (Z.ltb_spec length 50); [reflexivity | lia] | ].
  split.
  { intros H. rewrite Hsize.
    destruct (Z.ltb_spec length 50); [lia | ].
    destruct (Z.ltb_spec length 150); [reflexivity | lia]. }
  split.
  { intros H. rewrite Hsize.
    destruct (Z.ltb_spec length 50); [lia | ].
    destruct (Z.ltb_spec length 150); [lia | ].
    destruct (Z.ltb_spec length 300); [reflexivity | lia]. }
  split.
  { intros H. rewrite Hsize.
    destruct (Z.ltb_spec length 50); [lia | ].
    destruct (Z.ltb_spec length 150); [lia | ].
    destruct (Z.ltb_spec length 300); [lia | reflexivity]. }
  split.
  { rewrite Hsize.
    destruct (length <? 50); [lia | ].
    destruct (length <? 150); [lia | ].
    destruct (length <? 300); lia. }
  intros Hin Hlen.
  pose proof catalog_rounds_down as Hall.
  rewrite forallb_forall in Hall. specialize (Hall region Hin).
  unfold Props.rounds_down in Hall. rewrite Hrange in Hall.
  apply andb_prop in Hall. destruct Hall as [H7 H4].
  apply Z.eqb_eq in H7. apply Z.eqb_eq in H4.
  rewrite (spec_font_size_bucket length min_size max_size Hlen), Hsize.
  destruct (Z.ltb_spec length 50); [lia | ].
  destruct (Z.ltb_spec length 300); [ | lia].
  destruct (length <? 150); assumption.
Qed.

(** The region [left_content] of the two-column layout and a text of 50
    characters. *)
Lemma calculate_font_size_truncated_buckets_witness :
  12 <= LayoutSystem.calculate_font_size Samples.text_50 Samples.region_50 <= 16.
Proof.
  pose proof (calculate_font_size_truncated_buckets
                Samples.text_50 Samples.region_50 12 16
                eq_refl ltac:(lia) eq_refl) as H.
  exact (proj1 (proj2 (proj2 (proj2 (proj2 H))))).
Defined.

(** C4 (as stated): with the font range (12, 16) of the two-column
    layout and a text of 50 characters the code returns 14, while the
    specification's bucket value is [16 - 0.3 * 4 = 14.8]. *)
Lemma font_size_bucket_counterexample :
  LayoutSystem.calculate_font_size Samples.text_50 Samples.region_50 = 14
  /\ Qeq (Spec.font_size (PyStr.len Samples.text_50) 12 16) (74 # 5)
  /\ ~ Qeq (inject_Z (LayoutSystem.calculate_font_size Samples.text_50 Samples.region_50))
           (Spec.font_size (PyStr.len Samples.text_50) 12 16).
Proof.
  split; [vm_compute; reflexivity | ].
  split; [vm_compute; reflexivity | ].
  vm_compute. discriminate.
Qed.

(** ** Layout selection and the catalog *)

Section LayoutSelection.

Import LayoutSystem.

Lemma string_eqb_false (a b : string) : a <> b -> String.eqb a b = false.
Proof. intros H. apply String.eqb_neq. exact H. Qed.

(** The layouts [calculate_optimal_layout] can return. *)
Lemma selected_layout_cases (content_type : string) (has_image has_diagram : bool) :
  In (calculate_optimal_layout content_type has_image has_diagram)
     [TITLE_SLIDE; DIAGRAM_FOCUS; IMAGE_TEXT; TWO_COLUMN; TITLE_CONTENT].
Proof.
  unfold calculate_optimal_layout.
  destruct (String.eqb content_type "title_slide"); [simpl; tauto | ].
  destruct has_diagram; [simpl; tauto | ].
  destruct has_image; [simpl; tauto | ].
  destruct (existsb _ _); simpl; tauto.
Qed.

(** The catalog, key by key. *)
Lemma layouts_lookup (t : LayoutType) :
  layouts !! t =
  match t with
  | TITLE_SLIDE => Some title_slide_regions
  | TITLE_CONTENT => Some title_content_regions
  | TWO_COLUMN => Some two_column_regions
  | IMAGE_TEXT => Some image_text_regions
  | DIAGRAM_FOCUS => Some diagram_focus_regions
  | CONTENT_ONLY | FULL_IMAGE => None
  end.
Proof. destruct t; vm_compute; reflexivity. Qed.

Lemma get_layout_default (t : LayoutType) :
  get_layout t = Py.Ok (default title_content_regions (layouts !! t)).
Proof.
  unfold get_layout, getitem.
  rewrite (layouts_lookup TITLE_CONTENT). reflexivity.
Qed.

(** Each of them is a key of the catalog. *)
Lemma selectable_in_catalog (t : LayoutType) :
  In t [TITLE_SLIDE; DIAGRAM_FOCUS; IMAGE_TEXT; TWO_COLUMN; TITLE_CONTENT] ->
  exists regions, layouts !! t = Some regions /\ get_layout t = Py.Ok regions.
Proof.
  intros H. rewrite get_layout_default, layouts_lookup.
  destruct H as [<- | [<- | [<- | [<- | [<- | []]]]]];
    eexists; split; reflexivity.
Qed.

End LayoutSelection.

(** C1 (as amended). Layout selection reads the record's slide-type string
    and the two flags, never the bullets: the string "title_slide" yields
    [title_slide]; otherwise [has_diagram] yields [diagram_focus];
    otherwise [has_image] yields [image_text]; otherwise the strings
    "features" and "comparison" yield [two_column], whatever the number of
    bullets; every other string yields [title_content].  The function is
    total and its result is always a layout of the catalog. *)
Theorem calculate_optimal_layout_table
    (content_type : string) (has_image has_diagram : bool) :
  let chosen :=
    LayoutSystem.calculate_optimal_layout content_type has_image has_diagram in
  (content_type = "title_slide" -> chosen = LayoutSystem.TITLE_SLIDE)
  /\ (content_type <> "title_slide" -> has_diagram = true ->
      chosen = LayoutSystem.DIAGRAM_FOCUS)
  /\ (content_type <> "title_slide" -> has_diagram = false -> has_image = true ->
      chosen = LayoutSystem.IMAGE_TEXT)
  /\ (has_diagram = false -> has_image = false ->
      content_type = "features" \/ content_type = "comparison" ->
      chosen = LayoutSystem.TWO_COLUMN)
  /\ (has_diagram = false -> has_image = false ->
      content_type <> "title_slide" -> content_type <> "features" ->
      content_type <> "comparison" ->
      chosen = LayoutSystem.TITLE_CONTENT)
  /\ (exists regions,
        LayoutSystem.layouts !! chosen = Some regions
        /\ LayoutSystem.get_layout chosen = Py.Ok regions)
  /\ (forall slide_data : BaseEngine.SlideData,
        BaseEngine.slide_type slide_data = content_type ->
        BaseEngine.background_image slide_data = None ->
        BaseEngine.diagram_image slide_data = None ->
        PptxEngine.layout_of_slide slide_data
        = LayoutSystem.calculate_optimal_layout content_type false false).
Proof.
  intros chosen. unfold chosen, LayoutSystem.calculate_optimal_layout.
  repeat apply conj.
  - intros ->. reflexivity.
  - intros N ->. rewrite (string_eqb_false _ _ N). reflexivity.
  - intros N -> ->. rewrite (string_eqb_false _ _ N). reflexivity.
  - intros -> -> [-> | ->]; reflexivity.
  - intros -> -> N1 N2 N3.
    rewrite (string_eqb_false _ _ N1). simpl.
    rewrite (string_eqb_false _ _ N2), (string_eqb_false _ _ N3). reflexivity.
  - apply selectable_in_catalog.
    apply (selected_layout_cases content_type has_image has_diagram).
  - intros slide_data Ht Hb Hd.
    unfold PptxEngine.layout_of_slide. rewrite Ht, Hb, Hd. reflexivity.
Qed.

(** C1 (as stated): a metrics record with four bullets and no picture gets
    [title_content] from the code and "two_column" from the
    specification's table; a record typed "features" with no bullet gets
    [two_column] from the code and "title_content" from the table. *)
Lemma layout_table_counterexample :
  LayoutSystem.layout_value (PptxEngine.layout_of_slide Samples.metrics_record)
  = "title_content"
  /\ Spec.select Spec.Metrics
       (List.length (BaseEngine.points Samples.metrics_record)) false false
     = "two_column"
  /\ LayoutSystem.layout_value (PptxEngine.layout_of_slide Samples.features_record)
     = "two_column"
  /\ Spec.select Spec.Features
       (List.length (BaseEngine.points Samples.features_record)) false false
     = "title_content"
  /\ LayoutSystem.layout_value (PptxEngine.layout_of_slide Samples.metrics_record)
     <> Spec.select Spec.Metrics
          (List.length (BaseEngine.points Samples.metrics_record)) false false.
Proof.
  repeat split; try (vm_compute; reflexivity).
  vm_compute. discriminate.
Qed.

(** C8 (as amended). A layout absent from the catalog does not fail:
    [get_layout] silently returns the regions of [title_content] for it
    (this is so for [content_only] and [full_image]); nothing is checked
    when the catalog is built, and [get_layout] never raises.  For every
    layout the selector can return, the lookup returns that layout's own
    regions. *)
Theorem get_layout_falls_back (layout_type : LayoutSystem.LayoutType) :
  (LayoutSystem.layouts !! layout_type = None ->
   LayoutSystem.get_layout layout_type
   = Py.Ok LayoutSystem.title_content_regions)
  /\ (forall regions,
        LayoutSystem.layouts !! layout_type = Some regions ->
        LayoutSystem.get_layout layout_type = Py.Ok regions)
  /\ (LayoutSystem.layouts !! layout_type = None <->
      layout_type = LayoutSystem.CONTENT_ONLY
      \/ layout_type = LayoutSystem.FULL_IMAGE)
  /\ (forall content_type has_image has_diagram,
        layout_type
        = LayoutSystem.calculate_optimal_layout content_type has_image has_diagram ->
        exists regions,
          LayoutSystem.layouts !! layout_type = Some regions
          /\ LayoutSystem.get_layout layout_type = Py.Ok regions).
Proof.
  repeat apply conj.
  - intros H. rewrite get_layout_default, H. reflexivity.
  - intros regions H. rewrite get_layout_default, H. reflexivity.
  - rewrite layouts_lookup. destruct layout_type; intros H; try discriminate H; tauto.
  - rewrite layouts_lookup. intros [-> | ->]; reflexivity.
  - intros content_type has_image has_diagram ->.
    apply selectable_in_catalog, selected_layout_cases.
Qed.

(** C8 (as stated): [content_only] is not in the catalog, and asking for
    it returns the regions of [title_content] instead of failing. *)
Lemma unknown_layout_counterexample :
  LayoutSystem.layouts !! LayoutSystem.CONTENT_ONLY = None
  /\ LayoutSystem.get_layout LayoutSystem.CONTENT_ONLY
     = Py.Ok LayoutSystem.title_content_regions
  /\ Py.raises (LayoutSystem.get_layout LayoutSystem.CONTENT_ONLY) = false.
Proof.
  rewrite get_layout_default, layouts_lookup. repeat split; reflexivity.
Qed.

(** ** Cover fitting ([prepare_background_image]) *)

Section CoverFitting.

Import PyFloat LayoutSystem.

Variable image_open : string -> Py.result (Z * Z).
Variable image_write : string -> CoverGeometry -> Z -> Z -> Py.result string.





End CoverFitting.




(** Scenario D: a 1024x768 picture on a 300x200 slide is scaled to the
    width of the slide and cropped in height. *)
Lemma cover_geometry_scenario_d :
  LayoutSystem.cover_geometry 1024 768 300 200
  = Py.Ok (LayoutSystem.mkCover (300, 225) (0, 12, 300, 212)).
Proof. vm_compute. reflexivity. Qed.

(** The quotient behind the next result, in the kernel's binary64
    arithmetic and in the model: [110 / (110 / 100)] is the number just
    below 100, not 100. *)
Lemma binary64_quotient_below_100 :
  PyFloat.of_binary64 (110 / (110 / 100))%float
  = Some (7036874417766399 # 70368744177664)
  /\ (PyFloat.truediv 110 100 = Py.Ok (PyFloat.quotient (inject_Z 110) (inject_Z 100))
      /\ PyFloat.div (PyFloat.of_int 110) (PyFloat.quotient (inject_Z 110) (inject_Z 100))
         = Py.Ok (7036874417766399 # 70368744177664))
  /\ PyFloat.to_int (7036874417766399 # 70368744177664) = 99.
Proof. repeat split; vm_compute; reflexivity. Qed.

(** C7, at a failing input. A 110x100 picture on a 110x100 slide: the
    aspect ratios are equal, the height [int(110 / 1.1)] comes out as 99,
    one pixel short of the slide, and the crop box (0, -1, 110, 99) starts
    above the picture it is cut from. *)
Theorem cover_crop_leaves_picture :
  LayoutSystem.cover_geometry 110 100 110 100
  = Py.Ok (LayoutSystem.mkCover (110, 99) (0, -1, 110, 99))
  /\ (forall g, LayoutSystem.cover_geometry 110 100 110 100 = Py.Ok g ->
      LayoutSystem.crop_within g = false).
Proof.
  assert (E : LayoutSystem.cover_geometry 110 100 110 100
              = Py.Ok (LayoutSystem.mkCover (110, 99) (0, -1, 110, 99)))
    by (vm_compute; reflexivity).
  split; [exact E | ].
  intros g H. rewrite E in H. injection H as <-. reflexivity.
Qed.

(** ** Bullet prioritisation ([optimize_bullet_points]) *)

Section BulletPriority.

Import LayoutSystem Props.

Lemma insert_by_score_perm (p : string * Z) (l : list (string * Z)) :
  Permutation (insert_by_score p l) (p :: l).
Proof.
  induction l as [ | q l IH]; simpl.
  - apply Permutation_refl.
  - destruct (snd p <? snd q).
    + apply Permutation_trans with (q :: p :: l).
      * apply perm_skip. exact IH.
      * apply perm_swap.
    + apply Permutation_refl.
Qed.

Lemma sort_by_score_perm (l : list (string * Z)) :
  Permutation (sort_by_score l) l.
Proof.
  induction l as [ | p l IH]; simpl.
  - apply perm_nil.
  - apply Permutation_trans with (p :: sort_by_score l).
    + apply insert_by_score_perm.
    + apply perm_skip. exact IH.
Qed.

Lemma insert_by_score_sorted (p : string * Z) (l : list (string * Z)) :
  StronglySorted pair_ge l -> StronglySorted pair_ge (insert_by_score p l).
Proof.
  induction l as [ | q l IH]; simpl; intros Hs.
  - constructor; [constructor | constructor].
  - inversion Hs as [ | ? ? Hl Hq]; subst.
    destruct (Z.ltb_spec (snd p) (snd q)) as [Lt | Ge].
    + constructor; [apply IH; exact Hl | ].
      apply (Permutation_Forall (Permutation_sym (insert_by_score_perm p l))).
      constructor; [unfold pair_ge; lia | exact Hq].
    + constructor; [exact Hs | ].
      constructor; [unfold pair_ge; lia | ].
      rewrite List.Forall_forall in Hq |- *. intros r Hr.
      specialize (Hq r Hr). unfold pair_ge in *. lia.
Qed.

Lemma sort_by_score_sorted (l : list (string * Z)) :
  StronglySorted pair_ge (sort_by_score l).
Proof.
  induction l as [ | p l IH]; simpl.
  - constructor.
  - apply insert_by_score_sorted. exact IH.
Qed.

(** The sort is stable: the elements of one score keep their order. *)
Lemma insert_by_score_filter (s : Z) (p : string * Z) (l : list (string * Z)) :
  List.filter (has_score s) (insert_by_score p l)
  = List.filter (has_score s) (p :: l).
Proof.
  induction l as [ | q l IH]; [reflexivity | ].
  simpl insert_by_score.
  destruct (Z.ltb_spec (snd p) (snd q)) as [Lt | Ge]; [ | reflexivity].
  simpl List.filter in *. rewrite IH. unfold has_score.
  destruct (Z.eqb_spec (snd p) s), (Z.eqb_spec (snd q) s); try reflexivity.
  lia.
Qed.

Lemma sort_by_score_filter (s : Z) (l : list (string * Z)) :
  List.filter (has_score s) (sort_by_score l) = List.filter (has_score s) l.
Proof.
  induction l as [ | p l IH]; [reflexivity | ].
  simpl sort_by_score. rewrite insert_by_score_filter.
  simpl. rewrite IH. reflexivity.
Qed.

(** A list sorted by decreasing score and with the same elements of
    each score, in the same order, is the sorted list: the result does
    not depend on the sorting algorithm. *)
Lemma stable_sort_unique (l1 l2 : list (string * Z)) :
  StronglySorted pair_ge l1 -> StronglySorted pair_ge l2 ->
  (forall s, List.filter (has_score s) l1 = List.filter (has_score s) l2) ->
  l1 = l2.
Proof.
  revert l2. induction l1 as [ | a l1 IH]; intros l2 S1 S2 Hf.
  - destruct l2 as [ | b l2]; [reflexivity | ].
    specialize (Hf (snd b)). simpl in Hf. unfold has_score in Hf at 1.
    rewrite Z.eqb_refl in Hf. discriminate.
  - destruct l2 as [ | b l2].
    + specialize (Hf (snd a)). simpl in Hf. unfold has_score in Hf at 1.
      rewrite Z.eqb_refl in Hf. discriminate.
    + inversion S1 as [ | ? ? S1' F1]; subst.
      inversion S2 as [ | ? ? S2' F2]; subst.
      assert (Hab : snd a = snd b).
      { assert (In b (a :: l1)) as Hb.
        { apply (proj1 (filter_In (has_score (snd b)) b (a :: l1))).
          rewrite Hf. simpl. unfold has_score at 1. rewrite Z.eqb_refl.
          left. reflexivity. }
        assert (In a (b :: l2)) as Ha.
        { apply (proj1 (filter_In (has_score (snd a)) a (b :: l2))).
          rewrite <- Hf. simpl. unfold has_score at 1. rewrite Z.eqb_refl.
          left. reflexivity. }
        rewrite List.Forall_forall in F1, F2.
        destruct Hb as [-> | Hb]; [reflexivity | ].
        destruct Ha as [-> | Ha]; [reflexivity | ].
        pose proof (F1 b Hb). pose proof (F2 a Ha). unfold pair_ge in *. lia. }
      assert (Ea : has_score (snd a) a = true)
        by (unfold has_score; apply Z.eqb_refl).
      assert (Eb : has_score (snd a) b = true)
        by (unfold has_score; rewrite Hab; apply Z.eqb_refl).
      pose proof (Hf (snd a)) as H0. simpl in H0.
      rewrite Ea, Eb in H0.
      injection H0 as -> Htails.
      f_equal. apply IH; [exact S1' | exact S2' | ].
      intros s. specialize (Hf s). simpl in Hf.
      destruct (has_score s b); [injection Hf as Hf | ]; exact Hf.
Qed.

Lemma sorted_app_order (l1 l2 : list (string * Z)) :
  StronglySorted pair_ge (l1 ++ l2) ->
  forall a b, In a l1 -> In b l2 -> pair_ge a b.
Proof.
  induction l1 as [ | x l1 IH]; simpl; intros Hs a b Ha Hb; [contradiction | ].
  inversion Hs as [ | ? ? Hs' Hx]; subst.
  destruct Ha as [-> | Ha].
  - rewrite List.Forall_forall in Hx. apply Hx. apply in_or_app. right. exact Hb.
  - apply IH; assumption.
Qed.

Lemma sorted_app_left (l1 l2 : list (string * Z)) :
  StronglySorted pair_ge (l1 ++ l2) -> StronglySorted pair_ge l1.
Proof.
  induction l1 as [ | x l1 IH]; simpl; intros Hs; [constructor | ].
  inversion Hs as [ | ? ? Hs' Hx]; subst.
  constructor; [apply IH; exact Hs' | ].
  rewrite List.Forall_forall in Hx |- *. intros r Hr. apply Hx.
  apply in_or_app. left. exact Hr.
Qed.

Lemma scored_is_scored (points : list string) :
  List.Forall is_scored (scored points).
Proof.
  unfold scored. rewrite List.Forall_forall. intros q Hq.
  apply in_map_iff in Hq. destruct Hq as (p & <- & _). reflexivity.
Qed.

Lemma map_fst_scored (points : list string) : map fst (scored points) = points.
Proof.
  unfold scored. rewrite map_map. simpl. apply map_id.
Qed.

Lemma map_fst_filter (s : Z) (l : list (string * Z)) :
  List.Forall is_scored l ->
  map fst (List.filter (has_score s) l) = with_score s (map fst l).
Proof.
  unfold with_score.
  induction l as [ | q l IH]; intros Hl; [reflexivity | ].
  inversion Hl as [ | ? ? Hq Hl']; subst. simpl.
  unfold has_score at 1. rewrite Hq.
  destruct (total_score (fst q) =? s); simpl; rewrite (IH Hl'); reflexivity.
Qed.

Lemma map_fst_sorted (l : list (string * Z)) :
  List.Forall is_scored l ->
  StronglySorted pair_ge l -> StronglySorted score_ge (map fst l).
Proof.
  induction l as [ | q l IH]; intros Hl Hs; [constructor | ].
  inversion Hl as [ | ? ? Hq Hl']; subst.
  inversion Hs as [ | ? ? Hs' Hx]; subst.
  simpl. constructor; [apply IH; assumption | ].
  rewrite List.Forall_forall in Hx, Hl' |- *. intros r Hr.
  apply in_map_iff in Hr. destruct Hr as (x & <- & Hxin).
  specialize (Hx x Hxin). specialize (Hl' x Hxin).
  unfold pair_ge, score_ge, is_scored in *. lia.
Qed.

(** The score counts ten points for each keyword found. *)
Lemma keyword_fold (f : string -> bool) (l : list string) (acc : Z) :
  fold_left (fun a keyword => if f keyword then a + 10 else a) l acc
  = acc + 10 * Z.of_nat (List.length (List.filter f l)).
Proof.
  revert acc. induction l as [ | k l IH]; intros acc; simpl.
  - lia.
  - rewrite IH. destruct (f k); simpl List.length; lia.
Qed.

Lemma total_score_formula (point : string) :
  total_score point
  = Z.max 0 (100 - PyStr.len point)
    + 10 * Z.of_nat (List.length
                       (List.filter (fun keyword =>
                                       PyStr.contains keyword (PyStr.lower point))
                                    important_keywords)).
Proof.
  unfold total_score. rewrite keyword_fold. lia.
Qed.

(** What [optimize_bullet_points] returns above the cap. *)
Lemma optimize_bullet_points_cut (points : list string) (max_points : Z) :
  0 <= max_points < Z.of_nat (List.length points) ->
  optimize_bullet_points points max_points
  = map fst (firstn (Z.to_nat max_points) (sort_by_score (scored points))).
Proof.
  intros [H0 H1]. unfold optimize_bullet_points.
  destruct (Z.leb_spec (Z.of_nat (List.length points)) max_points); [lia | ].
  unfold list_slice_to.
  destruct (Z.leb_spec 0 max_points); [reflexivity | lia].
Qed.

End BulletPriority.

(** C6. For every bullet list longer than [max_points] (a cap that is not
    negative), each bullet is scored [max(0, 100 - length)] plus 10 for
    each priority keyword it contains, and [optimize_bullet_points]
    returns exactly [max_points] bullets: the head of the list sorted by
    decreasing score.  Every bullet kept scores at least as much as every
    bullet dropped, and among the bullets of one score the ones kept are
    the first in the original order and stay in that order (the sort is
    stable). *)
Theorem optimize_bullet_points_keeps_top (points : list string) (max_points : Z) :
  0 <= max_points < Z.of_nat (List.length points) ->
  let kept := LayoutSystem.optimize_bullet_points points max_points in
  let dropped := Props.dropped_points points max_points in
  Z.of_nat (List.length kept) = max_points
  /\ Permutation (kept ++ dropped)%list points
  /\ StronglySorted Props.score_ge kept
  /\ (forall a b, In a kept -> In b dropped -> Props.score_ge a b)
  /\ (forall s,
        (Props.with_score s kept ++ Props.with_score s dropped)%list
        = Props.with_score s points)
  /\ (forall point,
        LayoutSystem.total_score point
        = Z.max 0 (100 - PyStr.len point)
          + 10 * Z.of_nat
                   (List.length
                      (List.filter
                         (fun keyword =>
                            PyStr.contains keyword (PyStr.lower point))
                         LayoutSystem.important_keywords))).
Proof.
  intros Hcap kept dropped.
  unfold kept, dropped, Props.dropped_points.
  rewrite (optimize_bullet_points_cut points max_points Hcap).
  set (n := Z.to_nat max_points).
  set (sorted := LayoutSystem.sort_by_score (Props.scored points)).
  pose proof (sort_by_score_perm (Props.scored points)) as Hperm.
  pose proof (sort_by_score_sorted (Props.scored points)) as Hsorted.
  fold sorted in Hperm, Hsorted.
  assert (Hscored : List.Forall Props.is_scored sorted).
  { apply (Permutation_Forall (Permutation_sym Hperm)). apply scored_is_scored. }
  assert (Hsplit : firstn n sorted ++ skipn n sorted = sorted)
    by apply firstn_skipn.
  assert (Hfirst : List.Forall Props.is_scored (firstn n sorted)).
  { rewrite List.Forall_forall in Hscored |- *. intros q Hq. apply Hscored.
    rewrite <- Hsplit. apply in_or_app. left. exact Hq. }
  assert (Hrest : List.Forall Props.is_scored (skipn n sorted)).
  { rewrite List.Forall_forall in Hscored |- *. intros q Hq. apply Hscored.
    rewrite <- Hsplit. apply in_or_app. right. exact Hq. }
  rewrite <- Hsplit in Hsorted.
  repeat apply conj.
  - rewrite length_map, length_firstn.
    rewrite (Permutation_length Hperm). unfold Props.scored. rewrite length_map.
    unfold n. lia.
  - rewrite <- map_app, Hsplit.
    apply Permutation_trans with (map fst (Props.scored points)).
    + apply Permutation_map. exact Hperm.
    + rewrite map_fst_scored. apply Permutation_refl.
  - apply map_fst_sorted; [exact Hfirst | ].
    apply (sorted_app_left _ _ Hsorted).
  - intros a b Ha Hb.
    apply in_map_iff in Ha. destruct Ha as (qa & <- & Ha).
    apply in_map_iff in Hb. destruct Hb as (qb & <- & Hb).
    pose proof (sorted_app_order _ _ Hsorted qa qb Ha Hb) as Hord.
    rewrite List.Forall_forall in Hfirst, Hrest.
    specialize (Hfirst qa Ha). specialize (Hrest qb Hb).
    unfold Props.pair_ge, Props.score_ge, Props.is_scored in *. lia.
  - intros s.
    rewrite <- (map_fst_filter s _ Hfirst), <- (map_fst_filter s _ Hrest).
    rewrite <- map_app, <- List.filter_app, Hsplit.
    unfold sorted. rewrite sort_by_score_filter.
    rewrite (map_fst_filter s _ (scored_is_scored points)), map_fst_scored.
    reflexivity.
  - apply total_score_formula.
Qed.

(** Scenario C: seven bullets and a cap of four. *)
Lemma optimize_bullet_points_keeps_top_witness :
  Z.of_nat (List.length (LayoutSystem.optimize_bullet_points Samples.seven_bullets 4)) = 4
  /\ LayoutSystem.optimize_bullet_points Samples.seven_bullets 4
     = ["bb key"; "e"; "cc"; "dd"].
Proof.
  split.
  - apply (optimize_bullet_points_keeps_top Samples.seven_bullets 4).
    simpl. lia.
  - vm_compute. reflexivity.
Defined.

(** C10. A bullet list no longer than [max_points] is returned unchanged:
    the same bullets in the same order. *)
Theorem optimize_bullet_points_within_cap (points : list string) (max_points : Z) :
  Z.of_nat (List.length points) <= max_points ->
  LayoutSystem.optimize_bullet_points points max_points = points.
Proof.
  intros H. unfold LayoutSystem.optimize_bullet_points.
  destruct (Z.leb_spec (Z.of_nat (List.length points)) max_points); [reflexivity | lia].
Qed.

(** Four bullets and the default cap of four. *)
Lemma optimize_bullet_points_within_cap_witness :
  LayoutSystem.optimize_bullet_points ["one"; "two"; "three"; "four"]
                                      LayoutSystem.default_max_points
  = ["one"; "two"; "three"; "four"].
Proof.
  apply (optimize_bullet_points_within_cap ["one"; "two"; "three"; "four"]
           LayoutSystem.default_max_points).
  simpl. unfold LayoutSystem.default_max_points. lia.
Defined.

(** ** Text truncation ([validate_text_length]) *)

Section TextTruncation.

Import PyFloat LayoutSystem Props.

Lemma len_nonneg (s : string) : 0 <= PyStr.len s.
Proof. unfold PyStr.len. lia. Qed.

Lemma len_take (n : nat) (s : string) :
  PyStr.len (PyStr.take n s) = Z.min (Z.of_nat n) (PyStr.len s).
Proof.
  unfold PyStr.len. revert s.
  induction n as [ | n IH]; intros s.
  - simpl. lia.
  - destruct s as [ | c s]; simpl.
    + lia.
    + specialize (IH s). lia.
Qed.

Lemma append_cons (c : ascii) (a b : string) :
  (String c a ++ b)%string = String c (a ++ b)%string.
Proof. reflexivity. Qed.

Lemma len_app (a b : string) :
  PyStr.len (a ++ b)%string = PyStr.len a + PyStr.len b.
Proof.
  unfold PyStr.len. induction a as [ | c a IH].
  - reflexivity.
  - rewrite append_cons. simpl String.length. lia.
Qed.

(** A slice is never longer than the string, nor than a bound that is
    not negative. *)
Lemma len_slice_to (s : string) (n : Z) :
  PyStr.len (PyStr.slice_to s n) <= PyStr.len s
  /\ (0 <= n -> PyStr.len (PyStr.slice_to s n) <= n).
Proof.
  pose proof (len_nonneg s) as Hs.
  unfold PyStr.slice_to.
  destruct (Z.leb_spec 0 n); rewrite len_take; lia.
Qed.

Lemma rfind_range (s : string) (c : ascii) :
  -1 <= PyStr.rfind s c < PyStr.len s.
Proof.
  unfold PyStr.len. induction s as [ | a s IH]; simpl.
  - lia.
  - destruct (Z.leb_spec 0 (PyStr.rfind s c)).
    + lia.
    + destruct (Ascii.eqb a c); lia.
Qed.







Lemma validate_text_length_cases (text : string) (region : LayoutRegion) (limit : Z) :
  max_text_length region = Some limit ->
  limit < PyStr.len text ->
  let truncated := PyStr.slice_to text (limit - 3) in
  let last_period := PyStr.rfind truncated "."%char in
  let last_space := PyStr.rfind truncated " "%char in
  validate_text_length text region
  = if past last_period limit (lit 7 10)
    then (PyStr.slice_to truncated (last_period + 1), true)
    else if past last_space limit (lit 8 10)
         then ((PyStr.slice_to truncated last_space ++ "...")%string, true)
         else ((truncated ++ "...")%string, true).
Proof.
  intros Hmax Hlen truncated last_period last_space.
  unfold validate_text_length. rewrite Hmax.
  destruct (Z.leb_spec (PyStr.len text) limit); [lia | ].
  reflexivity.
Qed.

End TextTruncation.




(** ** The analysis parser ([_parse_analysis_result]) *)

Section AnalysisParser.

Import BaseEngine Factory Props.

Lemma scan_lines_flush (lines : list string) :
  scan_lines lines = flush (fold_left scan_line lines initial_state).
Proof. reflexivity. Qed.

(** One line adds one slide when it is a marker, none otherwise. *)
Lemma scan_line_count (st : ScanState) (raw : string) :
  List.length (flush (scan_line st raw))
  = (List.length (flush st)
     + if is_slide_marker (PyStr.strip raw) then 1 else 0)%nat.
Proof.
  unfold scan_line, flush.
  destruct (is_slide_marker (PyStr.strip raw)); cbn [current_slide slides_data].
  - destruct (current_slide st); rewrite ?length_app; simpl;
      rewrite ?Nat.add_0_r; reflexivity.
  - destruct (current_slide st) as [cur | ] eqn:Ecur;
      [ | rewrite Ecur, Nat.add_0_r; reflexivity].
    repeat match goal with
           | |- context [if ?b then _ else _] => destruct b
           end;
      cbn [current_slide slides_data]; rewrite ?Ecur, ?length_app; simpl;
      rewrite ?Nat.add_0_r; reflexivity.
Qed.

Lemma fold_scan_count (lines : list string) (st : ScanState) :
  List.length (flush (fold_left scan_line lines st))
  = (List.length (flush st) + marker_count lines)%nat.
Proof.
  revert st. induction lines as [ | raw lines IH]; intros st.
  - unfold marker_count. simpl. lia.
  - simpl fold_left. rewrite IH, scan_line_count.
    unfold marker_count. simpl List.filter.
    destruct (is_slide_marker (PyStr.strip raw)); simpl List.length; lia.
Qed.

(** Before the first marker nothing is recorded. *)
Lemma scan_line_closed (raw : string) :
  is_slide_marker (PyStr.strip raw) = false ->
  scan_line initial_state raw = initial_state.
Proof.
  intros H. unfold scan_line. rewrite H. reflexivity.
Qed.

Lemma fold_scan_closed (lines : list string) :
  marker_count lines = 0%nat ->
  fold_left scan_line lines initial_state = initial_state.
Proof.
  induction lines as [ | raw lines IH]; intros H; [reflexivity | ].
  unfold marker_count in H. simpl List.filter in H.
  destruct (is_slide_marker (PyStr.strip raw)) eqn:E; [discriminate | ].
  simpl fold_left. rewrite (scan_line_closed raw E). apply IH. exact H.
Qed.

(** The slide type of every slide in hand stays a stored one. *)
Lemma scan_line_slide_types (all : list string) (st : ScanState) (raw : string) :
  In raw all ->
  List.Forall (fun d => stored_slide_type all (key_slide_type d)) (flush st) ->
  List.Forall (fun d => stored_slide_type all (key_slide_type d))
              (flush (scan_line st raw)).
Proof.
  intros Hin Hst. unfold scan_line.
  destruct (is_slide_marker (PyStr.strip raw)).
  - unfold flush at 1. cbn [current_slide slides_data].
    apply Forall_app. split; [exact Hst | ].
    constructor; [left; reflexivity | constructor].
  - unfold flush in Hst |- *.
    destruct (current_slide st) as [cur | ] eqn:Ecur;
      [ | rewrite Ecur; exact Hst].
    apply Forall_app in Hst. destruct Hst as [Hsaved Hcur].
    inversion Hcur as [ | ? ? Hc _]; subst.
    destruct (has_tag (PyStr.strip raw) "TITLE:");
      [cbn [current_slide slides_data]; apply Forall_app; split;
       [exact Hsaved | constructor; [exact Hc | constructor]] | ].
    destruct (has_tag (PyStr.strip raw) "THEME_SUGGESTION:");
      [cbn [current_slide slides_data]; apply Forall_app; split;
       [exact Hsaved | constructor; [exact Hc | constructor]] | ].
    destruct (has_tag (PyStr.strip raw) "SLIDE_TYPE:") eqn:Etype.
    + cbn [current_slide slides_data]. apply Forall_app. split; [exact Hsaved | ].
      constructor; [ | constructor].
      right. exists raw. cbn [key_slide_type]. repeat split; assumption.
    + destruct (_ || _);
        [destruct (PyStr.truthy _) | ];
        cbn [current_slide slides_data]; rewrite ?Ecur;
        apply Forall_app; split;
        try exact Hsaved; constructor; try exact Hc; constructor.
Qed.

Lemma fold_scan_slide_types (all lines : list string) (st : ScanState) :
  (forall raw, In raw lines -> In raw all) ->
  List.Forall (fun d => stored_slide_type all (key_slide_type d)) (flush st) ->
  List.Forall (fun d => stored_slide_type all (key_slide_type d))
              (flush (fold_left scan_line lines st)).
Proof.
  revert st. induction lines as [ | raw lines IH]; intros st Hsub Hst.
  - exact Hst.
  - simpl fold_left. apply IH.
    + intros r Hr. apply Hsub. right. exact Hr.
    + apply scan_line_slide_types; [apply Hsub; left; reflexivity | exact Hst].
Qed.

(** The conversion keeps the slide type as it is; only the theme is
    looked up among the known values. *)
Lemma to_slide_data_slide_type (visuals : option VisualEngine) (d : SlideDict) :
  slide_type (to_slide_data visuals d) = key_slide_type d.
Proof.
  unfold to_slide_data.
  destruct (DesignTheme_call (key_theme d)); destruct visuals as [engine | ];
    repeat match goal with
           | |- context [if ?b then _ else _] => destruct b
           end; reflexivity.
Qed.

(** The slide type in hand after a line that is no marker: what
    [next_slide_type] makes of the one before.  The slides saved are
    left as they are. *)
Lemma scan_line_slide_type_step (st : ScanState) (raw : string) :
  is_slide_marker (PyStr.strip raw) = false ->
  slides_data (scan_line st raw) = slides_data st
  /\ option_map key_slide_type (current_slide (scan_line st raw))
     = option_map (fun slide_type => next_slide_type slide_type raw)
                  (option_map key_slide_type (current_slide st)).
Proof.
  intros Hm. unfold scan_line, next_slide_type, sets_slide_type.
  rewrite Hm. cbn [negb andb].
  destruct (current_slide st) as [cur | ] eqn:Ecur;
    [ | rewrite Ecur; split; reflexivity].
  destruct (has_tag (PyStr.strip raw) "TITLE:");
    [split; reflexivity | ].
  destruct (has_tag (PyStr.strip raw) "THEME_SUGGESTION:");
    [split; reflexivity | ].
  destruct (has_tag (PyStr.strip raw) "SLIDE_TYPE:");
    [split; reflexivity | ].
  cbn [negb andb option_map].
  destruct (_ || _); [destruct (PyStr.truthy _) | ];
    cbn [slides_data current_slide option_map key_slide_type];
    rewrite ?Ecur; split; reflexivity.
Qed.

(** The slide types the scanner ends with, read off the lines. *)
Lemma fold_scan_slide_types_from (lines : list string) (st : ScanState) :
  map key_slide_type (flush (fold_left scan_line lines st))
  = map key_slide_type (slides_data st)
    ++ slide_types_from (option_map key_slide_type (current_slide st)) lines.
Proof.
  revert st. induction lines as [ | raw lines IH]; intros st.
  - unfold flush. cbn [fold_left slide_types_from].
    destruct (current_slide st) as [cur | ]; cbn [option_map].
    + rewrite map_app. reflexivity.
    + rewrite app_nil_r. reflexivity.
  - cbn [fold_left slide_types_from]. rewrite IH.
    destruct (is_slide_marker (PyStr.strip raw)) eqn:Em.
    + unfold scan_line. rewrite Em.
      cbn [slides_data current_slide option_map].
      change (key_slide_type new_slide) with "content_slide".
      destruct (current_slide st) as [cur | ]; cbn [option_map].
      * rewrite map_app, <- app_assoc. reflexivity.
      * reflexivity.
    + destruct (scan_line_slide_type_step st raw Em) as [-> ->].
      reflexivity.
Qed.

Lemma block_slide_type_snoc (block : list string) (raw : string) :
  block_slide_type (block ++ [raw])
  = next_slide_type (block_slide_type block) raw.
Proof. unfold block_slide_type. rewrite fold_left_app. reflexivity. Qed.

(** The same slide types, slide by slide. *)
Lemma slide_types_from_blocks (lines : list string)
    (current : option (list string)) :
  slide_types_from (option_map block_slide_type current) lines
  = map block_slide_type (blocks_from current lines).
Proof.
  revert current. induction lines as [ | raw lines IH]; intros current.
  - destruct current; reflexivity.
  - cbn [slide_types_from blocks_from].
    destruct (is_slide_marker (PyStr.strip raw)).
    + pose proof (IH (Some [])) as Hnew. cbn [option_map] in Hnew.
      change (block_slide_type []) with "content_slide" in Hnew.
      destruct current as [block | ]; cbn [option_map map];
        rewrite Hnew; reflexivity.
    + rewrite <- IH. f_equal.
      destruct current as [block | ]; cbn [option_map]; [ | reflexivity].
      rewrite block_slide_type_snoc. reflexivity.
Qed.

(** Lines with no marker among them open no slide and close none. *)
Lemma blocks_from_no_marker (body : list string) :
  marker_count body = 0%nat ->
  blocks_from None body = []
  /\ forall block, blocks_from (Some block) body = [block ++ body].
Proof.
  induction body as [ | raw body IH]; intros H.
  - split; [reflexivity | ]. intros block. rewrite app_nil_r. reflexivity.
  - unfold marker_count in H. cbn [List.filter] in H.
    cbn [blocks_from].
    destruct (is_slide_marker (PyStr.strip raw)); [discriminate H | ].
    destruct (IH H) as [Hnone Hsome]. cbn [option_map].
    split; [exact Hnone | ].
    intros block. rewrite Hsome, <- app_assoc. reflexivity.
Qed.

(** The lines of the last slide: the ones after the last marker. *)
Lemma blocks_from_last (lines : list string) (marker : string)
    (body : list string) (current : option (list string)) :
  is_slide_marker (PyStr.strip marker) = true ->
  marker_count body = 0%nat ->
  blocks_from current (lines ++ marker :: body)
  = blocks_from current lines ++ [body].
Proof.
  intros Hm Hbody. revert current.
  induction lines as [ | raw lines IH]; intros current.
  - cbn [app blocks_from]. rewrite Hm.
    rewrite (proj2 (blocks_from_no_marker body Hbody) []).
    destruct current; reflexivity.
  - cbn [app blocks_from].
    destruct (is_slide_marker (PyStr.strip raw)).
    + destruct current; rewrite IH; reflexivity.
    + apply IH.
Qed.

(** Lines that set no slide type leave it as it is. *)
Lemma fold_next_slide_type_kept (block : list string) (slide_type : string) :
  (forall raw, In raw block -> sets_slide_type (PyStr.strip raw) = false) ->
  fold_left next_slide_type block slide_type = slide_type.
Proof.
  revert slide_type. induction block as [ | raw block IH]; intros slide_type H.
  - reflexivity.
  - cbn [fold_left]. unfold next_slide_type at 2.
    rewrite (H raw (or_introl eq_refl)).
    apply IH. intros r Hr. apply H. right. exact Hr.
Qed.

End AnalysisParser.

(** C3 (as amended). For every input text, the slide type of every record
    produced by parsing is a free string, not a member of an enumeration,
    read off the lines of the record's own slide, the lines between its
    marker and the next: it is "content_slide" when none of them is a
    [SLIDE_TYPE:] line, and otherwise the text of the last of them that
    sets a type (asterisks and the marker removed, blanks stripped),
    stored as it is whether or not it is a known tag.  The conversion to
    [SlideData] keeps the string unchanged; nothing is coerced and
    nothing is raised. *)
Theorem parsed_slide_type_is_stored_text
    (visuals : option Factory.VisualEngine) (text : string) :
  map BaseEngine.slide_type (Factory._parse_analysis_result visuals text)
  = map Props.block_slide_type (Props.blocks (Factory.lines_of text))
  /\ (forall lines,
        Props.marker_count lines = 0%nat -> Props.blocks lines = [])
  /\ (forall lines marker body,
        Factory.is_slide_marker (PyStr.strip marker) = true ->
        Props.marker_count body = 0%nat ->
        Props.blocks (lines ++ marker :: body) = Props.blocks lines ++ [body])
  /\ (forall block,
        (forall raw,
           In raw block ->
           Factory.has_tag (PyStr.strip raw) "SLIDE_TYPE:" = false) ->
        Props.block_slide_type block = "content_slide")
  /\ (forall before raw after,
        Props.sets_slide_type (PyStr.strip raw) = true ->
        (forall later,
           In later after ->
           Props.sets_slide_type (PyStr.strip later) = false) ->
        Props.block_slide_type (before ++ raw :: after)
        = Factory.tag_value (PyStr.strip raw) "SLIDE_TYPE:")
  /\ (forall record,
        In record (Factory._parse_analysis_result visuals text) ->
        Props.stored_slide_type (Factory.lines_of text)
                                (BaseEngine.slide_type record)
        /\ exists d,
             In d (Factory.scan_lines (Factory.lines_of text))
             /\ record = Factory.to_slide_data visuals d
             /\ BaseEngine.slide_type record = Factory.key_slide_type d).
Proof.
  repeat apply conj.
  - unfold Factory._parse_analysis_result. rewrite map_map.
    rewrite (map_ext _ _ (to_slide_data_slide_type visuals)).
    rewrite scan_lines_flush, fold_scan_slide_types_from.
    cbn [Factory.initial_state Factory.slides_data Factory.current_slide
         option_map map app].
    exact (slide_types_from_blocks (Factory.lines_of text) None).
  - intros lines H. exact (proj1 (blocks_from_no_marker lines H)).
  - intros lines marker body Hm Hbody.
    exact (blocks_from_last lines marker body None Hm Hbody).
  - intros block H. apply fold_next_slide_type_kept.
    intros raw Hraw. unfold Props.sets_slide_type.
    rewrite (H raw Hraw). apply andb_false_r.
  - intros before raw after Hraw Hafter.
    unfold Props.block_slide_type. rewrite fold_left_app.
    cbn [fold_left]. unfold Props.next_slide_type at 2. rewrite Hraw.
    apply fold_next_slide_type_kept. exact Hafter.
  - intros record Hin. unfold Factory._parse_analysis_result in Hin.
    apply in_map_iff in Hin. destruct Hin as (d & <- & Hd).
    rewrite to_slide_data_slide_type.
    split.
    + pose proof (fold_scan_slide_types (Factory.lines_of text)
                    (Factory.lines_of text) Factory.initial_state
                    (fun raw H => H) (List.Forall_nil _)) as Hall.
      rewrite <- scan_lines_flush in Hall.
      rewrite List.Forall_forall in Hall. exact (Hall d Hd).
    + exists d. repeat split. exact Hd.
Qed.

(** Two slides, the first declared with the type "banana" and the second
    with no [SLIDE_TYPE:] line. *)
Lemma parsed_slide_type_is_stored_text_witness :
  map BaseEngine.slide_type
      (Factory._parse_analysis_result None Samples.two_slides_text)
  = ["banana"; "content_slide"].
Proof.
  rewrite (proj1 (parsed_slide_type_is_stored_text
                    None Samples.two_slides_text)).
  vm_compute. reflexivity.
Defined.

(** C3 (as stated): the line [SLIDE_TYPE: banana] gives a record whose
    slide type is "banana", which is neither "content_slide" nor the tag
    of any of the six kinds. *)
Lemma unknown_slide_type_counterexample :
  map BaseEngine.slide_type
      (Factory._parse_analysis_result None Samples.banana_text)
  = ["banana"]
  /\ Spec.kind_of_tag "banana" = None
  /\ map BaseEngine.slide_type
         (Factory._parse_analysis_result None Samples.banana_text)
     <> [Spec.kind_tag Spec.Content].
Proof.
  split; [vm_compute; reflexivity | ].
  split; [vm_compute; reflexivity | ].
  vm_compute. discriminate.
Qed.

(** C9. Parsing has no error path.  An empty text yields no record; the
    number of records is the number of slide-marker lines of the input, so
    every record was opened by a marker; and the lines before the first
    marker, bullets included, leave no trace in the result. *)
Theorem parse_records_need_markers (visuals : option Factory.VisualEngine) :
  Factory._parse_analysis_result visuals "" = []
  /\ (forall text,
        List.length (Factory._parse_analysis_result visuals text)
        = Props.marker_count (Factory.lines_of text))
  /\ (forall before after,
        Props.marker_count before = 0%nat ->
        Factory.scan_lines (before ++ after) = Factory.scan_lines after)
  /\ (forall text,
        Props.marker_count (Factory.lines_of text) = 0%nat ->
        Factory._parse_analysis_result visuals text = []).
Proof.
  assert (Hcount : forall text,
            List.length (Factory._parse_analysis_result visuals text)
            = Props.marker_count (Factory.lines_of text)).
  { intros text. unfold Factory._parse_analysis_result.
    rewrite length_map, scan_lines_flush, fold_scan_count. reflexivity. }
  repeat apply conj.
  - reflexivity.
  - exact Hcount.
  - intros before after H.
    rewrite !scan_lines_flush, fold_left_app, (fold_scan_closed before H).
    reflexivity.
  - intros text H. apply length_zero_iff_nil. rewrite Hcount. exact H.
Qed.

(** Two bullets before the first marker: one record, holding only the
    bullet that follows the marker. *)
Lemma orphan_bullets_dropped :
  map BaseEngine.points
      (Factory._parse_analysis_result None Samples.orphan_bullets_text)
  = [["third"]].
Proof. vm_compute. reflexivity. Qed.

(** ** More on rounding: fixed points and the relative error *)

Section RoundingError.

Import PyFloat Props.
Local Open Scope Q_scope.

Lemma inject_Z_nonneg (z : Z) : (0 <= z)%Z -> 0 <= inject_Z z.
Proof.
  intros H. replace 0 with (inject_Z 0) by reflexivity.
  rewrite <- Zle_Qle. exact H.
Qed.

Lemma inject_Z_pos (z : Z) : (0 < z)%Z -> 0 < inject_Z z.
Proof.
  intros H. replace 0 with (inject_Z 0) by reflexivity.
  rewrite <- Zlt_Qlt. exact H.
Qed.

(** A number with a significand below [2^53] is a binary64 number,
    whatever its exponent. *)
Lemma round53_fixed (m e : Z) :
  (0 <= m < 2 ^ 53)%Z ->
  round53 (inject_Z m * pow2 e) == inject_Z m * pow2 e.
Proof.
  intros [Hm0 Hm1].
  pose proof (pow2_pos e) as Pe.
  destruct (Z.eq_dec m 0%Z) as [-> | Nm].
  { rewrite round53_zero; [ring | ring]. }
  assert (Hx : 0 < inject_Z m * pow2 e).
  { apply Qmult_lt_0_compat; [apply inject_Z_pos; lia | exact Pe]. }
  rewrite (round53_pos _ Hx), round_pos_value.
  destruct (ulp_exp_spec _ Hx) as [E1 _].
  set (e' := ulp_exp (inject_Z m * pow2 e)) in *.
  assert (He : (e' <= e)%Z).
  { destruct (Z_le_gt_dec e' e) as [L | G]; [exact L | exfalso].
    assert (pow2 (53 + e) <= pow2 (e' + 52)) by (apply pow2_le; lia).
    assert (inject_Z m * pow2 e < pow2 (53 + e)).
    { rewrite pow2_add, (pow2_inject 53) by lia.
      apply Qmult_lt_compat_r; [exact Pe | ].
      rewrite <- Zlt_Qlt. exact Hm1. }
    lra. }
  assert (Hsplit : pow2 e == pow2 (e - e') * pow2 e').
  { rewrite <- pow2_add. replace (e - e' + e')%Z with e by lia. reflexivity. }
  pose proof (pow2_pos e') as Pe'.
  assert (Hscaled : inject_Z m * pow2 e / pow2 e' == inject_Z (m * 2 ^ (e - e'))).
  { rewrite Hsplit, (pow2_inject (e - e')) by lia.
    rewrite inject_Z_mult. field. lra. }
  rewrite (rne_comp _ _ Hscaled), rne_inject, inject_Z_mult.
  rewrite <- (pow2_inject (e - e')) by lia.
  rewrite Hsplit. ring.
Qed.

Lemma round53_representable (x : Q) : 0 <= x -> representable (round53 x).
Proof.
  intros Hx.
  destruct (Qlt_le_dec 0 x) as [Px | Zx].
  - rewrite (round53_pos x Px).
    pose proof (significand_bounds x Px) as [M1 M2].
    set (m := rne (x / pow2 (ulp_exp x))) in *.
    destruct (Z.eq_dec m (2 ^ 53)%Z) as [E | N].
    + exists (2 ^ 52)%Z, (ulp_exp x + 1)%Z. split; [lia | ].
      rewrite round_pos_value. fold m. rewrite E.
      rewrite (Z.add_comm (ulp_exp x) 1), pow2_add.
      change (pow2 1) with (inject_Z 2).
      rewrite Qmult_assoc, <- inject_Z_mult. reflexivity.
    + exists m, (ulp_exp x). split; [lia | ].
      rewrite round_pos_value. reflexivity.
  - rewrite (round53_zero x) by lra.
    exists 0%Z, 0%Z. split; [lia | reflexivity].
Qed.

Lemma representable_fixed (x : Q) :
  representable x -> 0 <= x /\ round53 x == x.
Proof.
  intros (m & e & Hm & E).
  assert (Hx : 0 <= x).
  { rewrite E. apply Qmult_le_0_compat;
      [apply inject_Z_nonneg; lia | apply Qlt_le_weak, pow2_pos]. }
  split; [exact Hx | ].
  rewrite (round53_comp x _ Hx E), E. apply round53_fixed. exact Hm.
Qed.

(** A binary64 number above the rounding of [x] is at least [x]: no
    binary64 number lies between a number and its rounding. *)
Lemma above_rounding (r x : Q) :
  representable r -> 0 <= x -> round53 x < r -> x <= r.
Proof.
  intros Hr Hx Hlt.
  destruct (representable_fixed r Hr) as [Hr0 Hfix].
  destruct (Qlt_le_dec r x) as [L | G]; [exfalso | exact G].
  pose proof (round53_mono r x Hr0 (Qlt_le_weak _ _ L)) as Hm.
  lra.
Qed.

Lemma rne_error (y : Q) : inject_Z (rne y) <= y + (1 # 2).
Proof.
  pose proof (Qfloor_le y) as Hf.
  unfold rne.
  destruct (Qcompare_spec (y - inject_Z (Qfloor y)) (1 # 2)) as [H | H | H].
  - destruct (Z.even (Qfloor y)); [lra | ].
    rewrite inject_Z_plus. change (inject_Z 1) with 1. lra.
  - lra.
  - rewrite inject_Z_plus. change (inject_Z 1) with 1. lra.
Qed.

(** Rounding up adds at most one part in [2^53]. *)
Lemma round53_relative_error (x : Q) :
  0 <= x -> round53 x <= x * (1 + pow2 (-53)).
Proof.
  intros Hx.
  pose proof (pow2_pos (-53)) as P53.
  destruct (Qlt_le_dec 0 x) as [Px | Zx].
  - rewrite (round53_pos x Px), round_pos_value.
    destruct (scaled_bounds x Px) as [S1 _].
    pose proof (pow2_pos (ulp_exp x)) as Pe.
    set (e := ulp_exp x) in *.
    set (y := x / pow2 e) in *.
    assert (Hxy : x == y * pow2 e) by (unfold y; field; lra).
    pose proof (rne_error y) as Hr.
    assert (Hhalf : 1 # 2 <= y * pow2 (-53)).
    { assert (E : pow2 52 * pow2 (-53) == 1 # 2).
      { rewrite <- pow2_add. reflexivity. }
      rewrite <- E. apply Qmult_le_compat_r; [exact S1 | lra]. }
    apply Qle_trans with ((y + y * pow2 (-53)) * pow2 e).
    + apply Qmult_le_compat_r; lra.
    + rewrite Hxy. apply Qle_lteq. right. ring.
  - rewrite (round53_zero x) by lra.
    apply Qmult_le_0_compat; lra.
Qed.

Lemma to_int_lower (a : Z) (x : Q) :
  (0 <= a)%Z -> inject_Z a <= x -> (a <= to_int x)%Z.
Proof.
  intros Ha H.
  assert (Hx : 0 <= x).
  { apply Qle_trans with (inject_Z a); [apply inject_Z_nonneg; exact Ha | exact H]. }
  rewrite (to_int_floor x Hx), <- (Qfloor_Z a).
  apply Qfloor_resp_le. exact H.
Qed.

Lemma to_int_mono (x y : Q) : 0 <= x -> x <= y -> (to_int x <= to_int y)%Z.
Proof.
  intros Hx Hxy.
  rewrite (to_int_floor x Hx), (to_int_floor y) by lra.
  apply Qfloor_resp_le. exact Hxy.
Qed.

End RoundingError.

(** ** Cover fitting: how far the crop box can leave the picture *)

Section CoverBounds.

Import PyFloat LayoutSystem Props.

Lemma quotient_pos (a b : Z) :
  0 < a -> 0 < b -> (0 < quotient (inject_Z a) (inject_Z b))%Q.
Proof.
  intros Ha Hb. unfold quotient.
  assert (Hx : (0 < inject_Z a / inject_Z b)%Q).
  { apply Qlt_shift_div_l; [apply inject_Z_pos; exact Hb | ].
    rewrite Qmult_0_l. apply inject_Z_pos. exact Ha. }
  rewrite (round53_pos _ Hx), round_pos_value.
  pose proof (significand_bounds _ Hx) as [M _].
  apply Qmult_lt_0_compat; [apply inject_Z_pos; lia | apply pow2_pos].
Qed.

Lemma quotient_representable (a b : Z) :
  0 <= a -> 0 < b -> representable (quotient (inject_Z a) (inject_Z b)).
Proof.
  intros Ha Hb. apply round53_representable.
  apply Qle_shift_div_l; [apply inject_Z_pos; exact Hb | ].
  rewrite Qmult_0_l. apply inject_Z_nonneg. exact Ha.
Qed.

Lemma of_int_exact (n : Z) : 0 <= n < 2 ^ 53 -> (of_int n == inject_Z n)%Q.
Proof. intros H. apply round53_inject. exact H. Qed.

Lemma is_zero_pos (x : Q) : (0 < x)%Q -> is_zero x = false.
Proof.
  intros H. unfold is_zero.
  destruct (Qeq_bool x 0) eqn:E; [ | reflexivity].
  apply Qeq_bool_eq in E. lra.
Qed.

Lemma gtb_true (x y : Q) : gtb x y = true -> (y < x)%Q.
Proof.
  unfold gtb. intros H. apply negb_true_iff in H.
  apply Qnot_le_lt. intros L. apply Qle_bool_iff in L. congruence.
Qed.

Lemma gtb_false (x y : Q) : gtb x y = false -> (x <= y)%Q.
Proof.
  unfold gtb. intros H. apply negb_false_iff in H.
  apply Qle_bool_iff. exact H.
Qed.

(** The width of a wider picture scaled to the height of the slide is at
    least the width of the slide. *)
Lemma wider_width_covers (img_width img_height slide_width slide_height : Z) :
  0 < img_width -> 0 < img_height ->
  0 <= slide_width < 2 ^ 53 -> 0 < slide_height < 2 ^ 53 ->
  gtb (quotient (inject_Z img_width) (inject_Z img_height))
      (quotient (inject_Z slide_width) (inject_Z slide_height)) = true ->
  slide_width
  <= to_int (mul (of_int slide_height)
                 (quotient (inject_Z img_width) (inject_Z img_height))).
Proof.
  intros Hw Hh HW HH Hgt.
  set (r := quotient (inject_Z img_width) (inject_Z img_height)) in *.
  apply gtb_true in Hgt.
  assert (PH : (0 < inject_Z slide_height)%Q) by (apply inject_Z_pos; lia).
  assert (PW : (0 <= inject_Z slide_width)%Q) by (apply inject_Z_nonneg; lia).
  assert (Hx : (0 <= inject_Z slide_width / inject_Z slide_height)%Q).
  { apply Qle_shift_div_l; [exact PH | lra]. }
  assert (Hr : (inject_Z slide_width / inject_Z slide_height <= r)%Q).
  { apply above_rounding; [ | exact Hx | exact Hgt].
    apply quotient_representable; lia. }
  pose proof (of_int_exact slide_height ltac:(lia)) as EH.
  assert (Hprod : (inject_Z slide_width <= of_int slide_height * r)%Q).
  { rewrite EH.
    apply Qle_trans with
      (inject_Z slide_height * (inject_Z slide_width / inject_Z slide_height))%Q.
    - apply Qle_lteq. right. field. lra.
    - apply Qmult_le_l; [exact PH | exact Hr]. }
  apply to_int_lower; [lia | ].
  unfold mul.
  apply Qle_trans with (round53 (inject_Z slide_width)).
  - rewrite round53_inject by lia. apply Qle_refl.
  - apply round53_mono; [exact PW | exact Hprod].
Qed.

(** The height of a taller picture scaled to the width of the slide is at
    most one pixel short of the height of the slide. *)
Lemma taller_height_covers (img_width img_height slide_width slide_height : Z) :
  0 < img_width -> 0 < img_height ->
  0 <= slide_width < 2 ^ 53 -> 0 < slide_height <= 2 ^ 53 ->
  gtb (quotient (inject_Z img_width) (inject_Z img_height))
      (quotient (inject_Z slide_width) (inject_Z slide_height)) = false ->
  slide_height - 1
  <= to_int (quotient (of_int slide_width)
                      (quotient (inject_Z img_width) (inject_Z img_height))).
Proof.
  intros Hw Hh HW HH Hle.
  pose proof (quotient_pos img_width img_height Hw Hh) as Pr.
  set (r := quotient (inject_Z img_width) (inject_Z img_height)) in *.
  apply gtb_false in Hle.
  assert (PH : (0 < inject_Z slide_height)%Q) by (apply inject_Z_pos; lia).
  assert (PW : (0 <= inject_Z slide_width)%Q) by (apply inject_Z_nonneg; lia).
  set (t := (inject_Z slide_width / inject_Z slide_height)%Q) in *.
  assert (Ht : (0 <= t)%Q).
  { unfold t. apply Qle_shift_div_l; [exact PH | lra]. }
  assert (HWt : (inject_Z slide_width == t * inject_Z slide_height)%Q).
  { unfold t. field. lra. }
  pose proof (round53_relative_error t Ht) as Herr.
  change (r <= round53 t)%Q in Hle.
  pose proof (pow2_pos (-53)) as Pd.
  assert (Hone : (inject_Z (slide_height - 1) * pow2 (-53) <= 1)%Q).
  { assert (E : (pow2 53 * pow2 (-53) == 1)%Q).
    { rewrite <- pow2_add. reflexivity. }
    rewrite <- E. apply Qmult_le_compat_r; [ | lra].
    rewrite (pow2_inject 53) by lia. rewrite <- Zle_Qle. lia. }
  assert (PH1 : (0 <= inject_Z (slide_height - 1))%Q)
    by (apply inject_Z_nonneg; lia).
  assert (EH1 : (inject_Z (slide_height - 1) == inject_Z slide_height - 1)%Q).
  { unfold Z.sub. rewrite inject_Z_plus. reflexivity. }
  assert (Hgoal : (inject_Z (slide_height - 1) * r <= inject_Z slide_width)%Q).
  { apply Qle_trans with
      (inject_Z (slide_height - 1) * (t * (1 + pow2 (-53))))%Q.
    - apply Qmult_le_compat_nonneg; repeat split; lra.
    - rewrite HWt.
      assert (Hp : (0 <= t * (1 - inject_Z (slide_height - 1) * pow2 (-53)))%Q).
      { apply Qmult_le_0_compat; lra. }
      rewrite EH1 in *.
      set (a := inject_Z slide_height) in *. set (d := pow2 (-53)) in *.
      assert (Hring : (t * a - (a - 1) * (t * (1 + d))
                       == t * (1 - (a - 1) * d))%Q) by ring.
      lra. }
  pose proof (of_int_exact slide_width HW) as EW.
  apply to_int_lower; [lia | ].
  unfold quotient at 1.
  apply Qle_trans with (round53 (inject_Z (slide_height - 1))).
  - destruct (Z.eq_dec slide_height (2 ^ 53)) as [-> | N].
    + vm_compute. discriminate.
    + rewrite round53_inject by lia. apply Qle_refl.
  - apply round53_mono; [exact PH1 | ].
    apply Qle_shift_div_l; [exact Pr | ].
    rewrite EW. exact Hgoal.
Qed.

Lemma half_gap_bounds (n s : Z) :
  s - 1 <= n -> -1 <= (n - s) / 2 /\ (n - s) / 2 + s <= n.
Proof.
  intros H.
  pose proof (Z.div_mod (n - s) 2 ltac:(lia)) as E.
  pose proof (Z.mod_pos_bound (n - s) 2 ltac:(lia)) as B.
  lia.
Qed.

(** X1. A picture wider than the slide: the resized picture has the height of
    the slide and at least its width, and the crop box, of the size of the
    slide, lies within it. *)
Theorem cover_geometry_wider_within
    (img_width img_height slide_width slide_height : Z) :
  0 < img_width -> 0 < img_height ->
  0 < slide_width < 2 ^ 53 -> 0 < slide_height < 2 ^ 53 ->
  gtb (quotient (inject_Z img_width) (inject_Z img_height))
      (quotient (inject_Z slide_width) (inject_Z slide_height)) = true ->
  exists new_width,
    cover_geometry img_width img_height slide_width slide_height
    = Py.Ok (mkCover (new_width, slide_height)
                     ((new_width - slide_width) / 2, 0,
                      (new_width - slide_width) / 2 + slide_width,
                      slide_height))
    /\ slide_width <= new_width
    /\ crop_within (mkCover (new_width, slide_height)
                            ((new_width - slide_width) / 2, 0,
                             (new_width - slide_width) / 2 + slide_width,
                             slide_height)) = true.
Proof.
  intros Hw Hh HW HH Hgt.
  pose proof (wider_width_covers img_width img_height slide_width slide_height
                Hw Hh ltac:(lia) HH Hgt) as Hcover.
  eexists. split; [ | split; [exact Hcover | ]].
  - unfold cover_geometry, truediv.
    destruct (Z.eqb_spec img_height 0) as [? | _]; [lia | ].
    destruct (Z.eqb_spec slide_height 0) as [? | _]; [lia | ].
    cbn [Py.bind]. rewrite Hgt. reflexivity.
  - set (n := to_int _) in *.
    pose proof (half_gap_bounds n slide_width ltac:(lia)) as [B1 B2].
    assert (0 <= (n - slide_width) / 2) by (apply Z.div_pos; lia).
    unfold crop_within. cbn [resized crop_box].
    repeat (apply andb_true_intro; split); apply Z.leb_le; lia.
Qed.

(** X2. A picture not wider than the slide: the resized picture has the width
    of the slide and is at most one pixel short of its height; the crop
    box then starts at most one pixel above the picture and never reaches
    below it. *)
Theorem cover_geometry_taller_one_pixel
    (img_width img_height slide_width slide_height : Z) :
  0 < img_width -> 0 < img_height ->
  0 < slide_width < 2 ^ 53 -> 0 < slide_height < 2 ^ 53 ->
  gtb (quotient (inject_Z img_width) (inject_Z img_height))
      (quotient (inject_Z slide_width) (inject_Z slide_height)) = false ->
  exists new_height,
    cover_geometry img_width img_height slide_width slide_height
    = Py.Ok (mkCover (slide_width, new_height)
                     (0, (new_height - slide_height) / 2, slide_width,
                      (new_height - slide_height) / 2 + slide_height))
    /\ slide_height - 1 <= new_height
    /\ -1 <= (new_height - slide_height) / 2
    /\ (new_height - slide_height) / 2 + slide_height <= new_height.
Proof.
  intros Hw Hh HW HH Hle.
  pose proof (taller_height_covers img_width img_height slide_width
                slide_height Hw Hh ltac:(lia) ltac:(lia) Hle) as Hcover.
  pose proof (quotient_pos img_width img_height Hw Hh) as Pr.
  eexists. split; [ | split; [exact Hcover | ]].
  - unfold cover_geometry, truediv.
    destruct (Z.eqb_spec img_height 0) as [? | _]; [lia | ].
    destruct (Z.eqb_spec slide_height 0) as [? | _]; [lia | ].
    cbn [Py.bind]. rewrite Hle.
    unfold div. rewrite (is_zero_pos _ Pr). reflexivity.
  - apply half_gap_bounds. exact Hcover.
Qed.

Lemma cover_geometry_wider_within_witness :
  exists new_width,
    cover_geometry 1920 1080 300 200
    = Py.Ok (mkCover (new_width, 200)
                     ((new_width - 300) / 2, 0, (new_width - 300) / 2 + 300, 200))
    /\ 300 <= new_width
    /\ crop_within (mkCover (new_width, 200)
                            ((new_width - 300) / 2, 0,
                             (new_width - 300) / 2 + 300, 200)) = true.
Proof.
  apply (cover_geometry_wider_within 1920 1080 300 200);
    [lia | lia | lia | lia | vm_compute; reflexivity].
Defined.

Lemma cover_geometry_taller_one_pixel_witness :
  exists new_height,
    cover_geometry 110 100 110 100
    = Py.Ok (mkCover (110, new_height)
                     (0, (new_height - 100) / 2, 110,
                      (new_height - 100) / 2 + 100))
    /\ 100 - 1 <= new_height
    /\ -1 <= (new_height - 100) / 2
    /\ (new_height - 100) / 2 + 100 <= new_height.
Proof.
  apply (cover_geometry_taller_one_pixel 110 100 110 100);
    [lia | lia | lia | lia | vm_compute; reflexivity].
Defined.

End CoverBounds.

(** ** Font size against text length *)

Section FontSizeOrder.

Import PyFloat LayoutSystem Props.

Lemma scaled_size_mono (min_size max_size : Z) (c1 c2 : float) :
  0 <= min_size <= max_size -> max_size < 2 ^ 53 ->
  (0 <= c1)%Q -> (c1 <= c2)%Q ->
  scaled_size min_size max_size c1 <= scaled_size min_size max_size c2.
Proof.
  intros [H0 H1] H2 Hc0 Hc12.
  unfold scaled_size, add, mul.
  pose proof (of_int_exact (max_size - min_size) ltac:(lia)) as Hd.
  pose proof (of_int_exact min_size ltac:(lia)) as Hmin.
  assert (Dpos : (0 <= inject_Z (max_size - min_size))%Q)
    by (apply inject_Z_nonneg; lia).
  assert (Mpos : (0 <= inject_Z min_size)%Q) by (apply inject_Z_nonneg; lia).
  assert (P1 : (0 <= of_int (max_size - min_size) * c1)%Q).
  { rewrite Hd. apply Qmult_le_0_compat; assumption. }
  assert (P12 : (of_int (max_size - min_size) * c1
                 <= of_int (max_size - min_size) * c2)%Q).
  { rewrite Hd. apply Qmult_le_compat_nonneg; repeat split; lra. }
  pose proof (round53_nonneg _ P1) as R1.
  pose proof (round53_mono _ _ P1 P12) as R12.
  apply to_int_mono.
  - apply round53_nonneg. rewrite Hmin. lra.
  - apply round53_mono; rewrite Hmin; lra.
Qed.

Lemma lit_4_10_below_7_10 : (lit 4 10 <= lit 7 10)%Q.
Proof. apply Qle_bool_iff. vm_compute. reflexivity. Qed.

(** X3. A longer text never gets a larger font: over the four length
    buckets the size goes down from [max_size] to [min_size]. *)
Theorem calculate_font_size_monotone
    (text1 text2 : string) (region : LayoutRegion) (min_size max_size : Z) :
  font_size_range region = (min_size, max_size) ->
  0 <= min_size <= max_size ->
  max_size < 2 ^ 53 ->
  PyStr.len text1 <= PyStr.len text2 ->
  calculate_font_size text2 region <= calculate_font_size text1 region.
Proof.
  intros Hrange Hord Hmax Hlen.
  pose proof (scaled_size_bounds min_size max_size _ Hord Hmax
                (proj1 lit_7_10_unit) (proj2 lit_7_10_unit)) as B7.
  pose proof (scaled_size_bounds min_size max_size _ Hord Hmax
                (proj1 lit_4_10_unit) (proj2 lit_4_10_unit)) as B4.
  pose proof (scaled_size_mono min_size max_size _ _ Hord Hmax
                (proj1 lit_4_10_unit) lit_4_10_below_7_10) as B47.
  unfold calculate_font_size. rewrite Hrange.
  fold (scaled_size min_size max_size (lit 7 10)).
  fold (scaled_size min_size max_size (lit 4 10)).
  destruct (Z.ltb_spec (PyStr.len text1) 50);
    destruct (Z.ltb_spec (PyStr.len text2) 50);
    destruct (Z.ltb_spec (PyStr.len text1) 150);
    destruct (Z.ltb_spec (PyStr.len text2) 150);
    destruct (Z.ltb_spec (PyStr.len text1) 300);
    destruct (Z.ltb_spec (PyStr.len text2) 300); lia.
Qed.

(** A region with the font range (12, 16), a text of 50 characters and
    one of 360. *)
Lemma calculate_font_size_monotone_witness :
  calculate_font_size Samples.long_bullet Samples.region_50
  <= calculate_font_size Samples.text_50 Samples.region_50.
Proof.
  apply (calculate_font_size_monotone Samples.text_50 Samples.long_bullet
           Samples.region_50 12 16);
    [reflexivity | lia | lia | vm_compute; discriminate].
Defined.

End FontSizeOrder.

(** ** Text truncation: a second pass, and budgets below three *)

Section TextBudget.

Import PyFloat LayoutSystem Props.

(** With a budget of at least 3 the text returned fits the budget,
    truncated or not. *)
Lemma validate_text_length_bound (text : string) (region : LayoutRegion) (limit : Z) :
  max_text_length region = Some limit ->
  3 <= limit ->
  PyStr.len (fst (validate_text_length text region)) <= limit.
Proof.
  intros Hmax H3.
  destruct (Z.le_gt_cases (PyStr.len text) limit) as [Hle | Hgt].
  - unfold validate_text_length. rewrite Hmax.
    destruct (Z.leb_spec (PyStr.len text) limit); [exact Hle | lia].
  - rewrite (validate_text_length_cases text region limit Hmax ltac:(lia)).
    cbv zeta.
    set (truncated := PyStr.slice_to text (limit - 3)).
    pose proof (len_slice_to text (limit - 3)) as [_ Ht].
    fold truncated in Ht. specialize (Ht ltac:(lia)).
    pose proof (rfind_range truncated " "%char) as Hs.
    destruct (past _ limit (lit 7 10)); [ | destruct (past _ limit (lit 8 10))];
      cbn [fst].
    + pose proof (len_slice_to truncated (PyStr.rfind truncated "." + 1))
        as [L _]. lia.
    + rewrite len_app. change (PyStr.len "...") with 3.
      pose proof (len_slice_to truncated (PyStr.rfind truncated " "))
        as [L1 L2].
      destruct (Z.leb_spec 0 (PyStr.rfind truncated " "));
        [specialize (L2 ltac:(lia)) | ]; lia.
    + rewrite len_app. change (PyStr.len "...") with 3. lia.
Qed.

(** X4. A text the function has returned goes through it again unchanged,
    and is reported as not truncated, whenever the budget of the region
    is at least 3 or the region has none. *)
Theorem validate_text_length_idempotent (text : string) (region : LayoutRegion) :
  (forall limit, max_text_length region = Some limit -> 3 <= limit) ->
  validate_text_length (fst (validate_text_length text region)) region
  = (fst (validate_text_length text region), false).
Proof.
  intros H3.
  destruct (max_text_length region) as [limit | ] eqn:Hmax.
  - pose proof (validate_text_length_bound text region limit Hmax
                  (H3 limit eq_refl)) as Hb.
    set (once := fst (validate_text_length text region)) in *.
    unfold validate_text_length at 1. rewrite Hmax.
    destruct (Z.leb_spec (PyStr.len once) limit); [reflexivity | lia].
  - unfold validate_text_length. rewrite Hmax. reflexivity.
Qed.

Lemma validate_text_length_idempotent_witness :
  validate_text_length
    (fst (validate_text_length Samples.long_bullet Samples.region_50))
    Samples.region_50
  = (fst (validate_text_length Samples.long_bullet Samples.region_50), false).
Proof.
  apply (validate_text_length_idempotent Samples.long_bullet Samples.region_50).
  intros limit H. injection H as <-. lia.
Defined.

Lemma rfind_absent_cons (a c : ascii) (s : string) :
  PyStr.rfind (String a s) c = -1 ->
  Ascii.eqb a c = false /\ PyStr.rfind s c = -1.
Proof.
  pose proof (rfind_range s c) as R.
  cbn [PyStr.rfind]. cbv zeta.
  destruct (Z.leb_spec 0 (PyStr.rfind s c)); [lia | ].
  destruct (Ascii.eqb a c); [discriminate | ].
  intros _. split; [reflexivity | lia].
Qed.

(** A character absent from a string is absent from its prefixes. *)
Lemma rfind_take_absent (n : nat) (s : string) (c : ascii) :
  PyStr.rfind s c = -1 -> PyStr.rfind (PyStr.take n s) c = -1.
Proof.
  revert s. induction n as [ | n IH]; intros s H.
  - reflexivity.
  - destruct s as [ | a s]; [reflexivity | ].
    apply rfind_absent_cons in H. destruct H as [Ha Hs].
    cbn [PyStr.take PyStr.rfind]. cbv zeta.
    rewrite (IH s Hs), Ha. reflexivity.
Qed.

Lemma rfind_slice_absent (s : string) (n : Z) (c : ascii) :
  PyStr.rfind s c = -1 -> PyStr.rfind (PyStr.slice_to s n) c = -1.
Proof.
  intros H. unfold PyStr.slice_to.
  destruct (0 <=? n); apply rfind_take_absent; exact H.
Qed.

Lemma past_absent (limit : Z) (c : float) :
  0 <= limit < 2 ^ 53 -> (0 <= c)%Q -> past (-1) limit c = false.
Proof.
  intros Hl Hc. unfold past, gtb.
  apply negb_false_iff, Qle_bool_iff.
  apply Qle_trans with 0%Q; [discriminate | ].
  unfold mul. apply round53_nonneg.
  rewrite (of_int_exact limit Hl).
  apply Qmult_le_0_compat; [apply inject_Z_nonneg; lia | exact Hc].
Qed.

Lemma lit_8_10_nonneg : (0 <= lit 8 10)%Q.
Proof. apply Qle_bool_iff. vm_compute. reflexivity. Qed.

(** X5. With a budget below 3 the slice [text[:limit - 3]] counts from the
    end of the text: a text of three characters or more, with no full
    stop and no space to cut at, loses [3 - limit] characters and gains
    the ellipsis, and comes out [limit] characters longer than it went
    in, past the budget. *)
Theorem validate_text_length_small_budget
    (text : string) (region : LayoutRegion) (limit : Z) :
  max_text_length region = Some limit ->
  0 <= limit < 3 ->
  3 <= PyStr.len text ->
  PyStr.rfind text "."%char = -1 ->
  PyStr.rfind text " "%char = -1 ->
  validate_text_length text region
  = ((PyStr.slice_to text (limit - 3) ++ "...")%string, true)
  /\ PyStr.len (fst (validate_text_length text region))
     = PyStr.len text + limit
  /\ limit < PyStr.len (fst (validate_text_length text region)).
Proof.
  intros Hmax Hl Hlen Hp Hs.
  assert (E : validate_text_length text region
              = ((PyStr.slice_to text (limit - 3) ++ "...")%string, true)).
  { rewrite (validate_text_length_cases text region limit Hmax ltac:(lia)).
    cbv zeta.
    rewrite (rfind_slice_absent text (limit - 3) _ Hp).
    rewrite (rfind_slice_absent text (limit - 3) _ Hs).
    rewrite (past_absent limit (lit 7 10) ltac:(lia) (proj1 lit_7_10_unit)).
    rewrite (past_absent limit (lit 8 10) ltac:(lia) lit_8_10_nonneg).
    reflexivity. }
  rewrite E. cbn [fst].
  assert (L : PyStr.len (PyStr.slice_to text (limit - 3) ++ "...")%string
              = PyStr.len text + limit).
  { rewrite len_app. change (PyStr.len "...") with 3.
    unfold PyStr.slice_to.
    destruct (Z.leb_spec 0 (limit - 3)); [lia | ].
    rewrite len_take. lia. }
  split; [reflexivity | ]. split; [exact L | lia].
Qed.

(** A budget of 2 and the text [abcdef]: the result [abcde...] has 8
    characters. *)
Lemma validate_text_length_small_budget_witness :
  validate_text_length "abcdef" Samples.region_2
  = ((PyStr.slice_to "abcdef" (2 - 3) ++ "...")%string, true)
  /\ PyStr.len (fst (validate_text_length "abcdef" Samples.region_2))
     = PyStr.len "abcdef" + 2
  /\ 2 < PyStr.len (fst (validate_text_length "abcdef" Samples.region_2)).
Proof.
  apply (validate_text_length_small_budget "abcdef" Samples.region_2 2);
    [reflexivity | lia | vm_compute; discriminate | reflexivity | reflexivity].
Defined.

End TextBudget.

(** ** Bullet prioritisation: a second pass, and negative caps *)

Section BulletCaps.

Import LayoutSystem Props.

Lemma sorted_length (points : list string) :
  List.length (sort_by_score (scored points)) = List.length points.
Proof.
  rewrite (Permutation_length (sort_by_score_perm (scored points))).
  unfold scored. apply length_map.
Qed.

(** Under a cap that is not negative the result never has more bullets
    than the cap. *)
Lemma optimize_bullet_points_length (points : list string) (max_points : Z) :
  0 <= max_points ->
  Z.of_nat (List.length (optimize_bullet_points points max_points))
  <= max_points.
Proof.
  intros H0.
  destruct (Z.le_gt_cases (Z.of_nat (List.length points)) max_points) as [L | G].
  - unfold optimize_bullet_points.
    destruct (Z.leb_spec (Z.of_nat (List.length points)) max_points);
      [exact L | lia].
  - rewrite (optimize_bullet_points_cut points max_points ltac:(lia)).
    rewrite length_map, length_firstn. lia.
Qed.

(** X6. The bullets [optimize_bullet_points] has chosen go through it again
    unchanged, under the same cap, when the cap is not negative. *)
Theorem optimize_bullet_points_idempotent (points : list string) (max_points : Z) :
  0 <= max_points ->
  optimize_bullet_points (optimize_bullet_points points max_points) max_points
  = optimize_bullet_points points max_points.
Proof.
  intros H0.
  pose proof (optimize_bullet_points_length points max_points H0) as L.
  set (kept := optimize_bullet_points points max_points) in *.
  unfold optimize_bullet_points at 1.
  destruct (Z.leb_spec (Z.of_nat (List.length kept)) max_points);
    [reflexivity | lia].
Qed.

Lemma optimize_bullet_points_idempotent_witness :
  optimize_bullet_points (optimize_bullet_points Samples.seven_bullets 4) 4
  = optimize_bullet_points Samples.seven_bullets 4.
Proof.
  apply (optimize_bullet_points_idempotent Samples.seven_bullets 4). lia.
Defined.

(** X7. A negative cap counts from the end of the sorted list, as the slice
    [[:max_points]] does: [-k] drops the [k] bullets of lowest score,
    which is what the cap [len(points) - k] does, and drops every bullet
    when there are no more than [k]. *)
Theorem optimize_bullet_points_negative_cap (points : list string) (k : Z) :
  0 < k ->
  (k <= Z.of_nat (List.length points) ->
   optimize_bullet_points points (- k)
   = optimize_bullet_points points (Z.of_nat (List.length points) - k))
  /\ (Z.of_nat (List.length points) <= k ->
      optimize_bullet_points points (- k) = [])
  /\ Z.of_nat (List.length (optimize_bullet_points points (- k)))
     = Z.max 0 (Z.of_nat (List.length points) - k).
Proof.
  intros Hk.
  set (n := Z.of_nat (List.length points)).
  assert (E : optimize_bullet_points points (- k)
              = map fst (firstn (Z.to_nat (n - k))
                                (sort_by_score (scored points)))).
  { unfold optimize_bullet_points.
    destruct (Z.leb_spec (Z.of_nat (List.length points)) (- k)); [lia | ].
    unfold list_slice_to.
    destruct (Z.leb_spec 0 (- k)); [lia | ].
    rewrite sorted_length. fold (scored points). fold n.
    replace (n + - k) with (n - k) by lia. reflexivity. }
  repeat apply conj.
  - intros Hle.
    rewrite E, (optimize_bullet_points_cut points (n - k)) by (unfold n; lia).
    reflexivity.
  - intros Hge. rewrite E.
    replace (Z.to_nat (n - k)) with 0%nat by lia. reflexivity.
  - rewrite E, length_map, length_firstn, sorted_length. unfold n. lia.
Qed.

(** Seven bullets and a cap of -3: the four bullets the cap 4 keeps. *)
Lemma optimize_bullet_points_negative_cap_witness :
  (3 <= Z.of_nat (List.length Samples.seven_bullets) ->
   optimize_bullet_points Samples.seven_bullets (- (3))
   = optimize_bullet_points Samples.seven_bullets
       (Z.of_nat (List.length Samples.seven_bullets) - 3))
  /\ (Z.of_nat (List.length Samples.seven_bullets) <= 3 ->
      optimize_bullet_points Samples.seven_bullets (- (3)) = [])
  /\ Z.of_nat (List.length (optimize_bullet_points Samples.seven_bullets (- (3))))
     = Z.max 0 (Z.of_nat (List.length Samples.seven_bullets) - 3).
Proof.
  apply (optimize_bullet_points_negative_cap Samples.seven_bullets 3). lia.
Defined.

End BulletCaps.

(** ** The catalog of layouts *)

Section Catalog.

Import PyFloat LayoutSystem Props.

(** The regions looked up for a layout type, by name, text budget and
    font range. *)
Lemma catalog_shape (t : LayoutType) :
  map (fun r => (name r, max_text_length r, font_size_range r))
      (default title_content_regions (layouts !! t))
  = match t with
    | TITLE_SLIDE =>
        [("title", None, (36, 48)); ("subtitle", None, (18, 24))]
    | TITLE_CONTENT | CONTENT_ONLY | FULL_IMAGE =>
        [("title", None, (24, 32)); ("content", Some 500, (14, 18))]
    | TWO_COLUMN =>
        [("title", None, (24, 32)); ("left_content", Some 250, (12, 16));
         ("right_content", Some 250, (12, 16))]
    | IMAGE_TEXT =>
        [("title", None, (24, 32)); ("image", None, (12, 24));
         ("text_content", Some 300, (12, 16))]
    | DIAGRAM_FOCUS =>
        [("title", None, (20, 28)); ("diagram", None, (12, 24));
         ("caption", Some 100, (10, 14))]
    end.
Proof. rewrite layouts_lookup. destruct t; reflexivity. Qed.

Lemma catalog_geometry_checked (t : LayoutType) :
  forallb within_margins (default title_content_regions (layouts !! t)) = true
  /\ pairwise_apart (default title_content_regions (layouts !! t)) = true.
Proof.
  rewrite layouts_lookup. destruct t; split; vm_compute; reflexivity.
Qed.

(** X8. Whatever layout type is asked for, in the catalog or not, the
    regions [get_layout] returns lie between the four margins of the
    slide, with sizes that are not negative, and no two of them share
    any area. *)
Theorem get_layout_regions_apart_within_margins (t : LayoutType) :
  exists regions,
    get_layout t = Py.Ok regions
    /\ (forall region, In region regions -> within_margins region = true)
    /\ pairwise_apart regions = true.
Proof.
  exists (default title_content_regions (layouts !! t)).
  destruct (catalog_geometry_checked t) as [Hin Hapart].
  split; [apply get_layout_default | ].
  split; [ | exact Hapart].
  apply forallb_forall. exact Hin.
Qed.

End Catalog.

(** ** The text of a slide ([add_slide], [_populate_slide_content]) *)

Section SlideText.

Import PyFloat LayoutSystem BaseEngine PptxEngine Props.

Variable bullet : ascii.

Lemma region_boxes_title (slide_data : SlideData) (region : LayoutRegion) :
  name region = "title" ->
  region_boxes bullet slide_data region
  = [_add_title_region (title slide_data) region].
Proof. intros H. unfold region_boxes. rewrite H. reflexivity. Qed.

Lemma region_boxes_content (slide_data : SlideData) (region : LayoutRegion) :
  name region = "content" ->
  region_boxes bullet slide_data region
  = if nonempty (points slide_data)
    then [_add_content_region bullet
            (optimize_bullet_points (points slide_data) 4) region]
    else [].
Proof. intros H. unfold region_boxes. rewrite H. reflexivity. Qed.

Lemma region_boxes_text_content (slide_data : SlideData) (region : LayoutRegion) :
  name region = "text_content" ->
  region_boxes bullet slide_data region
  = if nonempty (points slide_data)
    then [_add_content_region bullet
            (optimize_bullet_points (points slide_data) 3) region]
    else [].
Proof. intros H. unfold region_boxes. rewrite H. reflexivity. Qed.

Lemma region_boxes_left (slide_data : SlideData) (region : LayoutRegion) :
  name region = "left_content" ->
  region_boxes bullet slide_data region
  = let content :=
      firstn (Nat.div (List.length (points slide_data)) 2) (points slide_data) in
    if nonempty content then [_add_content_region bullet content region] else [].
Proof.
  intros H. unfold region_boxes. rewrite H. cbv zeta.
  change (String.eqb "left_content" "title") with false.
  change (String.eqb "left_content" "content") with false.
  change (existsb (String.eqb "left_content") ["left_content"; "right_content"])
    with true.
  change (String.eqb "left_content" "left_content") with true.
  cbv iota.
  destruct (points slide_data) as [ | p l]; [reflexivity | ].
  reflexivity.
Qed.

Lemma region_boxes_right (slide_data : SlideData) (region : LayoutRegion) :
  name region = "right_content" ->
  region_boxes bullet slide_data region
  = let content :=
      skipn (Nat.div (List.length (points slide_data)) 2) (points slide_data) in
    if nonempty content then [_add_content_region bullet content region] else [].
Proof.
  intros H. unfold region_boxes. rewrite H. cbv zeta.
  change (String.eqb "right_content" "title") with false.
  change (String.eqb "right_content" "content") with false.
  change (existsb (String.eqb "right_content") ["left_content"; "right_content"])
    with true.
  change (String.eqb "right_content" "left_content") with false.
  cbv iota.
  destruct (points slide_data) as [ | p l]; [reflexivity | ].
  reflexivity.
Qed.

Lemma region_boxes_other (slide_data : SlideData) (region : LayoutRegion) :
  In (name region) ["subtitle"; "image"; "diagram"; "caption"] ->
  region_boxes bullet slide_data region = [].
Proof.
  intros H. unfold region_boxes.
  destruct H as [<- | [<- | [<- | [<- | []]]]]; reflexivity.
Qed.

(** The regions of the text boxes of a slide, layout by layout. *)
Lemma add_slide_text_cases (slide_data : SlideData) :
  exists title_region rest,
    add_slide_text bullet slide_data
    = Py.Ok (_add_title_region (title slide_data) title_region :: rest)
    /\ name title_region = "title"
    /\ match layout_of_slide slide_data with
       | TITLE_SLIDE | DIAGRAM_FOCUS => rest = []
       | TITLE_CONTENT | CONTENT_ONLY | FULL_IMAGE =>
           exists region,
             name region = "content"
             /\ max_text_length region = Some 500
             /\ font_size_range region = (14, 18)
             /\ rest = region_boxes bullet slide_data region
       | IMAGE_TEXT =>
           exists region,
             name region = "text_content"
             /\ max_text_length region = Some 300
             /\ font_size_range region = (12, 16)
             /\ rest = region_boxes bullet slide_data region
       | TWO_COLUMN =>
           exists left_region right_region,
             name left_region = "left_content"
             /\ name right_region = "right_content"
             /\ max_text_length left_region = Some 250
             /\ max_text_length right_region = Some 250
             /\ font_size_range left_region = (12, 16)
             /\ font_size_range right_region = (12, 16)
             /\ rest = (region_boxes bullet slide_data left_region
                        ++ region_boxes bullet slide_data right_region)%list
       end.
Proof.
  unfold add_slide_text. cbv zeta.
  rewrite get_layout_default. cbn [Py.bind].
  pose proof (catalog_shape (layout_of_slide slide_data)) as S.
  destruct (default title_content_regions (layouts !! layout_of_slide slide_data))
    as [ | r0 [ | r1 [ | r2 [ | r3 more]]]];
    destruct (layout_of_slide slide_data);
    cbn [map] in S; try discriminate S;
    injection S as N0 B0 F0 N1 B1 F1 N2 B2 F2 || injection S as N0 B0 F0 N1 B1 F1;
    exists r0; eexists;
    unfold _populate_slide_content; cbn [flat_map];
    rewrite (region_boxes_title slide_data r0 N0);
    (split; [reflexivity | split; [exact N0 | ]]).
  - rewrite (region_boxes_other slide_data r1) by (rewrite N1; simpl; tauto).
    reflexivity.
  - exists r1. rewrite app_nil_r. repeat split; assumption.
  - exists r1. rewrite app_nil_r. repeat split; assumption.
  - exists r1. rewrite app_nil_r. repeat split; assumption.
  - exists r1, r2. rewrite app_nil_r. repeat split; assumption.
  - exists r2.
    rewrite (region_boxes_other slide_data r1) by (rewrite N1; simpl; tauto).
    rewrite app_nil_r. repeat split; assumption.
  - rewrite (region_boxes_other slide_data r1) by (rewrite N1; simpl; tauto).
    rewrite (region_boxes_other slide_data r2) by (rewrite N2; simpl; tauto).
    reflexivity.
Qed.

Lemma optimize_bullet_points_count (points : list string) (max_points : Z) :
  0 <= max_points ->
  List.length (optimize_bullet_points points max_points)
  = Nat.min (List.length points) (Z.to_nat max_points).
Proof.
  intros H0.
  destruct (Z.le_gt_cases (Z.of_nat (List.length points)) max_points) as [L | G].
  - unfold optimize_bullet_points.
    destruct (Z.leb_spec (Z.of_nat (List.length points)) max_points); lia.
  - rewrite (optimize_bullet_points_cut points max_points ltac:(lia)).
    rewrite length_map, length_firstn, sorted_length. lia.
Qed.

Lemma firstn_in {A : Type} (n : nat) (l : list A) (a : A) :
  In a (firstn n l) -> In a l.
Proof.
  intros H. rewrite <- (firstn_skipn n l). apply in_or_app. left. exact H.
Qed.

Lemma skipn_in {A : Type} (n : nat) (l : list A) (a : A) :
  In a (skipn n l) -> In a l.
Proof.
  intros H. rewrite <- (firstn_skipn n l). apply in_or_app. right. exact H.
Qed.

(** Every bullet returned is one of the bullets given. *)
Lemma optimize_bullet_points_incl (points : list string) (max_points : Z) :
  incl (optimize_bullet_points points max_points) points.
Proof.
  intros p Hp. unfold optimize_bullet_points in Hp.
  destruct (Z.of_nat (List.length points) <=? max_points); [exact Hp | ].
  apply in_map_iff in Hp. destruct Hp as (q & <- & Hq).
  assert (Hs : In q (sort_by_score (scored points))).
  { unfold list_slice_to in Hq. fold (scored points) in Hq.
    destruct (0 <=? max_points); exact (firstn_in _ _ _ Hq). }
  apply (Permutation_in _ (sort_by_score_perm (scored points))) in Hs.
  unfold scored in Hs. apply in_map_iff in Hs.
  destruct Hs as (x & <- & Hx). exact Hx.
Qed.


Lemma calculate_font_size_range
    (text : string) (region : LayoutRegion) (min_size max_size : Z) :
  font_size_range region = (min_size, max_size) ->
  0 <= min_size <= max_size -> max_size < 2 ^ 53 ->
  min_size <= calculate_font_size text region <= max_size.
Proof.
  intros Hrange Hord Hmax.
  pose proof (scaled_size_bounds min_size max_size _ Hord Hmax
                (proj1 lit_7_10_unit) (proj2 lit_7_10_unit)) as B7.
  pose proof (scaled_size_bounds min_size max_size _ Hord Hmax
                (proj1 lit_4_10_unit) (proj2 lit_4_10_unit)) as B4.
  unfold calculate_font_size. rewrite Hrange.
  fold (scaled_size min_size max_size (lit 7 10)).
  fold (scaled_size min_size max_size (lit 4 10)).
  destruct (PyStr.len text <? 50); [lia | ].
  destruct (PyStr.len text <? 150); [lia | ].
  destruct (PyStr.len text <? 300); lia.
Qed.

(** Outside the title, the boxes of a region hold bullets of the slide,
    cut to the budget of the region. *)
Lemma region_boxes_spec (slide_data : SlideData) (region : LayoutRegion)
    (box : TextBox) :
  name region <> "title" ->
  In box (region_boxes bullet slide_data region) ->
  exists content,
    box = _add_content_region bullet content region
    /\ incl content (points slide_data).
Proof.
  intros Hname Hin. unfold region_boxes in Hin.
  rewrite (string_eqb_false _ _ Hname) in Hin.
  destruct (String.eqb (name region) "content").
  { destruct (nonempty (points slide_data)); [ | destruct Hin].
    destruct Hin as [<- | []]. eexists. split; [reflexivity | ].
    apply optimize_bullet_points_incl. }
  destruct (existsb _ _).
  { destruct (nonempty (points slide_data)); [ | destruct Hin].
    cbv zeta in Hin.
    destruct (String.eqb (name region) "left_content").
    - destruct (nonempty (firstn _ _)); [ | destruct Hin].
      destruct Hin as [<- | []]. eexists. split; [reflexivity | ].
      intros a Ha. exact (firstn_in _ _ _ Ha).
    - destruct (nonempty (skipn _ _)); [ | destruct Hin].
      destruct Hin as [<- | []]. eexists. split; [reflexivity | ].
      intros a Ha. exact (skipn_in _ _ _ Ha). }
  destruct (String.eqb (name region) "text_content"); [ | destruct Hin].
  destruct (nonempty (points slide_data)); [ | destruct Hin].
  destruct Hin as [<- | []]. eexists. split; [reflexivity | ].
  apply optimize_bullet_points_incl.
Qed.

Lemma region_boxes_region (slide_data : SlideData) (region : LayoutRegion)
    (box : TextBox) :
  In box (region_boxes bullet slide_data region) -> box_region box = region.
Proof.
  intros Hin.
  destruct (string_dec (name region) "title") as [E | N].
  - rewrite (region_boxes_title slide_data region E) in Hin.
    destruct Hin as [<- | []]. reflexivity.
  - destruct (region_boxes_spec slide_data region box N Hin) as (c & -> & _).
    reflexivity.
Qed.

Lemma bullet_boxes_app (a b : list TextBox) :
  bullet_boxes (a ++ b) = (bullet_boxes a ++ bullet_boxes b)%list.
Proof. unfold bullet_boxes. apply List.filter_app. Qed.

Lemma bullet_boxes_region (slide_data : SlideData) (region : LayoutRegion) :
  name region <> "title" ->
  bullet_boxes (region_boxes bullet slide_data region)
  = region_boxes bullet slide_data region.
Proof.
  intros Hname. unfold bullet_boxes.
  apply forallb_filter_id. apply forallb_forall. intros box Hin.
  rewrite (region_boxes_region slide_data region box Hin).
  rewrite (string_eqb_false _ _ Hname). reflexivity.
Qed.

Lemma bullet_boxes_title (title : string) (region : LayoutRegion)
    (rest : list TextBox) :
  name region = "title" ->
  bullet_boxes (_add_title_region title region :: rest) = bullet_boxes rest.
Proof.
  intros H. unfold bullet_boxes. cbn [List.filter _add_title_region box_region].
  rewrite H. reflexivity.
Qed.

Lemma content_box_paragraphs (content : list string) (region : LayoutRegion) :
  box_paragraphs (_add_content_region bullet content region)
  = cut_lines bullet content region.
Proof.
  unfold _add_content_region, cut_lines. cbn [box_paragraphs].
  rewrite map_map. reflexivity.
Qed.

Lemma guarded_box_paragraphs (content : list string) (region : LayoutRegion) :
  flat_map box_paragraphs
    (if nonempty content
     then [_add_content_region bullet content region] else [])
  = cut_lines bullet content region.
Proof.
  destruct content as [ | p l]; [reflexivity | ].
  cbn [nonempty flat_map]. rewrite app_nil_r. apply content_box_paragraphs.
Qed.

Lemma optimized_box_paragraphs (points : list string) (cap : Z)
    (region : LayoutRegion) :
  0 <= cap ->
  flat_map box_paragraphs
    (if nonempty points
     then [_add_content_region bullet (optimize_bullet_points points cap) region]
     else [])
  = cut_lines bullet (optimize_bullet_points points cap) region.
Proof.
  intros Hcap. destruct points as [ | p l].
  - unfold optimize_bullet_points. cbn [List.length nonempty flat_map].
    destruct (Z.leb_spec (Z.of_nat 0) cap); [reflexivity | lia].
  - cbn [nonempty flat_map]. rewrite app_nil_r. apply content_box_paragraphs.
Qed.

Lemma cut_lines_length (content : list string) (region : LayoutRegion) :
  List.length (cut_lines bullet content region) = List.length content.
Proof. unfold cut_lines. apply length_map. Qed.



Lemma bullet_line_length (item : string) :
  PyStr.len (bullet_line bullet item) = PyStr.len item + 2.
Proof. unfold bullet_line, PyStr.len. cbn [String.length]. lia. Qed.

End SlideText.

(** X9. The number of bullet paragraphs [add_slide] draws, by the layout
    chosen for the slide: none on a title slide or a slide with a
    diagram, whose layouts have no region for bullets; at most four on a
    plain content slide and at most three beside a picture; every one
    of them on a two-column slide. *)
Theorem add_slide_text_bullet_count
    (bullet : ascii) (slide_data : BaseEngine.SlideData) :
  exists boxes,
    PptxEngine.add_slide_text bullet slide_data = Py.Ok boxes
    /\ List.length (Props.bullet_paragraphs boxes)
       = let n := List.length (BaseEngine.points slide_data) in
         match PptxEngine.layout_of_slide slide_data with
         | LayoutSystem.TITLE_SLIDE | LayoutSystem.DIAGRAM_FOCUS => 0%nat
         | LayoutSystem.IMAGE_TEXT => Nat.min n 3
         | LayoutSystem.TWO_COLUMN => n
         | LayoutSystem.TITLE_CONTENT | LayoutSystem.CONTENT_ONLY
         | LayoutSystem.FULL_IMAGE => Nat.min n 4
         end.
Proof.
  destruct (add_slide_text_cases bullet slide_data)
    as (title_region & rest & E & Htitle & Hrest).
  eexists. split; [exact E | ].
  unfold Props.bullet_paragraphs.
  rewrite (bullet_boxes_title _ _ _ Htitle). cbv zeta.
  destruct (PptxEngine.layout_of_slide slide_data).
  - subst rest. reflexivity.
  - destruct Hrest as (region & N & _ & _ & ->).
    rewrite bullet_boxes_region by (rewrite N; discriminate).
    rewrite (region_boxes_content bullet slide_data region N).
    rewrite optimized_box_paragraphs by lia.
    rewrite cut_lines_length. apply optimize_bullet_points_count. lia.
  - destruct Hrest as (rl & rr & Nl & Nr & _ & _ & _ & _ & ->).
    rewrite bullet_boxes_app.
    rewrite !bullet_boxes_region by (rewrite ?Nl, ?Nr; discriminate).
    rewrite flat_map_app.
    rewrite (region_boxes_left bullet slide_data rl Nl).
    rewrite (region_boxes_right bullet slide_data rr Nr). cbv zeta.
    rewrite !guarded_box_paragraphs, length_app, !cut_lines_length.
    rewrite <- length_app, firstn_skipn. reflexivity.
  - destruct Hrest as (region & N & _ & _ & ->).
    rewrite bullet_boxes_region by (rewrite N; discriminate).
    rewrite (region_boxes_text_content bullet slide_data region N).
    rewrite optimized_box_paragraphs by lia.
    rewrite cut_lines_length. apply optimize_bullet_points_count. lia.
  - destruct Hrest as (region & N & _ & _ & ->).
    rewrite bullet_boxes_region by (rewrite N; discriminate).
    rewrite (region_boxes_content bullet slide_data region N).
    rewrite optimized_box_paragraphs by lia.
    rewrite cut_lines_length. apply optimize_bullet_points_count. lia.
  - subst rest. reflexivity.
  - destruct Hrest as (region & N & _ & _ & ->).
    rewrite bullet_boxes_region by (rewrite N; discriminate).
    rewrite (region_boxes_content bullet slide_data region N).
    rewrite optimized_box_paragraphs by lia.
    rewrite cut_lines_length. apply optimize_bullet_points_count. lia.
Qed.



(** X11. Every box of bullets [add_slide] draws lies over a region with a
    text budget; each of its paragraphs is a bullet of the record cut to
    that budget, so at most two characters longer than it with the glyph
    and the space in front; and the font size of the box lies in the
    font range of the region. *)
Theorem drawn_bullets_fit_budget
    (bullet : ascii) (slide_data : BaseEngine.SlideData)
    (boxes : list PptxEngine.TextBox) (box : PptxEngine.TextBox) :
  PptxEngine.add_slide_text bullet slide_data = Py.Ok boxes ->
  In box (Props.bullet_boxes boxes) ->
  exists limit min_size max_size,
    LayoutSystem.max_text_length (PptxEngine.box_region box) = Some limit
    /\ LayoutSystem.font_size_range (PptxEngine.box_region box)
       = (min_size, max_size)
    /\ min_size <= PptxEngine.box_font_size box <= max_size
    /\ forall paragraph,
         In paragraph (PptxEngine.box_paragraphs box) ->
         PyStr.len paragraph <= limit + 2
         /\ exists point,
              In point (BaseEngine.points slide_data)
              /\ paragraph
                 = PptxEngine.bullet_line bullet
                     (fst (LayoutSystem.validate_text_length
                             point (PptxEngine.box_region box))).
Proof.
  intros Hboxes Hbox.
  destruct (add_slide_text_cases bullet slide_data)
    as (title_region & rest & E & Htitle & Hrest).
  rewrite E in Hboxes. injection Hboxes as <-.
  rewrite (bullet_boxes_title _ _ _ Htitle) in Hbox.
  assert (Hin : In box rest).
  { unfold Props.bullet_boxes in Hbox. apply filter_In in Hbox. tauto. }
  clear Hbox E.
  assert (Hregion :
    exists region limit min_size max_size,
      In box (PptxEngine.region_boxes bullet slide_data region)
      /\ LayoutSystem.name region <> "title"
      /\ LayoutSystem.max_text_length region = Some limit
      /\ 3 <= limit
      /\ LayoutSystem.font_size_range region = (min_size, max_size)
      /\ 0 <= min_size <= max_size /\ max_size < 2 ^ 53).
  { destruct (PptxEngine.layout_of_slide slide_data).
    - subst rest. destruct Hin.
    - destruct Hrest as (region & N & B & F & ->).
      exists region, 500, 14, 18.
      repeat split; try assumption; try lia. rewrite N. discriminate.
    - destruct Hrest as (rl & rr & Nl & Nr & Bl & Br & Fl & Fr & ->).
      apply in_app_or in Hin. destruct Hin as [Hin | Hin].
      + exists rl, 250, 12, 16.
        repeat split; try assumption; try lia. rewrite Nl. discriminate.
      + exists rr, 250, 12, 16.
        repeat split; try assumption; try lia. rewrite Nr. discriminate.
    - destruct Hrest as (region & N & B & F & ->).
      exists region, 300, 12, 16.
      repeat split; try assumption; try lia. rewrite N. discriminate.
    - destruct Hrest as (region & N & B & F & ->).
      exists region, 500, 14, 18.
      repeat split; try assumption; try lia. rewrite N. discriminate.
    - subst rest. destruct Hin.
    - destruct Hrest as (region & N & B & F & ->).
      exists region, 500, 14, 18.
      repeat split; try assumption; try lia. rewrite N. discriminate. }
  destruct Hregion
    as (region & limit & min_size & max_size & Hb & N & B & H3 & F & Hord & Hmax).
  destruct (region_boxes_spec bullet slide_data region box N Hb)
    as (content & -> & Hincl).
  exists limit, min_size, max_size.
  cbn [PptxEngine._add_content_region PptxEngine.box_region
       PptxEngine.box_font_size PptxEngine.box_paragraphs].
  split; [exact B | ]. split; [exact F | ].
  split; [apply (calculate_font_size_range _ region _ _ F Hord Hmax) | ].
  intros paragraph Hp.
  apply in_map_iff in Hp. destruct Hp as (cut & <- & Hcut).
  apply in_map_iff in Hcut. destruct Hcut as (point & <- & Hpoint).
  split.
  - rewrite bullet_line_length.
    pose proof (validate_text_length_bound point region limit B H3). lia.
  - exists point. split; [apply Hincl; exact Hpoint | reflexivity].
Qed.

(** The content box of a metrics record with four bullets. *)
Lemma drawn_bullets_fit_budget_witness :
  exists limit min_size max_size,
    LayoutSystem.max_text_length
      (PptxEngine.box_region Samples.metrics_content_box) = Some limit
    /\ LayoutSystem.font_size_range
         (PptxEngine.box_region Samples.metrics_content_box)
       = (min_size, max_size)
    /\ min_size <= PptxEngine.box_font_size Samples.metrics_content_box
       <= max_size
    /\ forall paragraph,
         In paragraph (PptxEngine.box_paragraphs Samples.metrics_content_box) ->
         PyStr.len paragraph <= limit + 2
         /\ exists point,
              In point (BaseEngine.points Samples.metrics_record)
              /\ paragraph
                 = PptxEngine.bullet_line "*"%char
                     (fst (LayoutSystem.validate_text_length
                             point
                             (PptxEngine.box_region Samples.metrics_content_box))).
Proof.
  apply (drawn_bullets_fit_budget "*"%char Samples.metrics_record
           Samples.metrics_boxes Samples.metrics_content_box).
  - vm_compute. reflexivity.
  - vm_compute. left. reflexivity.
Defined.

(** X12. The title box of [add_slide] always comes first: it lies over the
    region named [title], is bold, and its one paragraph is the title of
    the record as it is, never cut; no other box lies over a title
    region. *)
Theorem add_slide_text_title_first
    (bullet : ascii) (slide_data : BaseEngine.SlideData) :
  exists title_box rest,
    PptxEngine.add_slide_text bullet slide_data = Py.Ok (title_box :: rest)
    /\ LayoutSystem.name (PptxEngine.box_region title_box) = "title"
    /\ PptxEngine.box_paragraphs title_box = [BaseEngine.title slide_data]
    /\ PptxEngine.box_bold title_box = true
    /\ Props.bullet_boxes rest = rest.
Proof.
  destruct (add_slide_text_cases bullet slide_data)
    as (title_region & rest & E & Htitle & Hrest).
  eexists. exists rest. split; [exact E | ].
  split; [exact Htitle | ]. split; [reflexivity | ]. split; [reflexivity | ].
  destruct (PptxEngine.layout_of_slide slide_data).
  - subst rest. reflexivity.
  - destruct Hrest as (region & N & _ & _ & ->).
    apply bullet_boxes_region. rewrite N. discriminate.
  - destruct Hrest as (rl & rr & Nl & Nr & _ & _ & _ & _ & ->).
    rewrite bullet_boxes_app.
    rewrite !bullet_boxes_region by (rewrite ?Nl, ?Nr; discriminate).
    reflexivity.
  - destruct Hrest as (region & N & _ & _ & ->).
    apply bullet_boxes_region. rewrite N. discriminate.
  - destruct Hrest as (region & N & _ & _ & ->).
    apply bullet_boxes_region. rewrite N. discriminate.
  - subst rest. reflexivity.
  - destruct Hrest as (region & N & _ & _ & ->).
    apply bullet_boxes_region. rewrite N. discriminate.
Qed.

(** ** Colour components ([_int_to_rgb]) *)

Section Colours.

Import PptxEngine.

Lemma land_255 (a : Z) : Z.land a 255 = a mod 256.
Proof. change 255 with (Z.ones 8). rewrite Z.land_ones by lia. reflexivity. Qed.

Lemma _int_to_rgb_value (color_int : Z) :
  _int_to_rgb color_int
  = ((color_int / 65536) mod 256, (color_int / 256) mod 256,
     color_int mod 256).
Proof.
  unfold _int_to_rgb. rewrite !land_255, !Z.shiftr_div_pow2 by lia.
  reflexivity.
Qed.

Lemma byte_decomposition (c : Z) :
  (c / 65536) mod 256 * 65536 + (c / 256) mod 256 * 256 + c mod 256
  = c mod 16777216.
Proof.
  pose proof (Z.div_mod c 256 ltac:(lia)).
  pose proof (Z.mod_pos_bound c 256 ltac:(lia)).
  pose proof (Z.div_mod (c / 256) 256 ltac:(lia)).
  pose proof (Z.mod_pos_bound (c / 256) 256 ltac:(lia)).
  pose proof (Z.div_mod (c / 256 / 256) 256 ltac:(lia)).
  pose proof (Z.mod_pos_bound (c / 256 / 256) 256 ltac:(lia)).
  replace (c / 65536) with (c / 256 / 256)
    by (rewrite Z.div_div by lia; reflexivity).
  apply (Z.mod_unique_pos c 16777216 (c / 256 / 256 / 256)); lia.
Qed.

Lemma byte_ranges (c : Z) :
  0 <= (c / 65536) mod 256 <= 255 /\ 0 <= (c / 256) mod 256 <= 255
  /\ 0 <= c mod 256 <= 255.
Proof.
  pose proof (Z.mod_pos_bound (c / 65536) 256 ltac:(lia)).
  pose proof (Z.mod_pos_bound (c / 256) 256 ltac:(lia)).
  pose proof (Z.mod_pos_bound c 256 ltac:(lia)).
  lia.
Qed.

End Colours.

(** X13. The three components of a colour lie between 0 and 255 for every
    integer, negative ones and ones past 24 bits included, and only the
    low 24 bits are read: the components put together again give the
    integer modulo [2^24]. *)
Theorem int_to_rgb_components (color_int : Z) :
  let '(red, green, blue) := PptxEngine._int_to_rgb color_int in
  0 <= red <= 255 /\ 0 <= green <= 255 /\ 0 <= blue <= 255
  /\ red * 65536 + green * 256 + blue = color_int mod 16777216.
Proof.
  destruct (byte_ranges color_int) as (R & G & B).
  rewrite _int_to_rgb_value.
  repeat split; try lia. apply byte_decomposition.
Qed.

(** X14. A colour packed as [0xRRGGBB] from three components between 0 and
    255 gives the three components back. *)
Theorem int_to_rgb_round_trip (red green blue : Z) :
  0 <= red <= 255 -> 0 <= green <= 255 -> 0 <= blue <= 255 ->
  PptxEngine._int_to_rgb (red * 65536 + green * 256 + blue)
  = (red, green, blue).
Proof.
  intros Hr Hg Hb. rewrite _int_to_rgb_value.
  set (c := red * 65536 + green * 256 + blue).
  assert (E3 : c mod 256 = blue).
  { symmetry. apply (Z.mod_unique_pos c 256 (red * 256 + green)); unfold c; lia. }
  assert (D2 : c / 256 = red * 256 + green).
  { symmetry.
    apply (Z.div_unique_pos c 256 (red * 256 + green) blue); unfold c; lia. }
  assert (D1 : c / 65536 = red).
  { symmetry.
    apply (Z.div_unique_pos c 65536 red (green * 256 + blue)); unfold c; lia. }
  rewrite E3, D2, D1.
  rewrite (Z.mod_small red 256) by lia.
  replace ((red * 256 + green) mod 256) with green
    by (apply (Z.mod_unique_pos _ 256 red); lia).
  reflexivity.
Qed.

Lemma int_to_rgb_round_trip_witness :
  PptxEngine._int_to_rgb (255 * 65536 + 128 * 256 + 0) = (255, 128, 0).
Proof. apply (int_to_rgb_round_trip 255 128 0); lia. Defined.

(** ** A whole presentation ([create_full_presentation]) *)

Section FullPresentationRuns.

Import BaseEngine.

Variable outcome : list Call -> Call -> Py.result bool.
Variable is_exception : string -> bool.

Ltac same_calls :=
  cbn [app fst snd]; rewrite <- ?app_assoc; cbn [app];
  rewrite ?app_nil_r; reflexivity.

(** The slides are added in order, up to the first call that fails. *)
Lemma add_slides_calls (slides_data : list SlideData) (history : list Call) :
  exists done rest,
    map slide_call slides_data = (done ++ rest)%list
    /\ fst (add_slides outcome slides_data history) = (history ++ done)%list
    /\ (forall b, snd (add_slides outcome slides_data history) = Py.Ok b ->
        rest = [])
    /\ (forall exc,
          snd (add_slides outcome slides_data history) = Py.Raise exc ->
          exists calls c, outcome calls c = Py.Raise exc).
Proof.
  revert history. induction slides_data as [ | slide_data slides IH];
    intros history.
  - exists [], []. split; [reflexivity | ].
    split; [cbn; rewrite app_nil_r; reflexivity | ].
    split; [reflexivity | intros exc H; discriminate H].
  - cbn [add_slides map]. unfold and_then, perform.
    destruct (outcome history (slide_call slide_data)) as [b | exc] eqn:E0.
    + destruct (IH (history ++ [slide_call slide_data])%list)
        as (done & rest & E & Hh & Hok & Hexc).
      exists (slide_call slide_data :: done), rest.
      split; [cbn; rewrite E; reflexivity | ].
      split; [rewrite Hh; same_calls | ].
      split; [exact Hok | exact Hexc].
    + exists [slide_call slide_data], (map slide_call slides).
      split; [reflexivity | ]. split; [reflexivity | ].
      split; [intros b H; discriminate H | ].
      intros exc' H. injection H as <-.
      exists history, (slide_call slide_data). exact E0.
Qed.

(** The [try] block: the plan (the presentation is created, the slides
    are added in order, the file is saved) and the closing call, or a
    prefix of the plan that ends in the call that raised. *)
Lemma full_presentation_body_calls (slides_data : list SlideData)
    (output_path presentation_title : string) (history : list Call) :
  let plan :=
    (create_presentation presentation_title
       :: map slide_call slides_data ++ [save_presentation output_path])%list in
  let body :=
    full_presentation_body outcome slides_data output_path
                           presentation_title history in
  exists done rest closes,
    plan = (done ++ rest)%list
    /\ fst body = (history ++ done ++ closes)%list
    /\ ((closes = [close_presentation] /\ rest = []
         /\ exists success, snd body = Py.Ok success)
        \/ (closes = [close_presentation] /\ rest = []
            /\ exists exc,
                 snd body = Py.Raise exc
                 /\ outcome (history ++ done)%list close_presentation
                    = Py.Raise exc)
        \/ (closes = []
            /\ exists exc calls c,
                 snd body = Py.Raise exc /\ outcome calls c = Py.Raise exc)).
Proof.
  cbv zeta.
  destruct (full_presentation_body outcome slides_data output_path
              presentation_title history) as [h' r] eqn:Ebody.
  cbn [fst snd].
  unfold full_presentation_body in Ebody.
  unfold and_then at 1 in Ebody. unfold perform at 1 in Ebody.
  set (c0 := create_presentation presentation_title) in *.
  set (c2 := save_presentation output_path) in *.
  destruct (outcome history c0) as [b0 | e0] eqn:E0.
  2:{ injection Ebody as <- <-.
      exists [c0], (map slide_call slides_data ++ [c2])%list, [].
      split; [reflexivity | ]. split; [same_calls | ].
      right. right. split; [reflexivity | ].
      exists e0, history, c0. split; [reflexivity | exact E0]. }
  unfold and_then at 1 in Ebody.
  destruct (add_slides_calls slides_data (history ++ [c0])%list)
    as (done & rest & Eplan & Hh & Hdone & Hraise).
  destruct (add_slides outcome slides_data (history ++ [c0])%list)
    as [h1 [b1 | e1]] eqn:E1; cbn [fst snd] in Hh, Hdone, Hraise; subst h1.
  2:{ injection Ebody as <- <-.
      exists (c0 :: done), (rest ++ [c2])%list, [].
      split; [cbn [app]; rewrite Eplan; same_calls | ].
      split; [same_calls | ].
      right. right. split; [reflexivity | ].
      destruct (Hraise e1 eq_refl) as (calls & c & Hc).
      exists e1, calls, c. split; [reflexivity | exact Hc]. }
  specialize (Hdone b1 eq_refl). subst rest. rewrite app_nil_r in Eplan.
  unfold and_then at 1 in Ebody. unfold perform at 1 in Ebody.
  destruct (outcome ((history ++ [c0]) ++ done)%list c2)
    as [success | e2] eqn:E2.
  2:{ injection Ebody as <- <-.
      exists (c0 :: done ++ [c2])%list, [], [].
      split; [cbn [app]; rewrite Eplan, app_nil_r; reflexivity | ].
      split; [same_calls | ].
      right. right. split; [reflexivity | ].
      exists e2, ((history ++ [c0]) ++ done)%list, c2.
      split; [reflexivity | exact E2]. }
  unfold and_then at 1 in Ebody. unfold perform at 1 in Ebody.
  assert (Ehist : (((history ++ [c0]) ++ done) ++ [c2])%list
                  = (history ++ c0 :: done ++ [c2])%list) by same_calls.
  destruct (outcome (((history ++ [c0]) ++ done) ++ [c2])%list
                    close_presentation) as [b3 | e3] eqn:E3.
  - unfold ret in Ebody. injection Ebody as <- <-.
    exists (c0 :: done ++ [c2])%list, [], [close_presentation].
    split; [cbn [app]; rewrite Eplan, app_nil_r; reflexivity | ].
    split; [same_calls | ].
    left. split; [reflexivity | ]. split; [reflexivity | ].
    exists success. reflexivity.
  - injection Ebody as <- <-.
    exists (c0 :: done ++ [c2])%list, [], [close_presentation].
    split; [cbn [app]; rewrite Eplan, app_nil_r; reflexivity | ].
    split; [same_calls | ].
    right. left. split; [reflexivity | ]. split; [reflexivity | ].
    exists e3. split; [reflexivity | ].
    rewrite <- Ehist. exact E3.
Qed.

(** The handler: the presentation is closed, and the error raised is
    [PresentationGenerationError] unless the closing call raises its
    own. *)
Lemma close_and_raise_calls (history : list Call) :
  fst (close_and_raise outcome history)
  = (history ++ [close_presentation])%list
  /\ (forall success,
        snd (close_and_raise outcome history) <> Py.Ok success)
  /\ (forall exc,
        snd (close_and_raise outcome history) = Py.Raise exc ->
        exc = "PresentationGenerationError"
        \/ outcome history close_presentation = Py.Raise exc).
Proof.
  unfold close_and_raise, perform.
  destruct (outcome history close_presentation) as [b | e] eqn:E;
    cbn [fst snd]; (split; [reflexivity | ]);
    (split; [intros s H; discriminate H | ]);
    intros exc H; injection H as <-; [left | right]; reflexivity.
Qed.

(** The calls of a run: a prefix of the plan, and then the closing
    call, made once, twice when its first outcome is an exception that
    the handler catches, and not at all when a call of the plan raises
    what does not derive from [Exception]. *)
Lemma create_full_presentation_calls (slides_data : list SlideData)
    (output_path presentation_title : string) (history : list Call) :
  let plan :=
    (create_presentation presentation_title
       :: map slide_call slides_data ++ [save_presentation output_path])%list in
  let run :=
    create_full_presentation outcome is_exception slides_data output_path
                             presentation_title history in
  exists done rest closes,
    plan = (done ++ rest)%list
    /\ fst run = (history ++ done ++ closes)%list
    /\ (closes = [close_presentation]
        \/ (closes = [close_presentation; close_presentation]
            /\ exists exc,
                 outcome (history ++ done)%list close_presentation
                 = Py.Raise exc)
        \/ (closes = []
            /\ exists exc calls c,
                 snd run = Py.Raise exc
                 /\ is_exception exc = false
                 /\ outcome calls c = Py.Raise exc))
    /\ (forall success, snd run = Py.Ok success ->
        rest = [] /\ closes = [close_presentation])
    /\ (forall exc, snd run = Py.Raise exc ->
        exc = "PresentationGenerationError"
        \/ (exists calls, outcome calls close_presentation = Py.Raise exc)
        \/ (is_exception exc = false
            /\ exists calls c, outcome calls c = Py.Raise exc)).
Proof.
  cbv zeta.
  destruct (full_presentation_body_calls slides_data output_path
              presentation_title history)
    as (done & rest & closes & Hplan & Hf & Hcases).
  cbv zeta in Hplan, Hf, Hcases.
  unfold create_full_presentation.
  destruct (full_presentation_body outcome slides_data output_path
              presentation_title history) as [h' r].
  cbn [fst snd] in Hf, Hcases. subst h'.
  destruct Hcases as [(-> & -> & success & ->)
                     | [(-> & -> & exc & -> & Hclose)
                       | (-> & exc & calls & c & -> & Hcall)]].
  - exists done, [], [close_presentation]. cbn [fst snd].
    split; [exact Hplan | ]. split; [reflexivity | ].
    split; [left; reflexivity | ].
    split; [intros s _; split; reflexivity | ].
    intros e H. discriminate H.
  - destruct (is_exception exc) eqn:Eexc.
    + destruct (close_and_raise_calls
                  (history ++ done ++ [close_presentation])%list)
        as (Hc1 & Hc2 & Hc3).
      exists done, [], [close_presentation; close_presentation].
      split; [exact Hplan | ].
      split; [rewrite Hc1; same_calls | ].
      split; [right; left; split; [reflexivity | exists exc; exact Hclose] | ].
      split; [intros s H; destruct (Hc2 s H) | ].
      intros e H. destruct (Hc3 e H) as [-> | Hc];
        [left; reflexivity | right; left; eexists; exact Hc].
    + exists done, [], [close_presentation]. cbn [fst snd].
      split; [exact Hplan | ]. split; [reflexivity | ].
      split; [left; reflexivity | ].
      split; [intros s H; discriminate H | ].
      intros e H. injection H as <-.
      right. left. eexists. exact Hclose.
  - destruct (is_exception exc) eqn:Eexc.
    + destruct (close_and_raise_calls (history ++ done ++ [])%list)
        as (Hc1 & Hc2 & Hc3).
      exists done, rest, [close_presentation].
      split; [exact Hplan | ].
      split; [rewrite Hc1, app_nil_r; same_calls | ].
      split; [left; reflexivity | ].
      split; [intros s H; destruct (Hc2 s H) | ].
      intros e H. destruct (Hc3 e H) as [-> | Hc];
        [left; reflexivity | right; left; eexists; exact Hc].
    + exists done, rest, []. cbn [fst snd].
      split; [exact Hplan | ]. split; [reflexivity | ].
      split.
      { right. right. split; [reflexivity | ].
        exists exc, calls, c. repeat split; assumption. }
      split; [intros s H; discriminate H | ].
      intros e H. injection H as <-.
      right. right. split; [exact Eexc | ]. exists calls, c. exact Hcall.
Qed.

(** A call of a run that is not the closing call is a call of the
    plan. *)
Lemma create_full_presentation_planned (slides_data : list SlideData)
    (output_path presentation_title : string) (c : Call) :
  In c (fst (create_full_presentation outcome is_exception slides_data
               output_path presentation_title [])) ->
  c <> close_presentation ->
  c <> create_presentation presentation_title ->
  c <> save_presentation output_path ->
  In c (map slide_call slides_data).
Proof.
  intros Hin Hclose Hcreate Hsave.
  destruct (create_full_presentation_calls slides_data output_path
              presentation_title [])
    as (done & rest & closes & Hplan & Hf & Hc & _).
  cbv zeta in Hplan, Hf. rewrite Hf in Hin. cbn [app] in Hin.
  apply in_app_or in Hin. destruct Hin as [Hin | Hin].
  - assert (Hp : In c (done ++ rest)%list)
      by (apply in_or_app; left; exact Hin).
    rewrite <- Hplan in Hp. destruct Hp as [Hp | Hp].
    + destruct Hcreate. symmetry. exact Hp.
    + apply in_app_or in Hp. destruct Hp as [Hp | [Hp | []]];
        [exact Hp | destruct Hsave; symmetry; exact Hp].
  - destruct Hc as [-> | [[-> _] | [-> _]]]; cbn in Hin;
      repeat (destruct Hin as [Hin | Hin];
              [destruct Hclose; symmetry; exact Hin | ]);
      destruct Hin.
Qed.

End FullPresentationRuns.

(** X15. The last call of a run is the closing of the presentation,
    when the run succeeds and when a call has raised an exception that
    [except Exception] catches.  The one other case: a call has raised
    an exception that does not derive from [Exception], and the run
    raises that exception. *)
Theorem create_full_presentation_always_closes
    (outcome : list BaseEngine.Call -> BaseEngine.Call -> Py.result bool)
    (is_exception : string -> bool)
    (slides_data : list BaseEngine.SlideData)
    (output_path presentation_title : string)
    (history : list BaseEngine.Call) :
  (exists calls,
     fst (BaseEngine.create_full_presentation outcome is_exception
            slides_data output_path presentation_title history)
     = (history ++ calls ++ [BaseEngine.close_presentation])%list)
  \/ (exists exc calls c,
        snd (BaseEngine.create_full_presentation outcome is_exception
               slides_data output_path presentation_title history)
        = Py.Raise exc
        /\ is_exception exc = false
        /\ outcome calls c = Py.Raise exc).
Proof.
  destruct (create_full_presentation_calls outcome is_exception slides_data
              output_path presentation_title history)
    as (done & rest & closes & _ & Hf & Hc & _).
  cbv zeta in Hf, Hc. rewrite Hf.
  destruct Hc as [-> | [[-> _] | [_ Hraise]]].
  - left. exists done. reflexivity.
  - left. exists (done ++ [BaseEngine.close_presentation])%list.
    rewrite <- !app_assoc. reflexivity.
  - right. exact Hraise.
Qed.



(** X17. In a run from scratch [add_slide] is never called on a title
    record: every record it is called on is one of the list whose slide
    type is not "title_slide", so that the layout chosen for it in
    [add_slide] is never the title layout. *)
Theorem add_slide_never_gets_title_slide
    (outcome : list BaseEngine.Call -> BaseEngine.Call -> Py.result bool)
    (is_exception : string -> bool)
    (slides_data : list BaseEngine.SlideData)
    (output_path presentation_title : string)
    (slide_data : BaseEngine.SlideData) :
  In (BaseEngine.add_slide slide_data)
     (fst (BaseEngine.create_full_presentation outcome is_exception
             slides_data output_path presentation_title [])) ->
  In slide_data slides_data
  /\ BaseEngine.slide_type slide_data <> "title_slide"
  /\ PptxEngine.layout_of_slide slide_data <> LayoutSystem.TITLE_SLIDE.
Proof.
  intros Hin.
  apply create_full_presentation_planned in Hin; try discriminate.
  apply in_map_iff in Hin. destruct Hin as (sd & Hcall & Hsd).
  unfold BaseEngine.slide_call in Hcall.
  destruct (String.eqb (BaseEngine.slide_type sd) "title_slide") eqn:E;
    [discriminate Hcall | ].
  injection Hcall as ->.
  split; [exact Hsd | ].
  split; [apply String.eqb_neq; exact E | ].
  unfold PptxEngine.layout_of_slide, LayoutSystem.calculate_optimal_layout.
  rewrite E.
  destruct (PptxEngine.truthy (BaseEngine.diagram_image slide_data));
    [discriminate | ].
  destruct (_ || _); [discriminate | ].
  destruct (existsb _ _); discriminate.
Qed.

Lemma add_slide_never_gets_title_slide_witness :
  In Samples.metrics_record [Samples.title_record; Samples.metrics_record]
  /\ BaseEngine.slide_type Samples.metrics_record <> "title_slide"
  /\ PptxEngine.layout_of_slide Samples.metrics_record
     <> LayoutSystem.TITLE_SLIDE.
Proof.
  apply (add_slide_never_gets_title_slide Samples.engine_ok
           Samples.derives_from_exception
           [Samples.title_record; Samples.metrics_record] "deck.pptx" "Deck"
           Samples.metrics_record).
  vm_compute. right. right. left. reflexivity.
Defined.

(** X18. Of a title record only the title, the first bullet and the theme
    reach the engine: every call of [add_title_slide] in a run from
    scratch carries the title of a record of slide type "title_slide",
    its first bullet as the subtitle (the empty string when it has
    none), and its theme. *)
Theorem title_slide_uses_first_point
    (outcome : list BaseEngine.Call -> BaseEngine.Call -> Py.result bool)
    (is_exception : string -> bool)
    (slides_data : list BaseEngine.SlideData)
    (output_path presentation_title : string)
    (title subtitle : string) (theme : BaseEngine.DesignTheme) :
  In (BaseEngine.add_title_slide title subtitle theme)
     (fst (BaseEngine.create_full_presentation outcome is_exception
             slides_data output_path presentation_title [])) ->
  exists slide_data,
    In slide_data slides_data
    /\ BaseEngine.slide_type slide_data = "title_slide"
    /\ title = BaseEngine.title slide_data
    /\ subtitle = hd "" (BaseEngine.points slide_data)
    /\ theme = BaseEngine.theme slide_data.
Proof.
  intros Hin.
  apply create_full_presentation_planned in Hin; try discriminate.
  apply in_map_iff in Hin. destruct Hin as (sd & Hcall & Hsd).
  unfold BaseEngine.slide_call in Hcall.
  destruct (String.eqb (BaseEngine.slide_type sd) "title_slide") eqn:E;
    [ | discriminate Hcall].
  cbv zeta in Hcall. injection Hcall as <- <- <-.
  exists sd. split; [exact Hsd | ].
  split; [apply String.eqb_eq; exact E | ].
  split; [reflexivity | ]. split; [ | reflexivity].
  destruct (BaseEngine.points sd); reflexivity.
Qed.

Lemma title_slide_uses_first_point_witness :
  exists slide_data,
    In slide_data [Samples.title_record; Samples.metrics_record]
    /\ BaseEngine.slide_type slide_data = "title_slide"
    /\ "Welcome" = BaseEngine.title slide_data
    /\ "a subtitle" = hd "" (BaseEngine.points slide_data)
    /\ BaseEngine.CORPORATE_MODERN = BaseEngine.theme slide_data.
Proof.
  apply (title_slide_uses_first_point Samples.engine_ok
           Samples.derives_from_exception
           [Samples.title_record; Samples.metrics_record] "deck.pptx" "Deck"
           "Welcome" "a subtitle" BaseEngine.CORPORATE_MODERN).
  vm_compute. right. left. reflexivity.
Defined.

(** ** Whitespace, case and words *)

Section Words.

Import Props.

Lemma isspace_lower_char (c : ascii) :
  PyStr.isspace (PyStr.lower_char c) = PyStr.isspace c.
Proof.
  destruct c as [[] [] [] [] [] [] [] []]; vm_compute; reflexivity.
Qed.

Lemma lower_char_idempotent (c : ascii) :
  PyStr.lower_char (PyStr.lower_char c) = PyStr.lower_char c.
Proof.
  destruct c as [[] [] [] [] [] [] [] []]; vm_compute; reflexivity.
Qed.

Lemma lower_idempotent (s : string) :
  PyStr.lower (PyStr.lower s) = PyStr.lower s.
Proof.
  induction s as [ | c s IH]; [reflexivity | ].
  cbn [PyStr.lower]. rewrite lower_char_idempotent, IH. reflexivity.
Qed.

Lemma blank_lower (s : string) : blank (PyStr.lower s) = blank s.
Proof.
  induction s as [ | c s IH]; [reflexivity | ].
  cbn [PyStr.lower blank]. rewrite isspace_lower_char, IH. reflexivity.
Qed.

(** A string that holds a character other than whitespace is not
    blank. *)
Lemma has_char_not_blank (c : ascii) (s : string) :
  PyStr.isspace c = false -> has_char c s = true -> blank s = false.
Proof.
  intros Hc. induction s as [ | a s IH]; intros H; [discriminate H | ].
  cbn [has_char blank] in *.
  destruct (Ascii.eqb_spec c a) as [<- | _].
  - rewrite Hc. reflexivity.
  - cbn [orb] in H. rewrite (IH H). apply andb_false_r.
Qed.

(** A string that contains another holds its first character. *)
Lemma contains_has_char (c : ascii) (sub s : string) :
  PyStr.contains (String c sub) s = true -> has_char c s = true.
Proof.
  induction s as [ | a s IH]; intros H.
  - discriminate H.
  - cbn [PyStr.contains PyStr.startswith has_char] in *.
    destruct (Ascii.eqb c a); [reflexivity | ].
    cbn [andb orb] in *. apply IH. exact H.
Qed.

(** [s.split()] is empty on the blank strings and on no other. *)
Lemma split_ws_blank (s : string) :
  PyStr.split_ws s = [] <-> blank s = true.
Proof.
  induction s as [ | c s IH]; [split; reflexivity | ].
  cbn [PyStr.split_ws blank].
  destruct (PyStr.isspace c); [exact IH | ].
  cbn [andb]. split; [ | discriminate].
  destruct s as [ | c' s']; [discriminate | ].
  destruct (PyStr.isspace c'); [discriminate | ].
  destruct (PyStr.split_ws (String c' s')); discriminate.
Qed.

Lemma first_item_split_ws (s : string) :
  blank s = false -> exists w, Factory.first_item (PyStr.split_ws s) = Py.Ok w.
Proof.
  intros H. destruct (PyStr.split_ws s) as [ | w ws] eqn:E.
  - apply split_ws_blank in E. congruence.
  - exists w. reflexivity.
Qed.

Lemma first_item_split_ws_blank (s : string) :
  blank s = true ->
  Factory.first_item (PyStr.split_ws s) = Py.Raise "IndexError".
Proof.
  intros H. apply split_ws_blank in H. rewrite H. reflexivity.
Qed.

Lemma lstrip_head (s : string) :
  match PyStr.lstrip s with
  | EmptyString => True
  | String c _ => PyStr.isspace c = false
  end.
Proof.
  induction s as [ | c s IH]; [exact I | ].
  cbn [PyStr.lstrip]. destruct (PyStr.isspace c) eqn:E; [exact IH | exact E].
Qed.

Lemma rstrip_head (c : ascii) (s : string) :
  PyStr.isspace c = false ->
  exists r, PyStr.rstrip (String c s) = String c r.
Proof.
  intros H. cbn [PyStr.rstrip].
  destruct (PyStr.rstrip s) as [ | a r].
  - rewrite H. exists EmptyString. reflexivity.
  - exists (String a r). reflexivity.
Qed.

Lemma rstrip_idempotent (s : string) :
  PyStr.rstrip (PyStr.rstrip s) = PyStr.rstrip s.
Proof.
  induction s as [ | c s IH]; [reflexivity | ].
  cbn [PyStr.rstrip].
  destruct (PyStr.rstrip s) as [ | a r] eqn:E.
  - destruct (PyStr.isspace c) eqn:Ec; [reflexivity | ].
    cbn [PyStr.rstrip]. rewrite Ec. reflexivity.
  - change (PyStr.rstrip (String c (String a r)))
      with (match PyStr.rstrip (String a r) with
            | EmptyString =>
                if PyStr.isspace c then EmptyString else String c EmptyString
            | String _ _ as r' => String c r'
            end).
    rewrite IH. reflexivity.
Qed.

(** What [strip] returns is empty or starts with a character that is not
    whitespace, and [strip] leaves it as it is. *)
Lemma strip_head (s : string) :
  match PyStr.strip s with
  | EmptyString => True
  | String c _ => PyStr.isspace c = false
  end.
Proof.
  unfold PyStr.strip. pose proof (lstrip_head s) as H.
  destruct (PyStr.lstrip s) as [ | c t]; [exact I | ].
  destruct (rstrip_head c t H) as (r & ->). exact H.
Qed.

Lemma strip_idempotent (s : string) :
  PyStr.strip (PyStr.strip s) = PyStr.strip s.
Proof.
  pose proof (strip_head s) as H. unfold PyStr.strip in *.
  destruct (PyStr.rstrip (PyStr.lstrip s)) as [ | c r] eqn:E; [reflexivity | ].
  cbn [PyStr.lstrip]. rewrite H. rewrite <- E. apply rstrip_idempotent.
Qed.

Lemma strip_stored (s : string) :
  PyStr.truthy (PyStr.strip s) = true -> stored_point (PyStr.strip s).
Proof.
  intros H. split; [exact H | ]. split; [apply strip_idempotent | ].
  pose proof (strip_head s) as Hh.
  destruct (PyStr.strip s) as [ | c r]; [discriminate H | ].
  cbn [blank]. rewrite Hh. reflexivity.
Qed.

End Words.

(** ** The bullets the parser stores, and the extraction helpers *)

Section Extraction.

Import BaseEngine Factory Props.

(** Every bullet in hand is a stored one, line after line. *)
Lemma scan_line_points (st : ScanState) (raw : string) :
  List.Forall (fun d => List.Forall stored_point (key_points d)) (flush st) ->
  List.Forall (fun d => List.Forall stored_point (key_points d))
              (flush (scan_line st raw)).
Proof.
  intros Hst. unfold scan_line.
  destruct (is_slide_marker (PyStr.strip raw)).
  - unfold flush at 1. cbn [current_slide slides_data].
    apply Forall_app. split; [exact Hst | ].
    constructor; [constructor | constructor].
  - unfold flush in Hst |- *.
    destruct (current_slide st) as [cur | ] eqn:Ecur;
      [ | rewrite Ecur; exact Hst].
    apply Forall_app in Hst. destruct Hst as [Hsaved Hcur].
    inversion Hcur as [ | ? ? Hc _]; subst.
    destruct (has_tag (PyStr.strip raw) "TITLE:");
      [cbn [current_slide slides_data]; apply Forall_app; split;
       [exact Hsaved | constructor; [exact Hc | constructor]] | ].
    destruct (has_tag (PyStr.strip raw) "THEME_SUGGESTION:");
      [cbn [current_slide slides_data]; apply Forall_app; split;
       [exact Hsaved | constructor; [exact Hc | constructor]] | ].
    destruct (has_tag (PyStr.strip raw) "SLIDE_TYPE:");
      [cbn [current_slide slides_data]; apply Forall_app; split;
       [exact Hsaved | constructor; [exact Hc | constructor]] | ].
    destruct (_ || _).
    + destruct (PyStr.truthy (PyStr.strip _)) eqn:Etruthy;
        cbn [current_slide slides_data]; rewrite ?Ecur;
        apply Forall_app; (split; [exact Hsaved | ]);
        (constructor; [ | constructor]); [ | exact Hc].
      cbn [key_points]. apply Forall_app. split; [exact Hc | ].
      constructor; [ | constructor].
      apply strip_stored. exact Etruthy.
    + rewrite Ecur. apply Forall_app. split; [exact Hsaved | ].
      constructor; [exact Hc | constructor].
Qed.

Lemma fold_scan_points (lines : list string) (st : ScanState) :
  List.Forall (fun d => List.Forall stored_point (key_points d)) (flush st) ->
  List.Forall (fun d => List.Forall stored_point (key_points d))
              (flush (fold_left scan_line lines st)).
Proof.
  revert st. induction lines as [ | raw lines IH]; intros st Hst.
  - exact Hst.
  - simpl fold_left. apply IH. apply scan_line_points. exact Hst.
Qed.

Lemma to_slide_data_points (visuals : option VisualEngine) (d : SlideDict) :
  points (to_slide_data visuals d) = key_points d.
Proof.
  unfold to_slide_data.
  destruct (DesignTheme_call (key_theme d)); destruct visuals as [engine | ];
    repeat match goal with
           | |- context [if ?b then _ else _] => destruct b
           end; reflexivity.
Qed.

Lemma to_slide_data_theme (visuals : option VisualEngine) (d : SlideDict) :
  theme (to_slide_data visuals d)
  = match DesignTheme_call (key_theme d) with
    | Py.Ok t => t
    | Py.Raise _ => CORPORATE_MODERN
    end.
Proof.
  unfold to_slide_data.
  destruct (DesignTheme_call (key_theme d)); destruct visuals as [engine | ];
    repeat match goal with
           | |- context [if ?b then _ else _] => destruct b
           end; reflexivity.
Qed.

Lemma parsed_points_stored (visuals : option VisualEngine) (text : string)
    (record : SlideData) :
  In record (_parse_analysis_result visuals text) ->
  List.Forall stored_point (points record).
Proof.
  intros Hin. unfold _parse_analysis_result in Hin.
  apply in_map_iff in Hin. destruct Hin as (d & <- & Hd).
  rewrite to_slide_data_points.
  pose proof (fold_scan_points (lines_of text) initial_state
                (List.Forall_nil _)) as Hall.
  rewrite <- scan_lines_flush in Hall.
  rewrite List.Forall_forall in Hall. exact (Hall d Hd).
Qed.

(** The comprehension of [_extract_features] fails on the first point
    that is not empty and blank, and on nothing else. *)
Lemma features_from_cases (i : nat) (points : list string) :
  match features_from i points with
  | Py.Ok features =>
      List.length features = List.length points
      /\ existsb blank_point points = false
  | Py.Raise exc => exc = "IndexError" /\ existsb blank_point points = true
  end.
Proof.
  revert i. induction points as [ | point rest IH]; intros i.
  - split; reflexivity.
  - cbn [features_from existsb]. unfold blank_point at 1 3.
    destruct (PyStr.truthy point).
    + destruct (blank point) eqn:Eb.
      * rewrite (first_item_split_ws_blank point Eb). split; reflexivity.
      * destruct (first_item_split_ws point Eb) as (w & ->). cbn [Py.bind andb orb].
        specialize (IH (S i)).
        destruct (features_from (S i) rest) as [features | exc];
          cbn [Py.bind].
        -- destruct IH as [L E]. split; [cbn; rewrite L; reflexivity | exact E].
        -- exact IH.
    + cbn [Py.bind andb orb]. specialize (IH (S i)).
      destruct (features_from (S i) rest) as [features | exc]; cbn [Py.bind].
      * destruct IH as [L E]. split; [cbn; rewrite L; reflexivity | exact E].
      * exact IH.
Qed.

Lemma stored_not_blank_point (points : list string) :
  List.Forall stored_point points -> existsb blank_point points = false.
Proof.
  induction 1 as [ | point rest (_ & _ & Hb) _ IH]; [reflexivity | ].
  cbn [existsb]. unfold blank_point at 1. rewrite Hb, andb_false_r. exact IH.
Qed.

Lemma Forall_firstn {A : Type} (P : A -> Prop) (n : nat) (l : list A) :
  List.Forall P l -> List.Forall P (firstn n l).
Proof.
  intros H. rewrite List.Forall_forall in H |- *.
  intros a Ha. apply H. exact (firstn_in n l a Ha).
Qed.

(** A point that holds one of the keywords, in any case, is not
    blank. *)
Lemma keyword_not_blank (point : string) :
  existsb (fun keyword => PyStr.contains keyword (PyStr.lower point))
          component_keywords = true ->
  blank point = false.
Proof.
  intros H. apply existsb_exists in H. destruct H as (keyword & Hin & Hc).
  rewrite <- blank_lower.
  destruct Hin as [<- | [<- | [<- | [<- | []]]]];
    apply contains_has_char in Hc;
    (eapply has_char_not_blank; [ | exact Hc]; reflexivity).
Qed.

Lemma collect_components_cases (points : list string) :
  exists components,
    collect_components points = Py.Ok components
    /\ forall word,
         In word components ->
         exists point,
           In point points
           /\ existsb (fun keyword =>
                         PyStr.contains keyword (PyStr.lower point))
                      component_keywords = true
           /\ first_item (PyStr.split_ws point) = Py.Ok word.
Proof.
  induction points as [ | point rest (components & E & Hall)].
  - exists []. split; [reflexivity | ]. intros word [].
  - cbn [collect_components].
    destruct (existsb _ component_keywords) eqn:Ek.
    + destruct (first_item_split_ws point (keyword_not_blank point Ek))
        as (w & Hw).
      rewrite Hw, E. cbn [Py.bind].
      exists (w :: components). split; [reflexivity | ].
      intros word [<- | Hword].
      * exists point. split; [left; reflexivity | ]. split; assumption.
      * destruct (Hall word Hword) as (p & Hp & Hrest).
        exists p. split; [right; exact Hp | exact Hrest].
    + exists components. split; [exact E | ].
      intros word Hword. destruct (Hall word Hword) as (p & Hp & Hrest).
      exists p. split; [right; exact Hp | exact Hrest].
Qed.

(** ["." in s], by characters. *)
Lemma contains_full_stop (s : string) :
  PyStr.contains "." s = has_char "."%char s.
Proof.
  induction s as [ | a s IH]; [reflexivity | ].
  cbn [PyStr.contains PyStr.startswith has_char].
  rewrite IH. destruct s; rewrite andb_true_r; reflexivity.
Qed.

(** The first piece of [s.split(sep)]: the part of [s] before its first
    separator, or [s] when it has none. *)
Lemma split_first_piece (s : string) (sep : ascii) :
  exists piece pieces,
    PyStr.split s sep = piece :: pieces
    /\ PyStr.startswith s piece = true
    /\ has_char sep piece = false
    /\ (has_char sep s = false -> piece = s)
    /\ (has_char sep s = true ->
        exists rest, s = (piece ++ String sep rest)%string).
Proof.
  induction s as [ | c s (piece & pieces & E & Hp & Hn & Hs & Hr)].
  - exists EmptyString, []. repeat split. intros H. discriminate H.
  - cbn [PyStr.split has_char].
    destruct (Ascii.eqb_spec c sep) as [-> | Hne].
    + exists EmptyString, (PyStr.split s sep).
      rewrite Ascii.eqb_refl.
      split; [reflexivity | ]. split; [reflexivity | ].
      split; [reflexivity | ].
      split; [intros H; discriminate H | ].
      intros _. exists s. reflexivity.
    + rewrite E. exists (String c piece), pieces.
      assert (Hsc : Ascii.eqb sep c = false).
      { apply Ascii.eqb_neq. intros ->. apply Hne. reflexivity. }
      rewrite Hsc. cbn [orb].
      split; [reflexivity | ].
      split; [cbn [PyStr.startswith]; rewrite Ascii.eqb_refl; exact Hp | ].
      split; [cbn [has_char]; rewrite Hsc; exact Hn | ].
      split.
      * intros H. rewrite (Hs H). reflexivity.
      * intros H. destruct (Hr H) as (rest & ->).
        exists rest. rewrite append_cons. reflexivity.
Qed.

End Extraction.

(** X19. Every bullet of every record the parser returns is not empty and has
    no whitespace at either end ([strip] leaves it as it is), so that it
    holds a character that is not whitespace. *)
Theorem parsed_points_are_stripped
    (visuals : option Factory.VisualEngine) (text : string)
    (record : BaseEngine.SlideData) (point : string) :
  In record (Factory._parse_analysis_result visuals text) ->
  In point (BaseEngine.points record) ->
  PyStr.truthy point = true
  /\ PyStr.strip point = point
  /\ Props.blank point = false.
Proof.
  intros Hrecord Hpoint.
  pose proof (parsed_points_stored visuals text record Hrecord) as Hall.
  rewrite List.Forall_forall in Hall. exact (Hall point Hpoint).
Qed.

(** The bullet that follows the marker, in a text with two bullets
    before it. *)
Lemma parsed_points_are_stripped_witness :
  PyStr.truthy "third" = true
  /\ PyStr.strip "third" = "third"
  /\ Props.blank "third" = false.
Proof.
  apply (parsed_points_are_stripped None Samples.orphan_bullets_text
           (BaseEngine.mkSlideData "" ["third"] BaseEngine.CORPORATE_MODERN
                                   "content_slide" None None [])
           "third").
  - vm_compute. left. reflexivity.
  - left. reflexivity.
Defined.

(** X20. The theme of a record goes through its string and back: a theme
    line that holds the value of a theme, letter for letter, gives that
    theme; any other string gives [CORPORATE_MODERN], and nothing is
    raised. *)
Theorem parsed_theme_round_trip
    (visuals : option Factory.VisualEngine) (d : Factory.SlideDict) :
  (forall t,
     BaseEngine.DesignTheme_call (BaseEngine.theme_value t) = Py.Ok t)
  /\ (forall t,
        Factory.key_theme d = BaseEngine.theme_value t ->
        BaseEngine.theme (Factory.to_slide_data visuals d) = t)
  /\ ((forall t, Factory.key_theme d <> BaseEngine.theme_value t) ->
      BaseEngine.theme (Factory.to_slide_data visuals d)
      = BaseEngine.CORPORATE_MODERN).
Proof.
  assert (Hcall : forall t,
            BaseEngine.DesignTheme_call (BaseEngine.theme_value t) = Py.Ok t)
    by (intros t; destruct t; reflexivity).
  split; [exact Hcall | ]. split.
  - intros t E. rewrite to_slide_data_theme, E, Hcall. reflexivity.
  - intros Hnone. rewrite to_slide_data_theme.
    unfold BaseEngine.DesignTheme_call.
    destruct (find _ BaseEngine.all_themes) as [t | ] eqn:Ef; [ | reflexivity].
    apply find_some in Ef. destruct Ef as [_ Ef].
    apply String.eqb_eq in Ef. destruct (Hnone t). symmetry. exact Ef.
Qed.

(** X21. [_extract_features] raises [IndexError] exactly when one of the
    first four points is not empty and blank: such a point passes the
    test [if point] and its [split()] has no first word.  Otherwise it
    returns one feature for each of the first four points. *)
Theorem extract_features_fails_on_blank_point (points : list string) :
  match Factory._extract_features points with
  | Py.Ok features =>
      List.length features = Nat.min 4 (List.length points)
      /\ existsb Props.blank_point (firstn 4 points) = false
  | Py.Raise exc =>
      exc = "IndexError"
      /\ existsb Props.blank_point (firstn 4 points) = true
  end.
Proof.
  unfold Factory._extract_features.
  pose proof (features_from_cases 0 (firstn 4 points)) as H.
  destruct (Factory.features_from 0 (firstn 4 points)); [ | exact H].
  destruct H as [L E]. split; [ | exact E].
  rewrite L. apply length_firstn.
Qed.

(** X22. On the bullets of a record the parser has returned,
    [_extract_features] never fails: it gives one feature for each of
    the first four bullets. *)
Theorem parsed_points_give_features
    (visuals : option Factory.VisualEngine) (text : string)
    (record : BaseEngine.SlideData) :
  In record (Factory._parse_analysis_result visuals text) ->
  exists features,
    Factory._extract_features (BaseEngine.points record) = Py.Ok features
    /\ List.length features
       = Nat.min 4 (List.length (BaseEngine.points record)).
Proof.
  intros Hrecord.
  pose proof (parsed_points_stored visuals text record Hrecord) as Hall.
  pose proof (stored_not_blank_point _
                (Forall_firstn _ 4 _ Hall)) as Hnone.
  unfold Factory._extract_features.
  pose proof (features_from_cases 0 (firstn 4 (BaseEngine.points record)))
    as H.
  destruct (Factory.features_from 0 (firstn 4 (BaseEngine.points record)))
    as [features | exc].
  - exists features. split; [reflexivity | ].
    rewrite (proj1 H). apply length_firstn.
  - destruct H as [_ H]. congruence.
Qed.

Lemma parsed_points_give_features_witness :
  exists features,
    Factory._extract_features ["third"] = Py.Ok features
    /\ List.length features = Nat.min 4 (List.length ["third"]).
Proof.
  apply (parsed_points_give_features None Samples.orphan_bullets_text
           (BaseEngine.mkSlideData "" ["third"] BaseEngine.CORPORATE_MODERN
                                   "content_slide" None None [])).
  vm_compute. left. reflexivity.
Defined.

(** X23. [_extract_components] never fails: a point is asked for its first
    word only when it holds one of the four keywords, so it is not
    blank.  At most six components come back, each the first word of a
    point that holds a keyword. *)
Theorem extract_components_never_fails (points : list string) :
  exists components,
    Factory._extract_components points = Py.Ok components
    /\ (List.length components <= 6)%nat
    /\ forall word,
         In word components ->
         exists point,
           In point points
           /\ existsb (fun keyword =>
                         PyStr.contains keyword (PyStr.lower point))
                      Factory.component_keywords = true
           /\ Factory.first_item (PyStr.split_ws point) = Py.Ok word.
Proof.
  destruct (collect_components_cases points) as (components & E & Hall).
  exists (firstn 6 components).
  unfold Factory._extract_components. rewrite E.
  split; [reflexivity | ].
  split; [rewrite length_firstn; apply Nat.le_min_l | ].
  intros word Hword. apply Hall. exact (firstn_in _ _ _ Hword).
Qed.

(** X24. [_extract_milestones] never fails and gives one milestone for each
    of the first four points: the part of the point before its first
    full stop (the point is the milestone, a full stop and a rest, and
    the milestone holds no full stop), and the point itself when it has
    no full stop. *)
Theorem extract_milestones_cut_at_full_stop (points : list string) :
  exists milestones,
    Factory._extract_milestones points = Py.Ok milestones
    /\ Forall2 (fun point milestone =>
                  PyStr.startswith point milestone = true
                  /\ Props.has_char "."%char milestone = false
                  /\ (Props.has_char "."%char point = false ->
                      milestone = point)
                  /\ (Props.has_char "."%char point = true ->
                      exists rest,
                        point = (milestone ++ String "."%char rest)%string))
               (firstn 4 points) milestones.
Proof.
  unfold Factory._extract_milestones.
  generalize (firstn 4 points). clear points.
  intros points.
  induction points as [ | point rest (milestones & E & Hall)].
  - exists []. split; [reflexivity | constructor].
  - cbn [Factory.milestones_of]. rewrite contains_full_stop, E.
    destruct (split_first_piece point "."%char)
      as (piece & pieces & Es & Hp & Hn & Hs & Hr).
    destruct (Props.has_char "."%char point) eqn:Ec.
    + rewrite Es. cbn [Factory.first_item Py.bind].
      exists (piece :: milestones). split; [reflexivity | ].
      constructor; [ | exact Hall].
      split; [exact Hp | ]. split; [exact Hn | ].
      split; [intros H; congruence | ].
      intros _. exact (Hr eq_refl).
    + cbn [Py.bind]. exists (point :: milestones). split; [reflexivity | ].
      constructor; [ | exact Hall].
      rewrite (Hs eq_refl) in Hp, Hn.
      split; [exact Hp | ]. split; [exact Hn | ].
      split; [intros _; reflexivity | ].
      intros H. congruence.
Qed.

(** X25. [_extract_tech_stack] does not look at the case of the text: the
    text in lower case gives the same terms.  It reports at most five
    terms, each one of the thirteen known terms, found in the text
    whatever the case. *)
Theorem extract_tech_stack_ignores_case (analysis_result : string) :
  Factory._extract_tech_stack (PyStr.lower analysis_result)
  = Factory._extract_tech_stack analysis_result
  /\ (List.length (Factory._extract_tech_stack analysis_result) <= 5)%nat
  /\ forall tech,
       In tech (Factory._extract_tech_stack analysis_result) ->
       In tech Factory.tech_terms
       /\ PyStr.contains (PyStr.lower tech) (PyStr.lower analysis_result)
          = true.
Proof.
  unfold Factory._extract_tech_stack.
  split; [rewrite lower_idempotent; reflexivity | ].
  split; [rewrite length_firstn; apply Nat.le_min_l | ].
  intros tech Hin. apply firstn_in in Hin.
  apply filter_In in Hin. exact Hin.
Qed.

(** ** The choice of an engine ([create_engine]) *)

Section EngineChoiceFacts.

Import Factory.

Variable _available_engines : list string.
Variable enable_com_powerpoint : bool.
Variable enable_python_pptx_fallback : bool.
Variable com_engine : Py.result unit.
Variable pptx_engine : Py.result unit.




End EngineChoiceFacts.




